(** * SPS30 particulate-matter sensor driver: a shallow embedding

    The development follows [src/SPS30.py] (class [SPS30]) and the
    bit-twiddling decoder of [src/_old_/IEEE754.py].

    - Python integers are [Z]; bit operations are [Z.land], [Z.lxor],
      [Z.lor], [Z.shiftl], [Z.shiftr].
    - A [bytes] object or a list of small integers is a [list Z].
    - Python floats are [spec_float] values of the Standard Library, with
      the operations of the platform's float format (binary64 on CPython,
      binary32 on the single-precision MicroPython builds).
    - Methods that touch the object, the bus or the console are written in
      a state-and-exception monad over the record [sps30]; a raised
      exception keeps the state changes made before it, as in Python. *)

From Stdlib Require Import ZArith List String Bool Lia QArith Qpower.
From Stdlib Require Import Floats.SpecFloat.
Import ListNotations.
Local Open Scope string_scope.
Local Open Scope list_scope.
Local Open Scope Z_scope.

(** ** Python sequence helpers *)

(** [l[a:b]] for [0 <= a <= b]: never raises, may come out short. *)
Definition py_slice {A : Type} (l : list A) (a b : nat) : list A :=
  firstn (b - a) (skipn a l).

(** [l[a:]] for [0 <= a]. *)
Definition py_slice_from {A : Type} (l : list A) (a : nat) : list A :=
  skipn a l.

(** ** Platform floats *)

Module PyFloat.

(** The float format of the interpreter that runs the driver. *)
Inductive float_impl := Binary32 | Binary64.

Definition prec (fi : float_impl) : Z :=
  match fi with Binary32 => 24 | Binary64 => 53 end.

Definition emax (fi : float_impl) : Z :=
  match fi with Binary32 => 128 | Binary64 => 1024 end.

Definition float := spec_float.

Definition zero : float := S754_zero false.
Definition neg_zero : float := S754_zero true.
Definition inf : float := S754_infinity false.
Definition nan : float := S754_nan.

(** [float(n)] for an integer [n], rounded to nearest even. *)
Definition of_int (fi : float_impl) (n : Z) : float :=
  binary_normalize (prec fi) (emax fi) n 0 false.

Definition add (fi : float_impl) : float -> float -> float :=
  SFadd (prec fi) (emax fi).
Definition mul (fi : float_impl) : float -> float -> float :=
  SFmul (prec fi) (emax fi).
Definition div (fi : float_impl) : float -> float -> float :=
  SFdiv (prec fi) (emax fi).

(** [a / b] on two integers (true division), for operands that the
    format holds exactly, as are the 23-bit fraction and [1 << 23]. *)
Definition int_truediv (fi : float_impl) (a b : Z) : float :=
  div fi (of_int fi a) (of_int fi b).

(** [2 ** e] as it takes part in a float product: a float power for a
    negative [e], the integer [2^e] converted to float otherwise. *)
Definition pow2 (fi : float_impl) (e : Z) : float :=
  if e <? 0 then binary_round (prec fi) (emax fi) false 1 e
  else of_int fi (2 ^ e).

(** [a == b] on floats. *)
Definition eqb (a b : float) : bool := SFeqb a b.

(** The exact rational value of a finite float. *)
Definition to_Q (x : float) : option Q :=
  match x with
  | S754_zero _ => Some 0%Q
  | S754_finite s m e =>
      let mag := (if 0 <=? e then inject_Z (Z.pos m * 2 ^ e)
                  else (Z.pos m # Z.to_pos (2 ^ (- e))))%Q in
      Some (if s then (- mag)%Q else mag)
  | _ => None
  end.

(** [struct.unpack(">f", u32.to_bytes(4, "big"))[0]]: the binary32 value
    whose bit pattern is [u32], as a platform float. This is the
    library's decoding, not code of the driver. *)
Definition unpack_f32 (fi : float_impl) (u32 : Z) : float :=
  let s := Z.testbit u32 31 in
  let e := Z.land (Z.shiftr u32 23) 0xFF in
  let f := Z.land u32 0x7FFFFF in
  if e =? 0xFF then (if f =? 0 then S754_infinity s else S754_nan)
  else
    let m := if e =? 0 then f else 0x800000 + f in
    let ex := if e =? 0 then -149 else e - 150 in
    binary_normalize (prec fi) (emax fi) (if s then - m else m) ex s.

End PyFloat.

Definition float : Type := PyFloat.float.

(** ** Checksum engine *)

(** One of the eight shift steps of [crc_calc]:
    [crc = ((crc << 1) ^ 0x31) & 0xFF if crc & 0x80 else (crc << 1) & 0xFF]. *)
Definition crc_step (crc : Z) : Z :=
  if negb (Z.land crc 0x80 =? 0)
  then Z.land (Z.lxor (Z.shiftl crc 1) 0x31) 0xFF
  else Z.land (Z.shiftl crc 1) 0xFF.

(** The body of [for byte in data]: [crc ^= byte], then eight steps. *)
Definition crc_byte (crc byte : Z) : Z :=
  Nat.iter 8 crc_step (Z.lxor crc byte).

(** The loop of [crc_calc] from [crc = 0xFF]. *)
Definition crc_loop (data : list Z) : Z :=
  fold_left crc_byte data 0xFF.

(** The checksum as the specification words it: accumulator [0xFF]; for
    each of the two bytes XOR it in, then eight times: when the high bit
    is set, shift left and XOR with [0x31], else shift left, every result
    masked to eight bits. *)
Module ChecksumSpec.

Definition high_bit_set (acc : Z) : bool := Z.testbit acc 7.

Definition mask8 (x : Z) : Z := x mod 256.

Definition iteration (acc : Z) : Z :=
  if high_bit_set acc then mask8 (Z.lxor (2 * acc) 0x31)
  else mask8 (2 * acc).

Fixpoint iterations (n : nat) (acc : Z) : Z :=
  match n with
  | O => acc
  | S n' => iterations n' (iteration acc)
  end.

Definition absorb (acc byte : Z) : Z := iterations 8 (Z.lxor acc byte).

Definition checksum (b0 b1 : Z) : Z := absorb (absorb 0xFF b0) b1.

End ChecksumSpec.

(** ** The driver object and its environment *)

(** The exceptions that the modelled code can meet. *)
Inductive exn :=
| OSError | IndexError | KeyError | AttributeError | ValueError.

(** What the driver does to the outside world, in order. A message holds
    the fixed text of the source's [print] or [_dbg] call; the values that
    the source interpolates into it are left out. *)
Inductive io_event :=
| I2CWrite (addr : Z) (payload : list Z) (ok : bool)
| I2CRead (addr : Z) (nbytes : Z) (got : option (list Z))
| SleepUs (us : Z)
| SclSdaOutputHigh
| SclOff
| SclOn
| SclSdaOpenDrain
| I2CInit
| Console (text : string).

(** [self._valid]: one flag per section. *)
Record validity := {
  v_mass_density : bool;
  v_particle_count : bool;
  v_particle_size : bool
}.

(** [all(self._valid.values())] *)
Definition all_valid (v : validity) : bool :=
  v_mass_density v && v_particle_count v && v_particle_size v.

(** A [dict] from size-bucket label to magnitude, in insertion order. *)
Definition dict := list (string * float).

Fixpoint dict_lookup (d : dict) (k : string) : option float :=
  match d with
  | [] => None
  | (k', v) :: d' => if String.eqb k' k then Some v else dict_lookup d' k
  end.

(** [d[k] = v]: replaces the value of a present key in place, appends a
    new key at the end. *)
Fixpoint dict_set (d : dict) (k : string) (v : float) : dict :=
  match d with
  | [] => [(k, v)]
  | (k', v') :: d' =>
      if String.eqb k' k then (k, v) :: d' else (k', v') :: dict_set d' k v
  end.

Definition dict_keys (d : dict) : list string := map fst d.

(** The measurement frame of [get_measurement]. *)
Record frame := {
  mass_density : dict;
  particle_count : dict;
  particle_size : float
}.

(** The object's attributes together with the environment the methods
    act on.

    - [has_struct], [float_impl]: the interpreter (whether [struct] and
      [int.to_bytes] exist, and its float format).
    - [writes], [reads]: the outcomes of the coming [i2c.writeto] and
      [i2c.readfrom] calls, one per call; [false] / [None] is an
      [OSError], and so is an exhausted script.
    - [trace]: the I/O done so far, oldest first.
    - [ticks]: what [ticks_ms()] returns.
    - [_hist_frames = None] means the attribute is not set;
      [_hist_maxlen = None] is both "not set" and "set to None", which
      [getattr(self, "_hist_maxlen", None)] does not tell apart. *)
Record sps30 := {
  debug : bool;
  _is_measuring : bool;
  _valid : validity;
  _total_crc_errors : Z;
  _last_measurement_crc_errors : Z;
  _hist_frames : option (list frame);
  _hist_maxlen : option Z;
  has_struct : bool;
  float_impl : PyFloat.float_impl;
  writes : list bool;
  reads : list (option (list Z));
  trace : list io_event;
  ticks : Z
}.

Definition set_is_measuring (b : bool) (s : sps30) : sps30 :=
  {| debug := debug s; _is_measuring := b; _valid := _valid s;
     _total_crc_errors := _total_crc_errors s;
     _last_measurement_crc_errors := _last_measurement_crc_errors s;
     _hist_frames := _hist_frames s; _hist_maxlen := _hist_maxlen s;
     has_struct := has_struct s; float_impl := float_impl s;
     writes := writes s; reads := reads s; trace := trace s;
     ticks := ticks s |}.

Definition set_valid (v : validity) (s : sps30) : sps30 :=
  {| debug := debug s; _is_measuring := _is_measuring s; _valid := v;
     _total_crc_errors := _total_crc_errors s;
     _last_measurement_crc_errors := _last_measurement_crc_errors s;
     _hist_frames := _hist_frames s; _hist_maxlen := _hist_maxlen s;
     has_struct := has_struct s; float_impl := float_impl s;
     writes := writes s; reads := reads s; trace := trace s;
     ticks := ticks s |}.

Definition set_total_crc_errors (n : Z) (s : sps30) : sps30 :=
  {| debug := debug s; _is_measuring := _is_measuring s; _valid := _valid s;
     _total_crc_errors := n;
     _last_measurement_crc_errors := _last_measurement_crc_errors s;
     _hist_frames := _hist_frames s; _hist_maxlen := _hist_maxlen s;
     has_struct := has_struct s; float_impl := float_impl s;
     writes := writes s; reads := reads s; trace := trace s;
     ticks := ticks s |}.

Definition set_last_measurement_crc_errors (n : Z) (s : sps30) : sps30 :=
  {| debug := debug s; _is_measuring := _is_measuring s; _valid := _valid s;
     _total_crc_errors := _total_crc_errors s;
     _last_measurement_crc_errors := n;
     _hist_frames := _hist_frames s; _hist_maxlen := _hist_maxlen s;
     has_struct := has_struct s; float_impl := float_impl s;
     writes := writes s; reads := reads s; trace := trace s;
     ticks := ticks s |}.

Definition set_hist (fs : option (list frame)) (n : option Z) (s : sps30)
  : sps30 :=
  {| debug := debug s; _is_measuring := _is_measuring s; _valid := _valid s;
     _total_crc_errors := _total_crc_errors s;
     _last_measurement_crc_errors := _last_measurement_crc_errors s;
     _hist_frames := fs; _hist_maxlen := n;
     has_struct := has_struct s; float_impl := float_impl s;
     writes := writes s; reads := reads s; trace := trace s;
     ticks := ticks s |}.

Definition set_writes (w : list bool) (s : sps30) : sps30 :=
  {| debug := debug s; _is_measuring := _is_measuring s; _valid := _valid s;
     _total_crc_errors := _total_crc_errors s;
     _last_measurement_crc_errors := _last_measurement_crc_errors s;
     _hist_frames := _hist_frames s; _hist_maxlen := _hist_maxlen s;
     has_struct := has_struct s; float_impl := float_impl s;
     writes := w; reads := reads s; trace := trace s;
     ticks := ticks s |}.

Definition set_reads (r : list (option (list Z))) (s : sps30) : sps30 :=
  {| debug := debug s; _is_measuring := _is_measuring s; _valid := _valid s;
     _total_crc_errors := _total_crc_errors s;
     _last_measurement_crc_errors := _last_measurement_crc_errors s;
     _hist_frames := _hist_frames s; _hist_maxlen := _hist_maxlen s;
     has_struct := has_struct s; float_impl := float_impl s;
     writes := writes s; reads := r; trace := trace s;
     ticks := ticks s |}.

(** Appends events to the trace. *)
Definition emit (evs : list io_event) (s : sps30) : sps30 :=
  {| debug := debug s; _is_measuring := _is_measuring s; _valid := _valid s;
     _total_crc_errors := _total_crc_errors s;
     _last_measurement_crc_errors := _last_measurement_crc_errors s;
     _hist_frames := _hist_frames s; _hist_maxlen := _hist_maxlen s;
     has_struct := has_struct s; float_impl := float_impl s;
     writes := writes s; reads := reads s; trace := trace s ++ evs;
     ticks := ticks s |}.

(** ** The monad of the methods *)

Inductive outcome (A : Type) :=
| Ok (a : A)
| Raise (e : exn).
Arguments Ok {A} a.
Arguments Raise {A} e.

Definition M (A : Type) : Type := sps30 -> outcome A * sps30.

Definition ret {A} (a : A) : M A := fun s => (Ok a, s).

Definition bind {A B} (m : M A) (k : A -> M B) : M B :=
  fun s => match m s with
           | (Ok a, s') => k a s'
           | (Raise e, s') => (Raise e, s')
           end.

Definition raise {A} (e : exn) : M A := fun s => (Raise e, s).

(** [try: m  except Exception as e: h e] *)
Definition try_except {A} (m : M A) (h : exn -> M A) : M A :=
  fun s => match m s with
           | (Ok a, s') => (Ok a, s')
           | (Raise e, s') => h e s'
           end.

(** [try: m  except OSError as e: h]: other exceptions pass through. *)
Definition try_except_OSError {A} (m : M A) (h : M A) : M A :=
  try_except m (fun e => match e with OSError => h | _ => raise e end).

Definition gets {A} (f : sps30 -> A) : M A := fun s => (Ok (f s), s).

Definition modify (f : sps30 -> sps30) : M unit := fun s => (Ok tt, f s).

Declare Scope py_scope.
Delimit Scope py_scope with py.
Notation "x <- m ;; k" := (bind m (fun x => k))
  (at level 61, m at next level, right associativity) : py_scope.
Notation "m ;; k" := (bind m (fun _ => k))
  (at level 61, right associativity) : py_scope.
Local Open Scope py_scope.

(** [if c: m] with no [else]. *)
Definition when (c : bool) (m : M unit) : M unit :=
  if c then m else ret tt.

(** [print(...)] *)
Definition print (text : string) : M unit := modify (emit [Console text]).

(** [self._dbg(...)]: prints only when [self.debug] is true. *)
Definition _dbg (text : string) : M unit :=
  d <- gets debug ;; when d (print ("[SPS30] " ++ text)%string).

(** [seq[i]] for [0 <= i]: [IndexError] past the end. *)
Definition index {A} (l : list A) (i : nat) : M A :=
  match nth_error l i with
  | Some x => ret x
  | None => raise IndexError
  end.

(** [d[k]] on a dict: [KeyError] for a missing key. *)
Definition dict_get (d : dict) (k : string) : M float :=
  match dict_lookup d k with
  | Some v => ret v
  | None => raise KeyError
  end.

(** ** Constants of the class *)

Definition I2C_ADDRESS : Z := 0x69.

Definition CMD_START_MEASUREMENT : list Z := [0x00; 0x10].
Definition CMD_STOP_MEASUREMENT : list Z := [0x01; 0x04].
Definition CMD_READ_DATA_READY_FLAG : list Z := [0x02; 0x02].
Definition CMD_READ_MEASURED_VALUES : list Z := [0x03; 0x00].
Definition CMD_AUTO_CLEANING_INTERVAL : list Z := [0x80; 0x04].
Definition CMD_RESET : list Z := [0xD3; 0x04].

Definition NBYTES_READ_DATA_READY_FLAG : nat := 3.
Definition NBYTES_MEASURED_VALUES_FLOAT : nat := 60.
Definition NBYTES_AUTO_CLEANING_INTERVAL : nat := 6.

Definition PACKET_SIZE : nat := 3.
Definition SIZE_FLOAT : nat := 6.

(** [range(0, SIZE_FLOAT, PACKET_SIZE)] *)
Definition packet_offsets : list nat := [0; 3]%nat.

(** ** Transport *)

(** [time.sleep(seconds)], logged in microseconds. *)
Definition sleep_us (us : Z) : M unit := modify (emit [SleepUs us]).

(** [bytes(cmd)]: [ValueError] unless every element is in [range(256)]. *)
Definition to_bytes (cmd : list Z) : M (list Z) :=
  if forallb (fun b => (0 <=? b) && (b <? 256)) cmd then ret cmd
  else raise ValueError.

(** [self.i2c.writeto(addr, payload)]: takes the next write outcome. *)
Definition i2c_writeto (addr : Z) (payload : list Z) : M unit :=
  fun s =>
    match writes s with
    | true :: w =>
        (Ok tt, emit [I2CWrite addr payload true] (set_writes w s))
    | false :: w =>
        (Raise OSError, emit [I2CWrite addr payload false] (set_writes w s))
    | [] => (Raise OSError, emit [I2CWrite addr payload false] s)
    end.

(** [self.i2c.readfrom(addr, nbytes)]: takes the next read outcome.
    [machine.I2C.readfrom] returns exactly [nbytes] bytes or raises
    [OSError]. The scripted bus is more liberal: it hands back whatever
    the script holds, so that the length checks of the callers can be
    followed on answers of any length. [exact_read] below is the contract
    of the real bus. *)
Definition i2c_readfrom (addr : Z) (nbytes : nat) : M (list Z) :=
  fun s =>
    match reads s with
    | Some data :: r =>
        (Ok data,
         emit [I2CRead addr (Z.of_nat nbytes) (Some data)] (set_reads r s))
    | None :: r =>
        (Raise OSError,
         emit [I2CRead addr (Z.of_nat nbytes) None] (set_reads r s))
    | [] => (Raise OSError, emit [I2CRead addr (Z.of_nat nbytes) None] s)
    end.

(** The nine clock cycles of [_bus_reset]:
    [scl.off(); sleep(0.00001); scl.on(); sleep(0.00001)]. *)
Definition scl_toggle : list io_event := [SclOff; SleepUs 10; SclOn; SleepUs 10].

Definition bus_reset_events : list io_event :=
  [SclSdaOutputHigh]
  ++ List.concat (repeat scl_toggle 9)
  ++ [SclSdaOpenDrain; I2CInit].

(** [SPS30._bus_reset]. The [Pin] and [I2C] constructors are taken to
    succeed. *)
Definition _bus_reset : M unit :=
  _dbg "BUS RESET" ;;
  modify (emit bus_reset_events).

(** [SPS30._write_cmd(cmd, guard_ms)] *)
Definition _write_cmd (cmd : list Z) (guard_ms : Z) : M unit :=
  _dbg "->" ;;
  try_except_OSError
    (payload <- to_bytes cmd ;; i2c_writeto I2C_ADDRESS payload)
    (_dbg "I2C write error" ;; _bus_reset ;; raise OSError) ;;
  when (negb (guard_ms =? 0)) (sleep_us (guard_ms * 1000)).

(** [SPS30._read_response(length)] *)
Definition _read_response (length : nat) : M (list Z) :=
  data <- try_except_OSError
            (i2c_readfrom I2C_ADDRESS length)
            (_dbg "I2C read error" ;; _bus_reset ;; raise OSError) ;;
  d <- gets debug ;;
  when d (_dbg "<-" ;;
          when (negb (Nat.eqb (List.length data) length))
               (_dbg "* length mismatch")) ;;
  ret data.

(** [SPS30.crc_calc(data)] *)
Definition crc_calc (data : list Z) : M Z :=
  if negb (Nat.eqb (List.length data) 2) then
    _dbg "CRC warn: need 2 bytes" ;;
    ret 0xFF
  else
    ret (crc_loop data).

(** [self._total_crc_errors += 1] *)
Definition count_crc_error : M unit :=
  modify (fun s => set_total_crc_errors (_total_crc_errors s + 1) s).

(** ** Float decoding *)

(** [src/_old_/IEEE754.py]. *)
Module IEEE754.

(** [ieee754_to_float(u32)]: the bit-twiddling decoder. None of its
    operations raises, so the [except] branch (return [0.0]) is dead. *)
Definition ieee754_to_float (fi : PyFloat.float_impl) (u32 : Z) : float :=
  let u32 := Z.land u32 0xFFFFFFFF in
  let sign_bit := Z.shiftr u32 31 in
  let exponent_bits := Z.land (Z.shiftr u32 23) 0xFF in
  let fraction_bits := Z.land u32 0x7FFFFF in
  if (exponent_bits =? 0) && (fraction_bits =? 0) then
    (if negb (sign_bit =? 0) then PyFloat.neg_zero else PyFloat.zero)
  else if exponent_bits =? 0xFF then
    (if negb (fraction_bits =? 0) then PyFloat.nan
     else PyFloat.mul fi PyFloat.inf (PyFloat.of_int fi ((-1) ^ sign_bit)))
  else
    let bias := 127 in
    let '(exp, mantissa) :=
      if exponent_bits =? 0 then
        (1 - bias, PyFloat.int_truediv fi fraction_bits (Z.shiftl 1 23))
      else
        (exponent_bits - bias,
         PyFloat.add fi (PyFloat.of_int fi 1)
           (PyFloat.int_truediv fi fraction_bits (Z.shiftl 1 23))) in
    PyFloat.mul fi
      (PyFloat.mul fi (PyFloat.of_int fi ((-1) ^ sign_bit)) mantissa)
      (PyFloat.pow2 fi exp).

End IEEE754.

(** [SPS30.ieee754_number_conversion(u32)] (a static method): the
    [struct] fast path where the interpreter has it, else the fallback. *)
Definition ieee754_number_conversion
  (struct_available : bool) (fi : PyFloat.float_impl) (u32 : Z) : float :=
  let u32 := Z.land u32 0xFFFFFFFF in
  if struct_available then PyFloat.unpack_f32 fi u32
  else
    let s := Z.shiftr u32 31 in
    let e := Z.land (Z.shiftr u32 23) 0xFF in
    let f := Z.land u32 0x7FFFFF in
    if (e =? 0) && (f =? 0) then
      (if negb (s =? 0) then PyFloat.neg_zero else PyFloat.zero)
    else if e =? 0xFF then
      (if negb (f =? 0) then PyFloat.nan
       else PyFloat.mul fi PyFloat.inf (PyFloat.of_int fi ((-1) ^ s)))
    else
      let bias := 127 in
      let '(exp, mant) :=
        if e =? 0 then (1 - bias, PyFloat.int_truediv fi f (Z.shiftl 1 23))
        else (e - bias,
              PyFloat.add fi (PyFloat.of_int fi 1)
                (PyFloat.int_truediv fi f (Z.shiftl 1 23))) in
      PyFloat.mul fi (PyFloat.mul fi (PyFloat.of_int fi ((-1) ^ s)) mant)
        (PyFloat.pow2 fi exp).

(** [self.ieee754_number_conversion(raw_value)] on the running platform. *)
Definition convert (raw_value : Z) : M float :=
  gets (fun s => ieee754_number_conversion (has_struct s) (float_impl s)
                   raw_value).

(** ** Loops with an early [return] *)

Inductive flow (R A : Type) :=
| Continue (acc : A)
| Return (r : R).
Arguments Continue {R A} acc.
Arguments Return {R A} r.

(** [for x in xs: body], threading the loop's variables as [acc]; a
    [Return] leaves the loop and the enclosing method. *)
Fixpoint for_each {X R A} (xs : list X) (body : X -> A -> M (flow R A))
  (acc : A) : M (flow R A) :=
  match xs with
  | [] => ret (Continue acc)
  | x :: xs' =>
      r <- body x acc ;;
      match r with
      | Continue acc' => for_each xs' body acc'
      | Return v => ret (Return v)
      end
  end.

(** [enumerate(l)] *)
Definition enumerate {A} (l : list A) : list (nat * A) :=
  combine (seq 0 (List.length l)) l.

Fixpoint prints (texts : list string) : M unit :=
  match texts with
  | [] => ret tt
  | t :: ts => print t ;; prints ts
  end.

(** [(b0 << 24) | (b1 << 16) | (b2 << 8) | b3] for the four collected
    bytes. *)
Definition raw_value_of (pm_data : list Z) : M Z :=
  b0 <- index pm_data 0 ;;
  b1 <- index pm_data 1 ;;
  b2 <- index pm_data 2 ;;
  b3 <- index pm_data 3 ;;
  ret (Z.lor (Z.lor (Z.lor (Z.shiftl b0 24) (Z.shiftl b1 16))
                (Z.shiftl b2 8)) b3).

(** ** Measurement assembler *)

Inductive section := MassDensity | ParticleCount | ParticleSize.

(** [self._valid] with the flag of one section replaced. *)
Definition with_section (sec : section) (b : bool) (v : validity) : validity :=
  match sec with
  | MassDensity =>
      {| v_mass_density := b; v_particle_count := v_particle_count v;
         v_particle_size := v_particle_size v |}
  | ParticleCount =>
      {| v_mass_density := v_mass_density v; v_particle_count := b;
         v_particle_size := v_particle_size v |}
  | ParticleSize =>
      {| v_mass_density := v_mass_density v;
         v_particle_count := v_particle_count v; v_particle_size := b |}
  end.

Definition mark_section (sec : section) (b : bool) (s : sps30) : sps30 :=
  set_valid (with_section sec b (_valid s)) s.

(** [self._valid[section] = b] *)
Definition set_section_valid (sec : section) (b : bool) : M unit :=
  modify (mark_section sec b).

(** The lines printed at a checksum mismatch. *)
Definition mismatch_report (sec : section) : list string :=
  match sec with
  | MassDensity =>
      ["MASS DENSITY MEASUREMENT CRC MISMATCH!"; "PM Type"; "Block, Packet";
       "Offset"; "Data"; "Calculated CRC"; "Received CRC"]
  | ParticleCount =>
      ["PARTICLE COUNT MEASUREMENT CRC MISMATCH!"; "PM Type"; "Block, Packet";
       "Offset"; "Data"; "Calculated CRC"; "Received CRC"]
  | ParticleSize =>
      ["PARTICLE SIZE MEASUREMENT CRC MISMATCH!"; "Packet"; "Offset"; "Data";
       "Calculated CRC"; "Received CRC"]
  end.

(** The inner loop that the three section methods share:
    [for i in range(0, SIZE_FLOAT, PACKET_SIZE)] over the two packets of
    the float at [base]. A mismatch counts one error, prints the report,
    clears the section's flag and returns [early] from the method. *)
Definition float_packets {R} (sec : section) (early : R) (base : nat)
  (data : list Z) : M (flow R (list Z)) :=
  for_each packet_offsets
    (fun i pm_data =>
       let offset := (base + i)%nat in
       let data_bytes := py_slice data offset (offset + 2) in
       calculated_crc <- crc_calc data_bytes ;;
       received_crc <- index data (offset + 2) ;;
       if negb (calculated_crc =? received_crc) then
         count_crc_error ;;
         prints (mismatch_report sec) ;;
         set_section_valid sec false ;;
         ret (Return early)
       else
         ret (Continue (pm_data ++ data_bytes)%list))
    [].

(** The body of the outer loop of [_mass_density_measurement] and
    [_particle_count_measurement], which differ by the labels, the
    message and the flag: one pass of
    [for block, pm in enumerate(category)]. *)
Definition float_field (sec : section) (data : list Z)
  : nat * string -> dict -> M (flow dict dict) :=
  fun '(block, pm) values =>
    p <- float_packets sec ([] : dict) (block * SIZE_FLOAT) data ;;
    match p with
    | Return early => ret (Return early)
    | Continue pm_data =>
        raw_value <- raw_value_of pm_data ;;
        v <- convert raw_value ;;
        ret (Continue (dict_set values pm v))
    end.

(** The two methods from their dict of zeros to their last line. *)
Definition float_fields (sec : section) (category : list string)
  (data : list Z) : M dict :=
  let initial := map (fun pm => (pm, PyFloat.zero)) category in
  r <- for_each (enumerate category) (float_field sec data) initial ;;
  match r with
  | Return early => ret early
  | Continue values =>
      set_section_valid sec true ;;
      ret values
  end.

Definition mass_density_category : list string :=
  ["pm1.0"; "pm2.5"; "pm4.0"; "pm10"].

Definition particle_count_category : list string :=
  ["pm0.5"; "pm1.0"; "pm2.5"; "pm4.0"; "pm10"].

(** [SPS30._mass_density_measurement(data)] *)
Definition _mass_density_measurement (data : list Z) : M dict :=
  _dbg "_mass_density_measurement() len" ;;
  float_fields MassDensity mass_density_category data.

(** [SPS30._particle_count_measurement(data)] *)
Definition _particle_count_measurement (data : list Z) : M dict :=
  _dbg "_particle_count_measurement() len" ;;
  float_fields ParticleCount particle_count_category data.

(** [SPS30._particle_size_measurement(data)] *)
Definition _particle_size_measurement (data : list Z) : M float :=
  _dbg "_particle_size_measurement() len" ;;
  p <- float_packets ParticleSize PyFloat.zero 0 data ;;
  match p with
  | Return early => ret early
  | Continue size_data =>
      set_section_valid ParticleSize true ;;
      raw_value <- raw_value_of size_data ;;
      convert raw_value
  end.

(** ** Device session *)

Definition no_section_valid : validity :=
  {| v_mass_density := false; v_particle_count := false;
     v_particle_size := false |}.

(** [SPS30.start_measurement()] *)
Definition start_measurement : M bool :=
  _dbg "start_measurement()" ;;
  try_except
    (let cmd := (CMD_START_MEASUREMENT ++ [0x03; 0x00])%list in
     crc <- crc_calc (py_slice cmd 2 4) ;;
     let cmd := (cmd ++ [crc])%list in
     d <- gets debug ;;
     when d (expected_crc <- crc_calc [0x03; 0x00] ;;
             prints ["Start measurement command"; "Data format";
                     "Expected CRC"]) ;;
     _write_cmd cmd 0 ;;
     modify (set_is_measuring true) ;;
     modify (set_valid no_section_valid) ;;
     ret true)
    (fun e => print "Failed to start measurement" ;; ret false).

(** [SPS30.stop_measurement()] *)
Definition stop_measurement : M bool :=
  _dbg "stop_measurement()" ;;
  try_except
    (_write_cmd CMD_STOP_MEASUREMENT 0 ;;
     modify (set_is_measuring false) ;;
     ret true)
    (fun e => print "Failed to stop measurement" ;; ret false).

(** [SPS30.reset()] *)
Definition reset : M bool :=
  try_except
    (_write_cmd CMD_RESET 0 ;;
     modify (set_is_measuring false) ;;
     modify (set_total_crc_errors 0) ;;
     modify (set_last_measurement_crc_errors 0) ;;
     ret true)
    (fun e => print "Reset failed" ;; ret false).

(** [SPS30.read_data_ready_flag()] *)
Definition read_data_ready_flag : M bool :=
  _dbg "read_data_ready_flag()" ;;
  try_except
    (_write_cmd CMD_READ_DATA_READY_FLAG 20 ;;
     data <- _read_response NBYTES_READ_DATA_READY_FLAG ;;
     calculated_crc <- crc_calc (py_slice data 0 2) ;;
     received_crc <- index data 2 ;;
     if negb (calculated_crc =? received_crc) then
       count_crc_error ;;
       prints ["READ DATA READY FLAG CRC MISMATCH!"; "Data";
               "Calculated CRC"; "Received CRC"] ;;
       ret false
     else
       ready_flag <- index data 1 ;;
       ret (ready_flag =? 1))
    (fun e =>
       d <- gets debug ;;
       when d (print "Data ready check failed") ;;
       ret false).

(** ** Auto-clean interval *)

(** What the two interval methods return: seconds, [None] or [False]. *)
Inductive interval_result :=
| Seconds (seconds : Z)
| IntervalNone
| IntervalFalse.

(** [SPS30.read_auto_cleaning_interval()]. The loop variables
    [lo_word] and [hi_word] start as [None] in the source and are both
    assigned before they are read; they start as [0] here. *)
Definition read_auto_cleaning_interval : M interval_result :=
  _dbg "read_auto_cleaning_interval()" ;;
  _write_cmd CMD_AUTO_CLEANING_INTERVAL 0 ;;
  data <- _read_response NBYTES_AUTO_CLEANING_INTERVAL ;;
  if negb (Nat.eqb (List.length data) NBYTES_AUTO_CLEANING_INTERVAL) then
    d <- gets debug ;;
    when d (print "AUTO-CLEAN interval: length mismatch") ;;
    ret IntervalNone
  else
    r <- for_each [0; 3]%nat
           (fun offset '(lo_word, hi_word) =>
              let chunk := py_slice data offset (offset + 2) in
              received_crc <- index data (offset + 2) ;;
              calc_crc <- crc_calc chunk ;;
              if negb (calc_crc =? received_crc) then
                count_crc_error ;;
                d <- gets debug ;;
                when d (print "AUTO-CLEAN CRC error @ offset") ;;
                ret (Return IntervalNone)
              else
                c0 <- index chunk 0 ;;
                c1 <- index chunk 1 ;;
                let word := Z.lor (Z.shiftl c0 8) c1 in
                if Nat.eqb offset 0 then ret (Continue (word, hi_word))
                else ret (Continue (lo_word, word)))
           (0, 0) ;;
    match r with
    | Return early => ret early
    | Continue (lo_word, hi_word) =>
        ret (Seconds (Z.lor (Z.shiftl hi_word 16) lo_word))
    end.

(** The command that [write_auto_cleaning_interval_days] builds:
    opcode, low half-word and its checksum, high half-word and its
    checksum. *)
Definition auto_cleaning_interval_cmd (seconds : Z) : M (list Z) :=
  let lo := Z.land seconds 0xFFFF in
  let hi := Z.shiftr seconds 16 in
  let cmd := CMD_AUTO_CLEANING_INTERVAL in
  let cmd := (cmd ++ [Z.land (Z.shiftr lo 8) 0xFF; Z.land lo 0xFF])%list in
  crc_lo <- crc_calc (py_slice cmd 2 4) ;;
  let cmd := (cmd ++ [crc_lo])%list in
  let cmd := (cmd ++ [Z.land (Z.shiftr hi 8) 0xFF; Z.land hi 0xFF])%list in
  crc_hi <- crc_calc (py_slice cmd 5 7) ;;
  ret (cmd ++ [crc_hi])%list.

(** [SPS30.write_auto_cleaning_interval_days(days)] for an integer
    [days]. *)
Definition write_auto_cleaning_interval_days (days : Z) : M interval_result :=
  _dbg "write_auto_cleaning_interval_days(days)" ;;
  try_except
    (let seconds := days * 86400 in
     cmd <- auto_cleaning_interval_cmd seconds ;;
     d <- gets debug ;;
     when d (prints ["auto-clean = days -> s"; "cmd ="]) ;;
     _write_cmd cmd 0 ;;
     read_auto_cleaning_interval)
    (fun e => print "Failed to set auto-clean interval" ;; ret IntervalFalse).

(** ** Measurement frames and the rolling aggregator *)

(** [result["sensor_data"]]: a copy of the frame with the unit strings. *)
Record sensor_data := {
  sd_mass_density : dict;
  sd_particle_count : dict;
  sd_particle_size : float;
  mass_density_unit : string;
  particle_count_unit : string;
  particle_size_unit : string
}.

(** [result["measurement_info"]] *)
Record measurement_info := {
  timestamp : Z;
  crc_errors_this_measurement : Z;
  total_crc_errors : Z;
  all_sections_valid : bool;
  validity_copy : validity;
  info_rolling_n : Z
}.

(** The non-empty result of [get_measurement]; the empty dict [{}] is
    [None]. *)
Record measurement := {
  result_sensor_data : sensor_data;
  result_measurement_info : measurement_info
}.

(** [s = 0.0; for f in self._hist_frames: s += field(f)] *)
Fixpoint sum_over (fi : PyFloat.float_impl) (field : frame -> M float)
  (frames : list frame) (s : float) : M float :=
  match frames with
  | [] => ret s
  | f :: frames' =>
      x <- field f ;;
      sum_over fi field frames' (PyFloat.add fi s x)
  end.

(** [avg = {}; for k in first[block]: ...; avg[k] = s / n] *)
Fixpoint average_block (fi : PyFloat.float_impl) (block : frame -> dict)
  (frames : list frame) (n : Z) (keys : list string) (avg : dict)
  : M dict :=
  match keys with
  | [] => ret avg
  | k :: keys' =>
      s <- sum_over fi (fun f => dict_get (block f) k) frames PyFloat.zero ;;
      average_block fi block frames n keys'
        (dict_set avg k (PyFloat.div fi s (PyFloat.of_int fi n)))
  end.

(** The averaging part of the rolling logic, over a window of at least
    one frame. *)
Definition average_frames (frames : list frame) : M frame :=
  fi <- gets float_impl ;;
  let n := Z.of_nat (List.length frames) in
  first <- index frames 0 ;;
  avg_mass <- average_block fi mass_density frames n
                (dict_keys (mass_density first)) [] ;;
  avg_count <- average_block fi particle_count frames n
                 (dict_keys (particle_count first)) [] ;;
  s_size <- sum_over fi (fun f => ret (particle_size f)) frames PyFloat.zero ;;
  let avg_size := PyFloat.div fi s_size (PyFloat.of_int fi n) in
  ret {| mass_density := avg_mass; particle_count := avg_count;
         particle_size := avg_size |}.

(** The [if rolling_n > 1:] block: [Return None] is its [return {}]. *)
Definition rolling_average (rolling_n : Z) (fr : frame)
  : M (flow (option measurement) frame) :=
  if 1 <? rolling_n then
    hist <- gets _hist_frames ;;
    match hist with
    | None => raise AttributeError
    | Some frames =>
        let frames := (frames ++ [fr])%list in
        let frames :=
          if rolling_n <? Z.of_nat (List.length frames) then tl frames
          else frames in
        modify (fun s => set_hist (Some frames) (_hist_maxlen s) s) ;;
        _dbg "[rolling] stored frame" ;;
        if Z.of_nat (List.length frames) <? rolling_n then
          _dbg "[rolling] waiting for clean frames" ;;
          ret (Return None)
        else
          avg <- average_frames frames ;;
          _dbg "[rolling] AVERAGED frame ready" ;;
          ret (Continue avg)
    end
  else ret (Continue fr).

(** The window bookkeeping at the head of [get_measurement]. *)
Definition prepare_window (rolling_n : Z) : M unit :=
  current_hist_len <- gets _hist_maxlen ;;
  hist <- gets _hist_frames ;;
  let has_hist := match hist with Some _ => true | None => false end in
  let same_len :=
    match current_hist_len with
    | Some n => n =? rolling_n
    | None => false
    end in
  when ((1 <? rolling_n) && (negb has_hist || negb same_len))
       (modify (set_hist (Some []) (Some rolling_n))) ;;
  hist <- gets _hist_frames ;;
  let has_hist := match hist with Some _ => true | None => false end in
  when ((rolling_n =? 1) && has_hist)
       (modify (set_hist (Some []) None)).

(** The [result] dict that [get_measurement] builds. *)
Definition build_result (rolling_n : Z) (fr : frame) : M measurement :=
  now <- gets ticks ;;
  last <- gets _last_measurement_crc_errors ;;
  total <- gets _total_crc_errors ;;
  v <- gets _valid ;;
  ret {| result_sensor_data :=
           {| sd_mass_density := mass_density fr;
              sd_particle_count := particle_count fr;
              sd_particle_size := particle_size fr;
              mass_density_unit := "ug/m3";
              particle_count_unit := "#/cm3";
              particle_size_unit := "um" |};
         result_measurement_info :=
           {| timestamp := now;
              crc_errors_this_measurement := last;
              total_crc_errors := total;
              all_sections_valid := all_valid v;
              validity_copy := v;
              info_rolling_n := rolling_n |} |}.

(** The part of [get_measurement] under its "read sensor" banner, up
    to the frame acceptance test: [Return None] is a [return {}],
    [Continue frame] goes on to the rolling-average logic. *)
Definition read_sensor : M (flow (option measurement) frame) :=
  ready <- read_data_ready_flag ;;
  if negb ready then ret (Return None)
  else
    _write_cmd CMD_READ_MEASURED_VALUES 20 ;;
    raw <- _read_response NBYTES_MEASURED_VALUES_FLOAT ;;
    start_err <- gets _total_crc_errors ;;
    mass <- _mass_density_measurement (py_slice raw 0 24) ;;
    cnt <- _particle_count_measurement (py_slice raw 24 54) ;;
    size <- _particle_size_measurement (py_slice_from raw 54) ;;
    modify (fun s => set_last_measurement_crc_errors
                       (_total_crc_errors s - start_err) s) ;;
    v <- gets _valid ;;
    if negb (all_valid v) then
      _dbg "frame rejected (CRC error)" ;;
      ret (Return None)
    else
      ret (Continue {| mass_density := mass; particle_count := cnt;
                       particle_size := size |}).

(** The part of [get_measurement] under its "payload build" banner. *)
Definition payload_build (rolling_n : Z) (fr : frame)
  : M (option measurement) :=
  result <- build_result rolling_n fr ;;
  last <- gets _last_measurement_crc_errors ;;
  when (last =? 0) (_dbg "MEASUREMENT SUCCESSFUL - CRC OK") ;;
  ret (Some result).

(** [SPS30.get_measurement(rolling_n)] *)
Definition get_measurement (rolling_n : Z) : M (option measurement) :=
  _dbg "get_measurement(rolling_n)" ;;
  let rolling_n := if rolling_n <? 1 then 1 else rolling_n in
  measuring <- gets _is_measuring ;;
  if negb measuring then
    print "Measurement not started - call start_measurement() first" ;;
    ret None
  else
    prepare_window rolling_n ;;
    modify (set_valid no_section_valid) ;;
    try_except
      (r <- read_sensor ;;
       match r with
       | Return early => ret early
       | Continue fr =>
           r <- rolling_average rolling_n fr ;;
           match r with
           | Return early => ret early
           | Continue fr => payload_build rolling_n fr
           end
       end)
      (fun e => print "Measurement failed" ;; ret None).

(** The attribute values that [__init__] assigns, in a given
    environment. *)
Definition power_on (dbg struct_available : bool) (fi : PyFloat.float_impl)
  (w : list bool) (r : list (option (list Z))) (now : Z) : sps30 :=
  {| debug := dbg; _is_measuring := false; _valid := no_section_valid;
     _total_crc_errors := 0; _last_measurement_crc_errors := 0;
     _hist_frames := None; _hist_maxlen := None;
     has_struct := struct_available; float_impl := fi;
     writes := w; reads := r; trace := []; ticks := now |}.

(** ** Definitions used to state the properties *)

(** The events of a trace that are not console output. *)
Definition is_console (ev : io_event) : bool :=
  match ev with Console _ => true | _ => false end.

Definition bus_events (evs : list io_event) : list io_event :=
  filter (fun ev => negb (is_console ev)) evs.

(** What a state has seen on the bus and the pins, sleeps included. *)
Definition bus_traffic (s : sps30) : list io_event := bus_events (trace s).

(** The state after [self._dbg(text)]. *)
Definition logged (text : string) (s : sps30) : sps30 :=
  if debug s then emit [Console ("[SPS30] " ++ text)%string] s else s.

(** The window attributes after the bookkeeping at the head of
    [get_measurement]. *)
Definition prepared_hist (rolling_n : Z) (s : sps30)
  : option (list frame) * option Z :=
  let has_hist := match _hist_frames s with Some _ => true | None => false end in
  let same_len :=
    match _hist_maxlen s with
    | Some n => n =? rolling_n
    | None => false
    end in
  let '(frames, maxlen) :=
    if (1 <? rolling_n) && (negb has_hist || negb same_len)
    then (Some [], Some rolling_n)
    else (_hist_frames s, _hist_maxlen s) in
  let has_hist := match frames with Some _ => true | None => false end in
  if (rolling_n =? 1) && has_hist then (Some [], None) else (frames, maxlen).

(** [rolling_n] after [if rolling_n < 1: rolling_n = 1]. *)
Definition clamp_rolling_n (rolling_n : Z) : Z :=
  if rolling_n <? 1 then 1 else rolling_n.

(** The state in which [get_measurement] asks for the data-ready flag. *)
Definition query_state (rolling_n : Z) (s : sps30) : sps30 :=
  let s := logged "get_measurement(rolling_n)" s in
  let h := prepared_hist (clamp_rolling_n rolling_n) s in
  set_valid no_section_valid (set_hist (fst h) (snd h) s).

(** The bus traffic of one data-ready query that got the answer [data]. *)
Definition ready_exchange (data : list Z) : list io_event :=
  [I2CWrite I2C_ADDRESS CMD_READ_DATA_READY_FLAG true;
   SleepUs 20000;
   I2CRead I2C_ADDRESS 3 (Some data)].

(** Whether the packet at [offset] of [data] carries the checksum of its
    two data bytes. *)
Definition packet_ok (data : list Z) (offset : nat) : bool :=
  crc_loop [nth offset data 0; nth (offset + 1) data 0]
  =? nth (offset + 2) data 0.

(** Whether both packets of the float at [base] pass. *)
Definition field_ok (data : list Z) (base : nat) : bool :=
  packet_ok data (base + 0) && packet_ok data (base + 3).

(** Whether every packet of a section of [nfields] floats passes. *)
Definition section_ok (nfields : nat) (data : list Z) : bool :=
  forallb (fun block => field_ok data (block * SIZE_FLOAT)) (seq 0 nfields).


(** The four data bytes of the float at [base]. *)
Definition field_bytes (data : list Z) (base : nat) : list Z :=
  [nth (base + 0) data 0; nth (base + 0 + 1) data 0;
   nth (base + 3) data 0; nth (base + 3 + 1) data 0].

(** The 32-bit word of the float at [base], first packet first. *)
Definition field_word (data : list Z) (base : nat) : Z :=
  Z.lor (Z.lor (Z.lor (Z.shiftl (nth (base + 0) data 0) 24)
                  (Z.shiftl (nth (base + 0 + 1) data 0) 16))
           (Z.shiftl (nth (base + 3) data 0) 8))
    (nth (base + 3 + 1) data 0).

(** The values of the fields of a section, set one by one. *)
Fixpoint decode_fields (conv : Z -> float) (fields : list (nat * string))
  (data : list Z) (values : dict) : dict :=
  match fields with
  | [] => values
  | (block, pm) :: rest =>
      decode_fields conv rest data
        (dict_set values pm (conv (field_word data (block * SIZE_FLOAT))))
  end.

Definition decode_section (conv : Z -> float) (category : list string)
  (data : list Z) : dict :=
  decode_fields conv (enumerate category) data
    (map (fun pm => (pm, PyFloat.zero)) category).

(** The conversion that runs in state [s]. *)
Definition conversion_of (s : sps30) : Z -> float :=
  ieee754_number_conversion (has_struct s) (float_impl s).

(** The state after [print] of each text. *)
Fixpoint printed (texts : list string) (s : sps30) : sps30 :=
  match texts with
  | [] => s
  | t :: ts => printed ts (emit [Console t] s)
  end.

(** The state after a section met its first failing packet: one error
    counted, the report printed, the section's flag cleared. *)
Definition crc_failed (sec : section) (s : sps30) : sps30 :=
  mark_section sec false
    (printed (mismatch_report sec)
       (set_total_crc_errors (_total_crc_errors s + 1) s)).

(** The three parts of the 60-byte measurement response. *)
Definition mass_part (raw : list Z) : list Z := py_slice raw 0 24.
Definition count_part (raw : list Z) : list Z := py_slice raw 24 54.
Definition size_part (raw : list Z) : list Z := py_slice_from raw 54.

(** The section flags that the response's checksums give. *)
Definition decode_validity (raw : list Z) : validity :=
  {| v_mass_density := section_ok 4 (mass_part raw);
     v_particle_count := section_ok 5 (count_part raw);
     v_particle_size := section_ok 1 (size_part raw) |}.

(** The number of sections whose flag is false. *)
Definition failed_sections (v : validity) : Z :=
  (if v_mass_density v then 0 else 1)
  + (if v_particle_count v then 0 else 1)
  + (if v_particle_size v then 0 else 1).

(** The frame that a response with valid checksums decodes to. *)
Definition decode_frame (conv : Z -> float) (raw : list Z) : frame :=
  {| mass_density := decode_section conv mass_density_category (mass_part raw);
     particle_count :=
       decode_section conv particle_count_category (count_part raw);
     particle_size := conv (field_word (size_part raw) 0) |}.

(** The bus traffic of reading the measured values. *)
Definition measure_exchange (raw : list Z) : list io_event :=
  [I2CWrite I2C_ADDRESS CMD_READ_MEASURED_VALUES true;
   SleepUs 20000;
   I2CRead I2C_ADDRESS 60 (Some raw)].

(** The attributes and inputs that reading the sensor leaves alone. *)
Definition same_session (s s' : sps30) : Prop :=
  debug s' = debug s
  /\ _is_measuring s' = _is_measuring s
  /\ _hist_frames s' = _hist_frames s
  /\ _hist_maxlen s' = _hist_maxlen s
  /\ has_struct s' = has_struct s
  /\ float_impl s' = float_impl s
  /\ ticks s' = ticks s.

(** ** The rolling window, as a specification *)

(** [s = 0.0; for x in xs: s += x; s / len(xs)] *)
Definition mean (fi : PyFloat.float_impl) (xs : list float) : float :=
  PyFloat.div fi (fold_left (PyFloat.add fi) xs PyFloat.zero)
    (PyFloat.of_int fi (Z.of_nat (List.length xs))).

(** The values that the frames hold under key [k] of one block. *)
Definition field_values (block : frame -> dict) (k : string)
  (frames : list frame) : list float :=
  map (fun f => match dict_lookup (block f) k with
                | Some v => v
                | None => PyFloat.zero
                end) frames.

(** The mean of every named field of one block. *)
Definition mean_block (fi : PyFloat.float_impl) (block : frame -> dict)
  (keys : list string) (frames : list frame) : dict :=
  map (fun k => (k, mean fi (field_values block k frames))) keys.

(** The frame of per-field means over a window. *)
Definition mean_frame (fi : PyFloat.float_impl) (frames : list frame)
  : frame :=
  {| mass_density := mean_block fi mass_density mass_density_category frames;
     particle_count :=
       mean_block fi particle_count particle_count_category frames;
     particle_size := mean fi (map particle_size frames) |}.

(** A frame with the keys that a valid decode gives. *)
Definition well_formed (f : frame) : Prop :=
  dict_keys (mass_density f) = mass_density_category
  /\ dict_keys (particle_count f) = particle_count_category.

(** A window after one more frame came in: the oldest frame goes once
    there are more than [n]. *)
Definition slide (n : Z) (frames : list frame) : list frame :=
  if n <? Z.of_nat (List.length frames) then tl frames else frames.

(** The frames that a call with window size [n > 1] keeps from the
    calls before it: all of them when the window size is the one they
    were stored under, none otherwise. *)
Definition kept_frames (n : Z) (s : sps30) : list frame :=
  match _hist_frames s, _hist_maxlen s with
  | Some frames, Some k => if k =? n then frames else []
  | _, _ => []
  end.

(** The result dict built from a frame in state [s]. *)
Definition payload_of (rolling_n : Z) (fr : frame) (s : sps30) : measurement :=
  {| result_sensor_data :=
       {| sd_mass_density := mass_density fr;
          sd_particle_count := particle_count fr;
          sd_particle_size := particle_size fr;
          mass_density_unit := "ug/m3";
          particle_count_unit := "#/cm3";
          particle_size_unit := "um" |};
     result_measurement_info :=
       {| timestamp := ticks s;
          crc_errors_this_measurement := _last_measurement_crc_errors s;
          total_crc_errors := _total_crc_errors s;
          all_sections_valid := all_valid (_valid s);
          validity_copy := _valid s;
          info_rolling_n := rolling_n |} |}.

(** The bus traffic of one complete read: the data-ready query, then the
    measured values. *)
Definition read_exchange (ready raw : list Z) : list io_event :=
  ready_exchange ready ++ measure_exchange raw.

(** ** The wire format, as the sensor fills it *)

(** A 16-bit half-word as a packet: its two bytes, high byte first, then
    their checksum. *)
Definition packet_of (half : Z) : list Z :=
  let b0 := Z.land (Z.shiftr half 8) 0xFF in
  let b1 := Z.land half 0xFF in
  [b0; b1; crc_loop [b0; b1]].

(** A 32-bit word as the two packets of a float, high half first. *)
Definition float_of_word (w : Z) : list Z :=
  packet_of (Z.shiftr w 16) ++ packet_of (Z.land w 0xFFFF).

(** A response that carries the given words, one float each. *)
Definition response_of (words : list Z) : list Z :=
  flat_map float_of_word words.

(** Every section valid. *)
Definition every_section_valid : validity :=
  {| v_mass_density := true; v_particle_count := true;
     v_particle_size := true |}.

(** The result dict of a call that accepted its frame: the frame with the
    unit strings, no checksum error in this measurement, every section
    valid. *)
Definition clean_result (rolling_n : Z) (fr : frame) (now total : Z)
  : measurement :=
  {| result_sensor_data :=
       {| sd_mass_density := mass_density fr;
          sd_particle_count := particle_count fr;
          sd_particle_size := particle_size fr;
          mass_density_unit := "ug/m3";
          particle_count_unit := "#/cm3";
          particle_size_unit := "um" |};
     result_measurement_info :=
       {| timestamp := now;
          crc_errors_this_measurement := 0;
          total_crc_errors := total;
          all_sections_valid := true;
          validity_copy := every_section_valid;
          info_rolling_n := rolling_n |} |}.

(** ** Commands without an answer, and the status register *)

Definition CMD_SLEEP : list Z := [0x10; 0x01].
Definition CMD_WAKEUP : list Z := [0x11; 0x03].
Definition CMD_START_FAN_CLEANING : list Z := [0x56; 0x07].
Definition CMD_READ_STATUS_REGISTER : list Z := [0xD2; 0x06].
Definition CMD_CLEAR_STATUS_REGISTER : list Z := [0xD2; 0x10].

Definition NBYTES_READ_STATUS_REGISTER : nat := 6.

(** [SPS30.clear_status_register()]; the write uses the default guard of
    20 ms. *)
Definition clear_status_register : M bool :=
  _dbg "clear_status_register()" ;;
  try_except
    (_write_cmd CMD_CLEAR_STATUS_REGISTER 20 ;; ret true)
    (fun e => print "Failed to clear status register" ;; ret false).

(** [SPS30.sleep()] *)
Definition sleep : M bool :=
  _dbg "sleep()" ;;
  try_except
    (_write_cmd CMD_SLEEP 20 ;; ret true)
    (fun e => print "Sleep failed" ;; ret false).

(** [SPS30.wakeup()] *)
Definition wakeup : M bool :=
  _dbg "wakeup()" ;;
  try_except
    (_write_cmd CMD_WAKEUP 0 ;; ret true)
    (fun e => print "Wakeup failed" ;; ret false).

(** [SPS30.start_fan_cleaning()] *)
Definition start_fan_cleaning : M bool :=
  _dbg "start_fan_cleaning()" ;;
  try_except
    (_write_cmd CMD_START_FAN_CLEANING 20 ;; ret true)
    (fun e => print "Fan cleaning failed" ;; ret false).

(** The dict of decoded flags that [read_status_register] returns. *)
Record status := {
  speed_status : string;
  laser_status : string;
  fan_status : string;
  raw_status : Z
}.

(** What [read_status_register] returns: the flags,
    [{"error": "CRC mismatched"}], or [{"error": str(e)}] for the
    exception [e] that it caught. *)
Inductive status_result :=
| StatusFlags (st : status)
| StatusCrcMismatched
| StatusError (e : exn).

(** [SPS30.read_status_register()] *)
Definition read_status_register : M status_result :=
  _dbg "read_status_register()" ;;
  try_except
    (_write_cmd CMD_READ_STATUS_REGISTER 20 ;;
     data <- _read_response NBYTES_READ_STATUS_REGISTER ;;
     r <- for_each [0; 3]%nat
            (fun i word =>
               calc <- crc_calc (py_slice data i (i + 2)) ;;
               received <- index data (i + 2) ;;
               if negb (calc =? received) then
                 count_crc_error ;;
                 ret (Return StatusCrcMismatched)
               else
                 hi <- index data i ;;
                 lo <- index data (i + 1) ;;
                 ret (Continue (Z.lor (Z.lor (Z.shiftl word 16)
                                         (Z.shiftl hi 8)) lo)))
            0 ;;
     match r with
     | Return early => ret early
     | Continue word =>
         let speed_warn := negb (Z.land word (Z.shiftl 1 21) =? 0) in
         let laser_err := negb (Z.land word (Z.shiftl 1 5) =? 0) in
         let fan_err := negb (Z.land word (Z.shiftl 1 4) =? 0) in
         ret (StatusFlags
                {| speed_status := if speed_warn then "warning" else "ok";
                   laser_status := if laser_err then "out of range" else "ok";
                   fan_status := if fan_err then "0 rpm" else "ok";
                   raw_status := word |})
     end)
    (fun e => ret (StatusError e)).

(** A call that comes back with a value: no exception leaves it. *)
Definition returns {A} (m : M A) (s : sps30) : Prop :=
  exists a, fst (m s) = Ok a.

(** The four methods that send one fixed command and expect no answer,
    with their command and the guard time of their write. *)
Definition plain_commands : list (M bool * list Z * Z) :=
  [(sleep, CMD_SLEEP, 20);
   (wakeup, CMD_WAKEUP, 0);
   (start_fan_cleaning, CMD_START_FAN_CLEANING, 20);
   (clear_status_register, CMD_CLEAR_STATUS_REGISTER, 20)].

(** The bus traffic of [_write_cmd] on the next write outcome [ok]. *)
Definition write_exchange (cmd : list Z) (guard_ms : Z) (ok : bool)
  : list io_event :=
  if ok then
    I2CWrite I2C_ADDRESS cmd true
    :: (if guard_ms =? 0 then [] else [SleepUs (guard_ms * 1000)])
  else I2CWrite I2C_ADDRESS cmd false :: bus_reset_events.

(** Whether the next bus write succeeds. *)
Definition next_write_ok (s : sps30) : bool :=
  match writes s with
  | true :: _ => true
  | _ => false
  end.

(** The six bytes that carry an interval of [seconds]: the packet of
    the low half-word, then the packet of the high half-word. *)
Definition interval_packets (seconds : Z) : list Z :=
  packet_of (Z.land seconds 0xFFFF) ++ packet_of (Z.shiftr seconds 16).

(** The bus traffic of one interval query that got the answer [data]. *)
Definition interval_exchange (data : list Z) : list io_event :=
  [I2CWrite I2C_ADDRESS CMD_AUTO_CLEANING_INTERVAL true;
   I2CRead I2C_ADDRESS 6 (Some data)].

(** A step that at most prints: the attributes, the bus scripts and the
    bus traffic are as before. *)
Definition console_only (s s' : sps30) : Prop :=
  same_session s s'
  /\ _valid s' = _valid s
  /\ _total_crc_errors s' = _total_crc_errors s
  /\ _last_measurement_crc_errors s' = _last_measurement_crc_errors s
  /\ writes s' = writes s
  /\ reads s' = reads s
  /\ bus_traffic s' = bus_traffic s.

(** The bus traffic of one status query that got the answer [data]. *)
Definition status_exchange (data : list Z) : list io_event :=
  [I2CWrite I2C_ADDRESS CMD_READ_STATUS_REGISTER true;
   SleepUs 20000;
   I2CRead I2C_ADDRESS 6 (Some data)].

(** ** Bit errors on the wire *)

(** The number of bits set in a byte. *)
Definition bits_set (x : Z) : Z :=
  Z.of_nat (List.length (filter (Z.testbit x) (map Z.of_nat (seq 0 8)))).

(** The byte values. *)
Definition byte_values : list Z := map Z.of_nat (seq 0 256).

(** ** A series of reads *)

(** The state after [k] calls of [get_measurement(rolling_n)] in a row. *)
Fixpoint after_calls (rolling_n : Z) (k : nat) (s : sps30) : sps30 :=
  match k with
  | O => s
  | S k' => after_calls rolling_n k' (snd (get_measurement rolling_n s))
  end.

(** What the bus answers over a series of complete reads: for each
    response, the data-ready flag set, then the response. *)
Definition answers (raws : list (list Z)) : list (option (list Z)) :=
  flat_map (fun raw => [Some [0; 1; crc_loop [0; 1]]; Some raw]) raws.

(** A 60-byte response in which every packet carries its checksum. *)
Definition accepted (raw : list Z) : Prop :=
  List.length raw = 60%nat /\ all_valid (decode_validity raw) = true.

(** The last [n] frames of a list, or all of them when there are
    fewer. *)
Definition last_frames (n : Z) (frames : list frame) : list frame :=
  skipn (List.length frames - Z.to_nat n) frames.

(** The command that [start_measurement] sends: the opcode, the float
    format argument and its checksum. *)
Definition start_command : list Z := [0x00; 0x10; 0x03; 0x00; 0xAC].

(** ** The converters' self-test of [src/_old_/IEEE754.py] *)

(** [ieee754_to_float_struct(u32)]: the [struct]-based reference
    decoder. Its [except] branch is dead: the masked word always fits
    four bytes. *)
Definition ieee754_to_float_struct (fi : PyFloat.float_impl) (u32 : Z)
  : float :=
  PyFloat.unpack_f32 fi (Z.land u32 0xFFFFFFFF).

(** [SAMPLE_WORDS] *)
Definition SAMPLE_WORDS : list Z :=
  [0x00000000; 0x80000000;
   0x3F800000; 0xBF800000;
   0x40490FDB; 0xC0490FDB;
   0x7F800000; 0xFF800000; 0x7FC00000;
   0x3E99999A; 0x3DCCCCCD;
   0x00800000; 0x7F7FFFFF].

(** [math.isnan], [math.isinf] *)
Definition isnan (x : float) : bool :=
  match x with S754_nan => true | _ => false end.

Definition isinf (x : float) : bool :=
  match x with S754_infinity _ => true | _ => false end.

(** The sign bit of a float that is not a NaN. *)
Definition sign_of (x : float) : bool :=
  match x with
  | S754_zero s | S754_infinity s | S754_finite s _ _ => s
  | S754_nan => false
  end.

(** [math.copysign(1, x)], for [x] not a NaN. *)
Definition copysign_one (fi : PyFloat.float_impl) (x : float) : float :=
  PyFloat.of_int fi (if sign_of x then -1 else 1).

(** [floats_equal(a, b)] *)
Definition floats_equal (fi : PyFloat.float_impl) (a b : float) : bool :=
  if isnan a && isnan b then true
  else if isinf a && isinf b then
    PyFloat.eqb (copysign_one fi a) (copysign_one fi b)
  else if PyFloat.eqb a b then
    PyFloat.eqb (copysign_one fi a) (copysign_one fi b)
  else false.

(** The fields of a 32-bit word. *)
Definition exponent_field (u32 : Z) : Z :=
  Z.land (Z.shiftr (Z.land u32 0xFFFFFFFF) 23) 0xFF.

Definition fraction_field (u32 : Z) : Z :=
  Z.land (Z.land u32 0xFFFFFFFF) 0x7FFFFF.

(** ** Calendar helpers of [src/TestMe.py] *)

(** [seq[i]] for an integer [i] of either sign: a negative index counts
    from the end; [None] is an [IndexError]. *)
Definition py_index {A : Type} (l : list A) (i : Z) : option A :=
  let len := Z.of_nat (List.length l) in
  if (0 <=? i) && (i <? len) then nth_error l (Z.to_nat i)
  else if (- len <=? i) && (i <? 0) then nth_error l (Z.to_nat (i + len))
  else None.

(** [_weekday(y, m, d)], with 0 for Sunday; [None] is the [IndexError]
    of a month outside the table. *)
Definition _weekday (y m d : Z) : option Z :=
  let t := [0; 3; 2; 5; 0; 3; 5; 1; 4; 6; 2; 4] in
  let y := if m <? 3 then y - 1 else y in
  match py_index t (m - 1) with
  | Some tm => Some ((y + y / 4 - y / 100 + y / 400 + tm + d) mod 7)
  | None => None
  end.

(** [_second_sunday_march(year)] *)
Definition _second_sunday_march (year : Z) : option Z :=
  match _weekday year 3 1 with
  | Some wd => Some (1 + ((7 - wd) mod 7) + 7)
  | None => None
  end.

(** [_first_sunday_nov(year)] *)
Definition _first_sunday_nov (year : Z) : option Z :=
  match _weekday year 11 1 with
  | Some wd => Some (1 + ((7 - wd) mod 7))
  | None => None
  end.

(** [_is_us_dst(utc)] on the first four fields of the time tuple. *)
Definition _is_us_dst (y m d h : Z) : option bool :=
  if (m <? 3) || (11 <? m) then Some false
  else if (3 <? m) && (m <? 11) then Some true
  else if m =? 3 then
    match _second_sunday_march y with
    | Some sunday => Some ((sunday <? d) || ((d =? sunday) && (2 <=? h)))
    | None => None
    end
  else
    match _first_sunday_nov y with
    | Some sunday => Some ((d <? sunday) || ((d =? sunday) && (h <? 2)))
    | None => None
    end.

(** The Gregorian calendar. *)
Definition is_leap (y : Z) : bool :=
  ((y mod 4 =? 0) && negb (y mod 100 =? 0)) || (y mod 400 =? 0).

Definition days_in_month (y m : Z) : Z :=
  if m =? 2 then (if is_leap y then 29 else 28)
  else if (m =? 4) || (m =? 6) || (m =? 9) || (m =? 11) then 30
  else 31.

(** The day after a date. *)
Definition next_day (y m d : Z) : Z * Z * Z :=
  if d <? days_in_month y m then (y, m, d + 1)
  else if m <? 12 then (y, m + 1, 1)
  else (y + 1, 1, 1).

(** Whether a month, day and hour come before another, in this order. *)
Definition before (a b : Z * Z * Z) : bool :=
  let '(m1, d1, h1) := a in
  let '(m2, d2, h2) := b in
  (m1 <? m2) || ((m1 =? m2) && ((d1 <? d2) || ((d1 =? d2) && (h1 <? h2)))).




(** The bytes with the one at index [i] inverted: a transmission error
    in that byte. *)
Definition corrupt (i : nat) (data : list Z) : list Z :=
  firstn i data
  ++ match skipn i data with
     | [] => []
     | b :: rest => Z.lxor b 0xFF :: rest
     end.

(** A response in which every checksum is right and whose typical
    particle size is the float of [size_word]. *)
Definition response_with_size (size_word : Z) : list Z :=
  response_of [0x3F800000; 0x40000000; 0x40400000; 0x40800000;
               0x3F800000; 0x40000000; 0x40400000; 0x40800000;
               0x40A00000; size_word].

(** A measuring driver, fresh from [__init__], whose bus will answer
    four complete reads with the particle sizes 10.0, 20.0, 30.0 and
    40.0. *)
Definition four_sizes : sps30 :=
  set_is_measuring true
    (power_on false true PyFloat.Binary64 (repeat true 8)
       (answers [response_with_size 0x41200000;
                 response_with_size 0x41A00000;
                 response_with_size 0x41F00000;
                 response_with_size 0x42200000])
       0).


(** ** Floats that a format holds exactly *)

(** The float of sign [s] and magnitude [v * 2^k] in format [fi], in
    the canonical form of the format: for a [v] of at most 24 bits and
    an exponent in the range of single precision, both formats hold the
    value exactly. *)
Definition dyadic (fi : PyFloat.float_impl) (s : bool) (v k : Z) : float :=
  let e0 := Z.max (k + (Z.log2 v + 1) - PyFloat.prec fi)
              (3 - PyFloat.emax fi - PyFloat.prec fi) in
  S754_finite s (Z.to_pos (v * 2 ^ (k - e0))) e0.

(** The number that the single-precision layout assigns to a word whose
    exponent field is not all ones: with sign bit [s], exponent field
    [e] and fraction field [f], [(-1)^s * (1 + f / 2^23) * 2^(e - 127)]
    for [e > 0] (the implicit leading one, bias 127) and
    [(-1)^s * (f / 2^23) * 2^(-126)] for [e = 0] (no leading one). *)
Definition layout_value (u32 : Z) : Q :=
  let sign := if Z.testbit u32 31 then (- (1))%Q else 1%Q in
  let e := exponent_field u32 in
  let f := fraction_field u32 in
  if e =? 0
  then (sign * (inject_Z f / inject_Z (2 ^ 23)) * Qpower 2 (-126))%Q
  else (sign * (1 + inject_Z f / inject_Z (2 ^ 23)) * Qpower 2 (e - 127))%Q.

(** The values that single precision holds: a mantissa of at most 24
    bits, an exponent of at least -149, a magnitude below [2^128]. *)
Definition single_range (v k : Z) : Prop :=
  0 < v < 2 ^ 24 /\ -149 <= k /\ k + Z.log2 v < 128.

(** * Properties *)

(** Unfolds the monad's operations and reduces what they expose. *)
Ltac run_monad :=
  cbv beta iota delta
    [bind ret raise gets modify when print _dbg try_except
     try_except_OSError].

(** ** Checksum engine *)

Lemma land_0x80_testbit (x : Z) :
  Z.land x 0x80 = if Z.testbit x 7 then 0x80 else 0.
Proof.
  apply Z.bits_inj'. intros n Hn.
  rewrite Z.land_spec.
  change 0x80 with (2 ^ 7).
  destruct (Z.testbit x 7) eqn:E.
  - rewrite Z.pow2_bits_eqb by lia.
    destruct (Z.eqb_spec 7 n) as [<- | Hne].
    + now rewrite E.
    + now rewrite andb_false_r.
  - rewrite Z.bits_0, Z.pow2_bits_eqb by lia.
    destruct (Z.eqb_spec 7 n) as [<- | Hne].
    + now rewrite E.
    + now rewrite andb_false_r.
Qed.

Lemma land_0xFF_mod (x : Z) : Z.land x 0xFF = x mod 256.
Proof. change 0xFF with (Z.ones 8). now rewrite Z.land_ones by lia. Qed.

Lemma crc_step_iteration (acc : Z) :
  crc_step acc = ChecksumSpec.iteration acc.
Proof.
  unfold crc_step, ChecksumSpec.iteration, ChecksumSpec.high_bit_set,
    ChecksumSpec.mask8.
  rewrite land_0x80_testbit, !land_0xFF_mod, Z.shiftl_mul_pow2 by lia.
  change (2 ^ 1) with 2. rewrite (Z.mul_comm acc 2).
  now destruct (Z.testbit acc 7).
Qed.

Lemma iter_crc_step (n : nat) (acc : Z) :
  Nat.iter n crc_step acc = ChecksumSpec.iterations n acc.
Proof.
  revert acc. induction n as [| n IH]; intros acc; [reflexivity |].
  rewrite Nat.iter_succ_r, crc_step_iteration. apply IH.
Qed.

Lemma crc_byte_absorb (acc byte : Z) :
  crc_byte acc byte = ChecksumSpec.absorb acc byte.
Proof. apply iter_crc_step. Qed.

Lemma crc_loop_pair (b0 b1 : Z) :
  crc_loop [b0; b1] = ChecksumSpec.checksum b0 b1.
Proof.
  unfold crc_loop, ChecksumSpec.checksum. simpl fold_left.
  now rewrite !crc_byte_absorb.
Qed.

Lemma iteration_range (acc : Z) : 0 <= ChecksumSpec.iteration acc < 256.
Proof.
  unfold ChecksumSpec.iteration, ChecksumSpec.mask8.
  destruct (ChecksumSpec.high_bit_set acc); apply Z.mod_pos_bound; lia.
Qed.

Lemma checksum_range (b0 b1 : Z) : 0 <= ChecksumSpec.checksum b0 b1 < 256.
Proof.
  unfold ChecksumSpec.checksum, ChecksumSpec.absorb at 1.
  cbn [ChecksumSpec.iterations]. apply iteration_range.
Qed.

(** C3. [crc_calc] on two bytes [b0], [b1] changes nothing in the state
    and returns the value that the worded algorithm gives (accumulator
    [0xFF], XOR each byte in, eight shift steps with polynomial [0x31],
    masked to eight bits); that value is an 8-bit number, and the pair
    [0xBE], [0xEF] gives [0x92]. *)
Theorem crc_calc_two_bytes (b0 b1 : Z) (s : sps30) :
  crc_calc [b0; b1] s = (Ok (ChecksumSpec.checksum b0 b1), s)
  /\ 0 <= ChecksumSpec.checksum b0 b1 < 256
  /\ crc_calc [0xBE; 0xEF] s = (Ok 0x92, s).
Proof.
  split; [| split].
  - unfold crc_calc. cbn [List.length Nat.eqb negb]. unfold ret.
    now rewrite crc_loop_pair.
  - apply checksum_range.
  - reflexivity.
Qed.

(** C4 as written fails: on a one-byte input the checksum operation
    returns the sentinel [0xFF] and raises nothing. *)
Lemma crc_calc_one_byte_returns_sentinel :
  let s := power_on true true PyFloat.Binary64 [] [] 0 in
  fst (crc_calc [0xBE] s) = Ok 0xFF
  /\ ~ (exists e, fst (crc_calc [0xBE] s) = Raise e).
Proof.
  cbv zeta. split; [reflexivity |].
  intros [e H]. discriminate H.
Qed.

(** C4, amended. For every input whose length is not two, [crc_calc]
    returns the sentinel [0xFF]; it raises no error, and its only effect
    is the debug warning, printed when [debug] is on. *)
Theorem crc_calc_wrong_length (data : list Z) (s : sps30) :
  List.length data <> 2%nat ->
  crc_calc data s = (Ok 0xFF, logged "CRC warn: need 2 bytes" s).
Proof.
  intros H. unfold crc_calc.
  destruct (Nat.eqb_spec (List.length data) 2) as [E | _]; [contradiction |].
  cbn [negb]. unfold logged. run_monad.
  now destruct (debug s).
Qed.

Lemma crc_calc_wrong_length_witness :
  crc_calc [1; 2; 3] (power_on true true PyFloat.Binary64 [] [] 0)
  = (Ok 0xFF,
     logged "CRC warn: need 2 bytes"
       (power_on true true PyFloat.Binary64 [] [] 0)).
Proof. apply crc_calc_wrong_length. simpl. lia. Defined.

(** ** Traces *)

Lemma bus_events_app (l l' : list io_event) :
  bus_events (l ++ l') = bus_events l ++ bus_events l'.
Proof. apply filter_app. Qed.

(** Runs a method on a state whose script is known. *)
Ltac run := repeat (progress (run_monad; cbn)).

(** Reduces projections of updated states and list bookkeeping. *)
Ltac simpl_state :=
  cbn [debug _is_measuring _valid _total_crc_errors
       _last_measurement_crc_errors _hist_frames _hist_maxlen has_struct
       float_impl writes reads trace ticks
       emit set_valid set_hist set_reads set_writes set_total_crc_errors
       set_last_measurement_crc_errors set_is_measuring
       mark_section with_section printed logged crc_failed mismatch_report
       Nat.sub Nat.add Nat.mul Nat.eqb negb andb orb fst snd
       v_mass_density v_particle_count v_particle_size all_valid
       NBYTES_READ_DATA_READY_FLAG NBYTES_MEASURED_VALUES_FLOAT
       NBYTES_AUTO_CLEANING_INTERVAL PACKET_SIZE SIZE_FLOAT].

(** Closes a goal about the events appended to a trace. *)
Ltac trace_solve :=
  unfold bus_traffic; simpl_state;
  rewrite ?bus_events_app;
  repeat match goal with
         | |- context [bus_events ?l] =>
             tryif is_var l then fail else
             lazymatch l with
             | trace _ => fail
             | _ =>
                 let v := eval cbn in (bus_events l) in
                 progress change (bus_events l) with v
             end
         end;
  rewrite ?app_nil_r, <- ?app_assoc; reflexivity.

(** ** Transport *)



(** ** Device session *)

Lemma prepare_window_spec (n : Z) (s : sps30) :
  prepare_window n s
  = (Ok tt, set_hist (fst (prepared_hist n s)) (snd (prepared_hist n s)) s).
Proof.
  destruct s as [d m v t l h ml hs fi w r tr tk].
  unfold prepare_window, prepared_hist. run.
  destruct (1 <? n), h as [fs |], ml as [k |]; run;
    try destruct (k =? n); run;
    destruct (n =? 1); run; reflexivity.
Qed.

Arguments crc_loop : simpl never.

(** ** Running the methods step by step

    The equations below drive a symbolic execution by rewriting: each
    step replaces one call by its outcome on the current state. *)

Lemma run_bind {A B} (m : M A) (k : A -> M B) (s : sps30)
  (r : outcome A * sps30) (res : outcome B * sps30) :
  m s = r ->
  match r with
  | (Ok a, s1) => k a s1
  | (Raise e, s1) => (Raise e, s1)
  end = res ->
  bind m k s = res.
Proof. intros <- <-. reflexivity. Qed.

Lemma run_try_except {A} (m : M A) (h : exn -> M A) (s : sps30)
  (r res : outcome A * sps30) :
  m s = r ->
  match r with
  | (Ok a, s1) => (Ok a, s1)
  | (Raise e, s1) => h e s1
  end = res ->
  try_except m h s = res.
Proof. intros <- <-. reflexivity. Qed.

Lemma run_ret {A} (a : A) (s : sps30) : ret a s = (Ok a, s).
Proof. reflexivity. Qed.

Lemma run_raise {A} (e : exn) (s : sps30) : @raise A e s = (Raise e, s).
Proof. reflexivity. Qed.

Lemma run_gets {A} (f : sps30 -> A) (s : sps30) : gets f s = (Ok (f s), s).
Proof. reflexivity. Qed.

Lemma run_modify (f : sps30 -> sps30) (s : sps30) :
  modify f s = (Ok tt, f s).
Proof. reflexivity. Qed.

Lemma run_print (text : string) (s : sps30) :
  print text s = (Ok tt, emit [Console text] s).
Proof. reflexivity. Qed.

Lemma run_dbg (text : string) (s : sps30) :
  _dbg text s = (Ok tt, logged text s).
Proof. unfold _dbg, logged. run_monad. now destruct (debug s). Qed.

Lemma logged_on (text : string) (s : sps30) :
  debug s = true ->
  logged text s = emit [Console ("[SPS30] " ++ text)%string] s.
Proof. unfold logged. now intros ->. Qed.

Lemma logged_off (text : string) (s : sps30) :
  debug s = false -> logged text s = s.
Proof. unfold logged. now intros ->. Qed.

Lemma run_dbg_on (text : string) (s : sps30) :
  debug s = true ->
  _dbg text s = (Ok tt, emit [Console ("[SPS30] " ++ text)%string] s).
Proof. intros H. now rewrite run_dbg, logged_on. Qed.

Lemma run_dbg_off (text : string) (s : sps30) :
  debug s = false -> _dbg text s = (Ok tt, s).
Proof. intros H. now rewrite run_dbg, logged_off. Qed.

Lemma run_index {A} (l : list A) (i : nat) (x : A) (s : sps30) :
  nth_error l i = Some x -> index l i s = (Ok x, s).
Proof. unfold index. now intros ->. Qed.

Lemma run_index_out {A} (l : list A) (i : nat) (s : sps30) :
  nth_error l i = None -> index l i s = (Raise IndexError, s).
Proof. unfold index. now intros ->. Qed.

Lemma run_dict_get (d : dict) (k : string) (x : float) (s : sps30) :
  dict_lookup d k = Some x -> dict_get d k s = (Ok x, s).
Proof. unfold dict_get. now intros ->. Qed.

Lemma run_crc_calc (data : list Z) (s : sps30) :
  List.length data = 2%nat -> crc_calc data s = (Ok (crc_loop data), s).
Proof. unfold crc_calc. now intros ->. Qed.

Lemma run_to_bytes (cmd : list Z) (s : sps30) :
  forallb (fun b => (0 <=? b) && (b <? 256)) cmd = true ->
  to_bytes cmd s = (Ok cmd, s).
Proof. unfold to_bytes. now intros ->. Qed.

Lemma run_i2c_writeto (addr : Z) (payload : list Z) (s : sps30)
  (w : list bool) :
  writes s = true :: w ->
  i2c_writeto addr payload s
  = (Ok tt, emit [I2CWrite addr payload true] (set_writes w s)).
Proof. unfold i2c_writeto. now intros ->. Qed.

Lemma run_i2c_readfrom (addr : Z) (nbytes : nat) (s : sps30)
  (data : list Z) (r : list (option (list Z))) :
  reads s = Some data :: r ->
  i2c_readfrom addr nbytes s
  = (Ok data,
     emit [I2CRead addr (Z.of_nat nbytes) (Some data)] (set_reads r s)).
Proof. unfold i2c_readfrom. now intros ->. Qed.

Lemma run_index_nth (data : list Z) (i : nat) (s : sps30) :
  (i < List.length data)%nat -> index data i s = (Ok (nth i data 0), s).
Proof. intros H. apply run_index. now apply nth_error_nth'. Qed.

Lemma run_prints (texts : list string) (s : sps30) :
  prints texts s = (Ok tt, printed texts s).
Proof.
  revert s. induction texts as [| t ts IH]; intros s; [reflexivity |].
  cbn [prints printed]. eapply run_bind; [apply run_print |].
  cbv beta iota. apply IH.
Qed.

(** Uses the boolean facts of the context to settle a test. *)
Ltac settle_tests :=
  repeat match goal with
         | H : ?c = true |- _ =>
             lazymatch c with true => fail | false => fail | _ => idtac end;
             lazymatch goal with |- context [c] => rewrite H end
         | H : ?c = false |- _ =>
             lazymatch c with true => fail | false => fail | _ => idtac end;
             lazymatch goal with |- context [c] => rewrite H end
         end.

Ltac side_condition :=
  simpl_state; settle_tests; first [reflexivity | eassumption].

(** One call, whose outcome is known from the equations above. *)
Ltac run_call :=
  lazymatch goal with
  | |- ret _ _ = _ => apply run_ret
  | |- raise _ _ = _ => apply run_raise
  | |- gets _ _ = _ => apply run_gets
  | |- modify _ _ = _ => apply run_modify
  | |- print _ _ = _ => apply run_print
  | |- _dbg _ _ = _ =>
      first [ apply run_dbg_on; side_condition
            | apply run_dbg_off; side_condition ]
  | |- index _ _ _ = _ =>
      first [ apply run_index; side_condition
            | apply run_index_out; side_condition ]
  | |- dict_get _ _ _ = _ => apply run_dict_get; side_condition
  | |- crc_calc _ _ = _ => apply run_crc_calc; side_condition
  | |- to_bytes _ _ = _ => apply run_to_bytes; side_condition
  | |- i2c_writeto _ _ _ = _ => eapply run_i2c_writeto; side_condition
  | |- i2c_readfrom _ _ _ = _ => eapply run_i2c_readfrom; side_condition
  | |- prepare_window _ _ = _ => apply prepare_window_spec
  end.

(** Calls on data of which only the length is known. *)
Ltac run_symbolic :=
  lazymatch goal with
  | |- index _ _ _ = _ => apply run_index_nth; lia
  | |- prints _ _ = _ => apply run_prints
  end.

(** The methods that are run by unfolding their body. *)
Ltac open_method :=
  lazymatch goal with
  | |- when _ _ _ = _ => unfold when
  | |- sleep_us _ _ = _ => unfold sleep_us
  | |- count_crc_error _ = _ => unfold count_crc_error
  | |- set_section_valid _ _ _ = _ => unfold set_section_valid
  | |- convert _ _ = _ => unfold convert
  | |- raw_value_of _ _ = _ => unfold raw_value_of
  | |- prints _ _ = _ => progress cbn [prints]
  | |- for_each _ _ _ _ = _ => progress cbn [for_each packet_offsets]
  | |- try_except_OSError _ _ _ = _ => unfold try_except_OSError
  | |- _bus_reset _ = _ => unfold _bus_reset
  | |- _write_cmd _ _ _ = _ => unfold _write_cmd
  | |- _read_response _ _ = _ => unfold _read_response
  | |- read_data_ready_flag _ = _ => unfold read_data_ready_flag
  | |- float_packets _ _ _ _ _ = _ => unfold float_packets
  | |- get_measurement _ _ = _ => unfold get_measurement
  | |- read_sensor _ = _ => unfold read_sensor
  | |- payload_build _ _ _ = _ => unfold payload_build
  | |- build_result _ _ _ = _ => unfold build_result
  end.

Lemma run_if_true {A} (c : bool) (m1 m2 : M A) (s : sps30)
  (r : outcome A * sps30) :
  c = true -> m1 s = r -> (if c then m1 else m2) s = r.
Proof. now intros ->. Qed.

Lemma run_if_false {A} (c : bool) (m1 m2 : M A) (s : sps30)
  (r : outcome A * sps30) :
  c = false -> m2 s = r -> (if c then m1 else m2) s = r.
Proof. now intros ->. Qed.

(** Proves that a test is [true] or [false] from the context. *)
Ltac settle_test := cbn; settle_tests; cbn; reflexivity.

(** Settles the test of an [if] at the head of the program. *)
Ltac settle_if :=
  first [ apply run_if_true; [settle_test |]
        | apply run_if_false; [settle_test |] ].

(** Runs [m s] to its outcome; stops at a test it cannot settle. *)
Ltac mrun :=
  cbv beta iota zeta;
  lazymatch goal with
  | |- bind _ _ _ = _ =>
      eapply run_bind; [ mrun | mrun ]
  | |- try_except _ _ _ = _ =>
      eapply run_try_except; [ mrun | mrun ]
  | |- (_, _) = _ => first [reflexivity | settle_tests; reflexivity]
  | |- (if _ then _ else _) _ = _ => tryif settle_if then mrun else idtac
  | _ =>
      tryif run_call then idtac
      else tryif run_symbolic then idtac
      else tryif open_method then mrun else idtac
  end.

Arguments prepared_hist : simpl never.
Arguments prepare_window : simpl never.
Arguments read_data_ready_flag : simpl never.

Lemma get_measurement_gate (n : Z) (s s1 : sps30) :
  _is_measuring s = true ->
  read_data_ready_flag (query_state n s) = (Ok false, s1) ->
  get_measurement n s = (Ok None, s1).
Proof.
  destruct s as [d m v t l h ml hs fi w r tr tk]. cbn [_is_measuring].
  intros -> H. unfold get_measurement, read_sensor.
  fold (clamp_rolling_n n). unfold query_state, logged in H.
  destruct d; run_monad; cbn [debug _is_measuring emit negb];
    rewrite prepare_window_spec; cbn in H |- *; rewrite H; reflexivity.
Qed.

(** C8. When the session is not measuring, [get_measurement] returns the
    empty result after printing the "not started" diagnostic (and, in
    debug mode, its call trace); the bus sees no write and no read, and
    the bus scripts are left as they were. *)
Theorem get_measurement_not_measuring (rolling_n : Z) (s : sps30) :
  _is_measuring s = false ->
  get_measurement rolling_n s
  = (Ok None,
     emit [Console "Measurement not started - call start_measurement() first"]
       (logged "get_measurement(rolling_n)" s))
  /\ bus_traffic (snd (get_measurement rolling_n s)) = bus_traffic s
  /\ writes (snd (get_measurement rolling_n s)) = writes s
  /\ reads (snd (get_measurement rolling_n s)) = reads s.
Proof.
  destruct s as [d m v t l h ml hs fi w r tr tk]. cbn [_is_measuring].
  intros ->. unfold get_measurement, logged.
  destruct d; run; repeat split; try reflexivity; trace_solve.
Qed.

Lemma get_measurement_not_measuring_witness :
  get_measurement 3 (power_on true true PyFloat.Binary32 [true] [] 0)
  = (Ok None,
     emit [Console "Measurement not started - call start_measurement() first"]
       (logged "get_measurement(rolling_n)"
          (power_on true true PyFloat.Binary32 [true] [] 0))).
Proof.
  apply (get_measurement_not_measuring 3
           (power_on true true PyFloat.Binary32 [true] [] 0)).
  reflexivity.
Defined.

Lemma data_ready_rejected (s : sps30) (w : list bool)
  (r : list (option (list Z))) (d0 d1 c : Z) :
  writes s = true :: w ->
  reads s = Some [d0; d1; c] :: r ->
  (if crc_loop [d0; d1] =? c then d1 =? 1 else false) = false ->
  exists s1,
    read_data_ready_flag s = (Ok false, s1)
    /\ _total_crc_errors s1
       = _total_crc_errors s + (if crc_loop [d0; d1] =? c then 0 else 1)
    /\ bus_traffic s1 = bus_traffic s ++ ready_exchange [d0; d1; c]
    /\ writes s1 = w /\ reads s1 = r.
Proof.
  intros Hw Hr Hflag.
  destruct s as [d m v t l h ml hs fi ws rs tr tk].
  cbn [writes reads] in Hw, Hr. subst ws rs.
  destruct (crc_loop [d0; d1] =? c) eqn:E; destruct d;
    (eexists; split; [mrun |]);
    simpl_state; repeat apply conj; try lia; try reflexivity;
    trace_solve.
Qed.

(** C10. In the measuring state, when the 3-byte answer to the data-ready
    query either fails its checksum or carries a flag other than 1,
    [read_data_ready_flag] returns [False] in both cases (the checksum
    failure also counts one error); [get_measurement] then returns the
    empty result, and the only bus traffic of the call is the data-ready
    exchange: the read-measured-values command is not written and the
    60-byte read is not issued. In general, whenever the query made by
    [get_measurement] returns [False], the call ends there in the state
    the query left. *)
Theorem data_ready_gate (rolling_n : Z) (s : sps30) (w : list bool)
  (r : list (option (list Z))) (d0 d1 c : Z) :
  _is_measuring s = true ->
  writes s = true :: w ->
  reads s = Some [d0; d1; c] :: r ->
  crc_loop [d0; d1] <> c \/ d1 <> 1 ->
  let crc_errors := if crc_loop [d0; d1] =? c then 0 else 1 in
  fst (read_data_ready_flag s) = Ok false
  /\ _total_crc_errors (snd (read_data_ready_flag s))
     = _total_crc_errors s + crc_errors
  /\ fst (get_measurement rolling_n s) = Ok None
  /\ bus_traffic (snd (get_measurement rolling_n s))
     = bus_traffic s ++ ready_exchange [d0; d1; c]
  /\ _total_crc_errors (snd (get_measurement rolling_n s))
     = _total_crc_errors s + crc_errors
  /\ writes (snd (get_measurement rolling_n s)) = w
  /\ reads (snd (get_measurement rolling_n s)) = r
  /\ (forall s1,
        read_data_ready_flag (query_state rolling_n s) = (Ok false, s1) ->
        get_measurement rolling_n s = (Ok None, s1)).
Proof.
  intros Hm Hw Hr Hbad crc_errors.
  assert (Hgate : forall s1,
        read_data_ready_flag (query_state rolling_n s) = (Ok false, s1) ->
        get_measurement rolling_n s = (Ok None, s1))
    by (intros s1; now apply get_measurement_gate).
  assert (Hflag : (if crc_loop [d0; d1] =? c then d1 =? 1 else false) = false).
  { destruct (Z.eqb_spec (crc_loop [d0; d1]) c) as [E | E]; [| reflexivity].
    destruct Hbad as [Hbad | Hbad]; [contradiction | now apply Z.eqb_neq]. }
  destruct (data_ready_rejected s w r d0 d1 c Hw Hr Hflag)
    as (s1 & H1 & Ht1 & _).
  subst crc_errors. clear Hbad.
  repeat split; [.. | exact Hgate]; clear Hgate;
    try (rewrite H1; cbn [fst snd]; first [reflexivity | assumption]).
  all: destruct s as [d m v t l h ml hs fi ws rs tr tk];
    cbn [_is_measuring writes reads] in Hm, Hw, Hr; subst m ws rs.
  all: assert (exists s2, get_measurement rolling_n
     {| debug := d; _is_measuring := true; _valid := v;
        _total_crc_errors := t; _last_measurement_crc_errors := l;
        _hist_frames := h; _hist_maxlen := ml; has_struct := hs;
        float_impl := fi; writes := true :: w;
        reads := Some [d0; d1; c] :: r; trace := tr; ticks := tk |}
     = (Ok None, s2)
     /\ bus_traffic s2 = bus_events tr ++ ready_exchange [d0; d1; c]
     /\ _total_crc_errors s2
        = t + (if crc_loop [d0; d1] =? c then 0 else 1)
     /\ writes s2 = w /\ reads s2 = r) as (s2 & H2 & Hb & Ht2 & Hw2 & Hr2)
    by (destruct (crc_loop [d0; d1] =? c) eqn:E; destruct d;
        (eexists; split; [mrun |]);
        simpl_state; repeat apply conj; try lia; try reflexivity;
        trace_solve).
  all: rewrite H2; cbn [fst snd];
    first [reflexivity | assumption].
Qed.

Lemma data_ready_gate_witness :
  let s := set_is_measuring true
             (power_on true true PyFloat.Binary64 [true]
                [Some [0x00; 0x01; 0x00]] 0) in
  fst (read_data_ready_flag s) = Ok false
  /\ fst (get_measurement 1 s) = Ok None.
Proof.
  intros s.
  assert (Hbad : crc_loop [0x00; 0x01] <> 0x00 \/ 0x01 <> 1)
    by (left; intros H; vm_compute in H; discriminate H).
  destruct (data_ready_gate 1 s [] [] 0x00 0x01 0x00
              eq_refl eq_refl eq_refl Hbad) as (H1 & _ & H3 & _).
  split; assumption.
Defined.

(** ** Measurement assembler *)

Lemma py_slice_pair (data : list Z) (o : nat) :
  (o + 2 <= List.length data)%nat ->
  py_slice data o (o + 2) = [nth o data 0; nth (o + 1) data 0].
Proof.
  intros H. unfold py_slice.
  replace (o + 2 - o)%nat with 2%nat by lia.
  revert o H. induction data as [| x data IH]; intros o H.
  - cbn [List.length] in H. lia.
  - destruct o as [| o].
    + destruct data as [| y data]; [cbn [List.length] in H; lia | reflexivity].
    + cbn [skipn nth Nat.add]. apply IH. cbn [List.length] in H. lia.
Qed.

Lemma run_float_packets {R} (sec : section) (early : R) (base : nat)
  (data : list Z) (s : sps30) :
  (base + 6 <= List.length data)%nat ->
  float_packets sec early base data s
  = if field_ok data base
    then (Ok (Continue (field_bytes data base)), s)
    else (Ok (Return early), crc_failed sec s).
Proof.
  intros Hlen. unfold field_ok, packet_ok, field_bytes, float_packets.
  cbn [for_each packet_offsets]. cbv beta zeta.
  rewrite !py_slice_pair by lia.
  destruct (crc_loop [nth (base + 0) data 0; nth (base + 0 + 1) data 0]
            =? nth (base + 0 + 2) data 0) eqn:E0; cbn [andb].
  2: { mrun. }
  destruct (crc_loop [nth (base + 3) data 0; nth (base + 3 + 1) data 0]
            =? nth (base + 3 + 2) data 0) eqn:E1.
  - mrun.
  - mrun.
Qed.

Lemma run_raw_value_of (data : list Z) (base : nat) (s : sps30) :
  raw_value_of (field_bytes data base) s = (Ok (field_word data base), s).
Proof. reflexivity. Qed.

Lemma run_convert (raw_value : Z) (s : sps30) :
  convert raw_value s = (Ok (conversion_of s raw_value), s).
Proof. reflexivity. Qed.

Lemma run_float_field (sec : section) (data : list Z) (block : nat)
  (pm : string) (values : dict) (s : sps30) :
  (block * SIZE_FLOAT + 6 <= List.length data)%nat ->
  float_field sec data (block, pm) values s
  = if field_ok data (block * SIZE_FLOAT)
    then (Ok (Continue
                (dict_set values pm
                   (conversion_of s (field_word data (block * SIZE_FLOAT))))),
          s)
    else (Ok (Return []), crc_failed sec s).
Proof.
  intros Hlen. unfold float_field.
  eapply run_bind; [apply run_float_packets; exact Hlen |].
  destruct (field_ok data (block * SIZE_FLOAT)); cbv beta iota.
  - eapply run_bind; [apply run_raw_value_of |]. cbv beta iota.
    eapply run_bind; [apply run_convert |]. reflexivity.
  - reflexivity.
Qed.

(** The first field with a failing packet ends the loop over the fields:
    the fields after it are not looked at. *)
Lemma run_float_field_loop (sec : section) (data : list Z)
  (fields : list (nat * string)) (values : dict) (s : sps30) :
  Forall (fun f => (fst f * SIZE_FLOAT + 6 <= List.length data)%nat) fields ->
  for_each fields (float_field sec data) values s
  = if forallb (fun f => field_ok data (fst f * SIZE_FLOAT)) fields
    then (Ok (Continue (decode_fields (conversion_of s) fields data values)),
          s)
    else (Ok (Return []), crc_failed sec s).
Proof.
  intros Hall. revert values.
  induction Hall as [| [block pm] fields Hlen Hall IH]; intros values.
  - reflexivity.
  - cbn [for_each forallb decode_fields fst].
    eapply run_bind; [apply run_float_field; exact Hlen |].
    destruct (field_ok data (block * SIZE_FLOAT)); cbn [andb]; cbv beta iota.
    + apply IH.
    + reflexivity.
Qed.

Lemma enumerate_blocks {A} (l : list A) (start : nat) (P : nat -> Prop) :
  (forall b, (start <= b < start + List.length l)%nat -> P b) ->
  Forall (fun f => P (fst f)) (combine (seq start (List.length l)) l).
Proof.
  revert start. induction l as [| x l IH]; intros start H; [constructor |].
  cbn [List.length seq combine]. constructor.
  - cbn [fst]. apply H. cbn [List.length]. lia.
  - apply IH. intros b Hb. apply H. cbn [List.length]. lia.
Qed.

Lemma forallb_enumerate {A} (l : list A) (start : nat) (p : nat -> bool) :
  forallb (fun f => p (fst f)) (combine (seq start (List.length l)) l)
  = forallb p (seq start (List.length l)).
Proof.
  revert start. induction l as [| x l IH]; intros start; [reflexivity |].
  cbn [List.length seq combine forallb fst]. now rewrite IH.
Qed.

Lemma run_float_fields (sec : section) (category : list string)
  (data : list Z) (s : sps30) :
  (List.length category * SIZE_FLOAT <= List.length data)%nat ->
  float_fields sec category data s
  = if section_ok (List.length category) data
    then (Ok (decode_section (conversion_of s) category data),
          mark_section sec true s)
    else (Ok [], crc_failed sec s).
Proof.
  intros Hlen. unfold float_fields, section_ok, decode_section, enumerate.
  cbv zeta.
  eapply run_bind.
  { apply run_float_field_loop.
    apply (enumerate_blocks category 0
             (fun b => (b * SIZE_FLOAT + 6 <= List.length data)%nat)).
    intros b Hb. cbv beta. unfold SIZE_FLOAT in *. lia. }
  rewrite (forallb_enumerate category 0
             (fun block => field_ok data (block * SIZE_FLOAT))).
  destruct (forallb _ (seq 0 (List.length category))); cbv beta iota.
  - eapply run_bind; [reflexivity |]. reflexivity.
  - reflexivity.
Qed.

Lemma py_slice_length {A} (l : list A) (a b : nat) :
  (b <= List.length l)%nat -> List.length (py_slice l a b) = (b - a)%nat.
Proof.
  intros H. unfold py_slice. rewrite length_firstn, length_skipn. lia.
Qed.

Lemma run_mass_density (data : list Z) (s : sps30) :
  List.length data = 24%nat ->
  _mass_density_measurement data s
  = if section_ok 4 data
    then (Ok (decode_section
                (conversion_of (logged "_mass_density_measurement() len" s))
                mass_density_category data),
          mark_section MassDensity true
            (logged "_mass_density_measurement() len" s))
    else (Ok [],
          crc_failed MassDensity
            (logged "_mass_density_measurement() len" s)).
Proof.
  intros H. unfold _mass_density_measurement.
  eapply run_bind; [apply run_dbg |]. cbv beta iota.
  apply (run_float_fields MassDensity mass_density_category).
  rewrite H. cbn. lia.
Qed.

Lemma run_particle_count (data : list Z) (s : sps30) :
  List.length data = 30%nat ->
  _particle_count_measurement data s
  = if section_ok 5 data
    then (Ok (decode_section
                (conversion_of (logged "_particle_count_measurement() len" s))
                particle_count_category data),
          mark_section ParticleCount true
            (logged "_particle_count_measurement() len" s))
    else (Ok [],
          crc_failed ParticleCount
            (logged "_particle_count_measurement() len" s)).
Proof.
  intros H. unfold _particle_count_measurement.
  eapply run_bind; [apply run_dbg |]. cbv beta iota.
  apply (run_float_fields ParticleCount particle_count_category).
  rewrite H. cbn. lia.
Qed.

Lemma run_particle_size (data : list Z) (s : sps30) :
  List.length data = 6%nat ->
  _particle_size_measurement data s
  = if section_ok 1 data
    then (Ok (conversion_of (logged "_particle_size_measurement() len" s)
                (field_word data 0)),
          mark_section ParticleSize true
            (logged "_particle_size_measurement() len" s))
    else (Ok PyFloat.zero,
          crc_failed ParticleSize
            (logged "_particle_size_measurement() len" s)).
Proof.
  intros H. unfold _particle_size_measurement, section_ok.
  cbn [seq forallb Nat.mul]. rewrite andb_true_r.
  eapply run_bind; [apply run_dbg |]. cbv beta iota.
  eapply run_bind; [apply run_float_packets; rewrite H; cbn; lia |].
  destruct (field_ok data 0); cbv beta iota; [| reflexivity].
  eapply run_bind; [reflexivity |]. cbv beta iota.
  eapply run_bind; [apply run_raw_value_of |]. cbv beta iota.
  rewrite run_convert. reflexivity.
Qed.

Lemma pick_true {A} (c : bool) (x y : A) : c = true -> (if c then x else y) = x.
Proof. now intros ->. Qed.

Lemma pick_false {A} (c : bool) (x y : A) :
  c = false -> (if c then x else y) = y.
Proof. now intros ->. Qed.

(** Proves the length of a part of the measurement response. *)
Ltac slice_len :=
  unfold py_slice_from;
  rewrite ?py_slice_length, ?length_skipn by lia; lia.

(** The three section methods on the parts of a 60-byte response. *)
Ltac run_section :=
  lazymatch goal with
  | |- _mass_density_measurement _ _ = _ =>
      rewrite run_mass_density by slice_len
  | |- _particle_count_measurement _ _ = _ =>
      rewrite run_particle_count by slice_len
  | |- _particle_size_measurement _ _ = _ =>
      rewrite run_particle_size by slice_len
  end;
  first [ rewrite pick_true by assumption | rewrite pick_false by assumption ];
  first [ rewrite !logged_on by side_condition
        | rewrite !logged_off by side_condition ];
  reflexivity.

Ltac run_symbolic ::=
  lazymatch goal with
  | |- index _ _ _ = _ => apply run_index_nth; lia
  | |- prints _ _ = _ => apply run_prints
  | _ => run_section
  end.

Lemma run_read_sensor (s : sps30) (w : list bool)
  (r : list (option (list Z))) (d0 c : Z) (raw : list Z) :
  writes s = true :: true :: w ->
  reads s = Some [d0; 1; c] :: Some raw :: r ->
  (crc_loop [d0; 1] =? c) = true ->
  List.length raw = 60%nat ->
  exists s',
    read_sensor s
    = (Ok (if all_valid (decode_validity raw)
           then Continue (decode_frame (conversion_of s) raw)
           else Return None),
       s')
    /\ _valid s' = decode_validity raw
    /\ _total_crc_errors s'
       = _total_crc_errors s + failed_sections (decode_validity raw)
    /\ _last_measurement_crc_errors s'
       = failed_sections (decode_validity raw)
    /\ bus_traffic s'
       = bus_traffic s ++ ready_exchange [d0; 1; c] ++ measure_exchange raw
    /\ writes s' = w /\ reads s' = r
    /\ same_session s s'.
Proof.
  intros Hw Hr Hc Hlen.
  assert (Hlenb : (List.length raw =? NBYTES_MEASURED_VALUES_FLOAT)%nat = true)
    by (now apply Nat.eqb_eq).
  destruct s as [d m v t l h ml hs fi ws rs tr tk].
  cbn [writes reads] in Hw, Hr. subst ws rs.
  unfold decode_validity, decode_frame, all_valid, failed_sections,
    same_session, mass_part, count_part, size_part.
  cbn [v_mass_density v_particle_count v_particle_size].
  destruct (section_ok 4 (py_slice raw 0 24)) eqn:Em;
    destruct (section_ok 5 (py_slice raw 24 54)) eqn:Ec;
    destruct (section_ok 1 (py_slice_from raw 54)) eqn:Es;
    cbn [andb]; destruct d;
    (eexists; apply conj; [mrun |]);
    simpl_state; repeat apply conj;
    lazymatch goal with
    | |- bus_traffic _ = _ => trace_solve
    | |- _ => first [reflexivity | lia]
    end.
Qed.

(** ** Rolling aggregator *)

Lemma dict_lookup_in_keys (d : dict) (k : string) :
  In k (dict_keys d) -> exists v, dict_lookup d k = Some v.
Proof.
  induction d as [| [k' v'] d IH]; intros H; [contradiction |].
  cbn [dict_lookup]. destruct (String.eqb_spec k' k) as [E | E].
  - now exists v'.
  - apply IH. destruct H as [H | H]; [contradiction | exact H].
Qed.

Lemma dict_keys_set (d : dict) (k : string) (v : float) :
  In k (dict_keys d) -> dict_keys (dict_set d k v) = dict_keys d.
Proof.
  induction d as [| [k' v'] d IH]; intros H; [contradiction |].
  cbn [dict_set]. destruct (String.eqb_spec k' k) as [E | E].
  - now subst k'.
  - cbn [dict_keys map fst]. f_equal. apply IH.
    destruct H as [H | H]; [contradiction | exact H].
Qed.

Lemma run_sum_over_dict (fi : PyFloat.float_impl) (block : frame -> dict)
  (k : string) (frames : list frame) (acc : float) (s : sps30) :
  Forall (fun f => In k (dict_keys (block f))) frames ->
  sum_over fi (fun f => dict_get (block f) k) frames acc s
  = (Ok (fold_left (PyFloat.add fi) (field_values block k frames) acc), s).
Proof.
  intros Hall. revert acc.
  induction Hall as [| f frames Hk Hall IH]; intros acc; [reflexivity |].
  cbn [sum_over field_values map fold_left].
  destruct (dict_lookup_in_keys _ _ Hk) as [v Hv].
  eapply run_bind; [apply run_dict_get; exact Hv |]. cbv beta iota.
  rewrite Hv. apply IH.
Qed.

Lemma run_sum_over_size (fi : PyFloat.float_impl) (frames : list frame)
  (acc : float) (s : sps30) :
  sum_over fi (fun f => ret (particle_size f)) frames acc s
  = (Ok (fold_left (PyFloat.add fi) (map particle_size frames) acc), s).
Proof.
  revert acc. induction frames as [| f frames IH]; intros acc; [reflexivity |].
  cbn [sum_over map fold_left].
  eapply run_bind; [apply run_ret |]. cbv beta iota. apply IH.
Qed.

Lemma field_values_length (block : frame -> dict) (k : string)
  (frames : list frame) :
  List.length (field_values block k frames) = List.length frames.
Proof. apply length_map. Qed.

(** The loop over the keys, for keys that every frame has. *)
Lemma run_average_block (fi : PyFloat.float_impl) (block : frame -> dict)
  (frames : list frame) (keys : list string) (avg : dict) (s : sps30) :
  Forall (fun k => Forall (fun f => In k (dict_keys (block f))) frames) keys ->
  average_block fi block frames (Z.of_nat (List.length frames)) keys avg s
  = (Ok (fold_left
           (fun d k => dict_set d k (mean fi (field_values block k frames)))
           keys avg),
     s).
Proof.
  intros Hall. revert avg.
  induction Hall as [| k keys Hk Hall IH]; intros avg; [reflexivity |].
  cbn [average_block fold_left].
  eapply run_bind; [apply run_sum_over_dict; exact Hk |]. cbv beta iota.
  rewrite IH. unfold mean. now rewrite field_values_length.
Qed.

Lemma well_formed_keys (block : frame -> dict) (category : list string)
  (frames : list frame) :
  Forall (fun f => dict_keys (block f) = category) frames ->
  Forall (fun k => Forall (fun f => In k (dict_keys (block f))) frames)
    category.
Proof.
  intros H. apply Forall_forall. intros k Hk.
  eapply Forall_impl; [| exact H]. cbv beta. intros f ->. exact Hk.
Qed.

Lemma run_average_frames (frames : list frame) (s : sps30) :
  frames <> [] ->
  Forall well_formed frames ->
  average_frames frames s = (Ok (mean_frame (float_impl s) frames), s).
Proof.
  intros Hne Hwf. destruct frames as [| first rest]; [contradiction |].
  assert (Hm : Forall (fun f => dict_keys (mass_density f)
                                = mass_density_category) (first :: rest))
    by (eapply Forall_impl; [| exact Hwf]; intros f [H _]; exact H).
  assert (Hc : Forall (fun f => dict_keys (particle_count f)
                                = particle_count_category) (first :: rest))
    by (eapply Forall_impl; [| exact Hwf]; intros f [_ H]; exact H).
  unfold average_frames.
  eapply run_bind; [apply run_gets |]. cbv beta iota zeta.
  eapply run_bind; [apply run_index; reflexivity |]. cbv beta iota.
  inversion Hwf as [| ? ? [Hk1 Hk2] _]. subst.
  rewrite Hk1, Hk2.
  eapply run_bind.
  { apply run_average_block. now apply well_formed_keys. }
  cbv beta iota.
  eapply run_bind.
  { apply run_average_block. now apply well_formed_keys. }
  cbv beta iota.
  eapply run_bind; [apply run_sum_over_size |]. cbv beta iota.
  unfold mean_frame, mean. rewrite length_map. reflexivity.
Qed.

Lemma slide_well_formed (n : Z) (frames : list frame) :
  Forall well_formed frames -> Forall well_formed (slide n frames).
Proof.
  intros H. unfold slide. destruct (n <? _); [| exact H].
  destruct frames as [| f frames]; [exact H |]. now inversion H.
Qed.

Lemma slide_full_nonempty (n : Z) (frames : list frame) :
  1 < n -> (Z.of_nat (List.length (slide n frames)) <? n) = false ->
  slide n frames <> [].
Proof.
  intros Hn H E. rewrite E in H. cbn in H. apply Z.ltb_ge in H. lia.
Qed.

Ltac run_symbolic ::=
  lazymatch goal with
  | |- index _ _ _ = _ => apply run_index_nth; lia
  | |- prints _ _ = _ => apply run_prints
  | |- average_frames _ _ = _ =>
      apply run_average_frames;
      [ now apply slide_full_nonempty | assumption ]
  | _ => run_section
  end.

(** The rolling-average logic for a window size above one, on a stored
    window of well-formed frames. *)
Lemma run_rolling_average (n : Z) (fr : frame) (s : sps30)
  (frames : list frame) :
  1 < n ->
  _hist_frames s = Some frames ->
  Forall well_formed (frames ++ [fr]) ->
  exists s',
    rolling_average n fr s
    = (Ok (if Z.of_nat (List.length (slide n (frames ++ [fr]))) <? n
           then Return None
           else Continue (mean_frame (float_impl s)
                            (slide n (frames ++ [fr])))),
       s')
    /\ _hist_frames s' = Some (slide n (frames ++ [fr]))
    /\ _hist_maxlen s' = _hist_maxlen s
    /\ _valid s' = _valid s
    /\ _total_crc_errors s' = _total_crc_errors s
    /\ _last_measurement_crc_errors s' = _last_measurement_crc_errors s
    /\ ticks s' = ticks s
    /\ debug s' = debug s
    /\ writes s' = writes s /\ reads s' = reads s
    /\ bus_traffic s' = bus_traffic s
    /\ _is_measuring s' = _is_measuring s
    /\ has_struct s' = has_struct s
    /\ float_impl s' = float_impl s.
Proof.
  intros Hn Hh Hwf.
  assert (Hn' : (1 <? n) = true) by now apply Z.ltb_lt.
  apply (slide_well_formed n) in Hwf.
  unfold rolling_average. rewrite Hn'.
  destruct (Z.of_nat (List.length (slide n (frames ++ [fr]))) <? n) eqn:E;
    destruct (debug s) eqn:D;
    (eexists; apply conj;
     [ eapply run_bind; [apply run_gets |]; cbv beta iota; rewrite Hh;
       cbv zeta; fold (slide n (frames ++ [fr])); rewrite ?E;
       mrun
     | simpl_state; repeat apply conj;
       lazymatch goal with
       | |- bus_traffic _ = _ => trace_solve
       | |- _ => first [reflexivity | assumption]
       end ]).
Qed.

(** ** The whole read: from the call to the frame acceptance test *)

Lemma prepared_hist_emit (n : Z) (evs : list io_event) (s : sps30) :
  prepared_hist n (emit evs s) = prepared_hist n s.
Proof. reflexivity. Qed.

Lemma prepared_hist_above (n : Z) (s : sps30) :
  1 < n -> prepared_hist n s = (Some (kept_frames n s), Some n).
Proof.
  intros Hn. unfold prepared_hist, kept_frames.
  assert (H1 : (1 <? n) = true) by now apply Z.ltb_lt.
  assert (H2 : (n =? 1) = false) by (apply Z.eqb_neq; lia).
  rewrite H1, H2.
  destruct (_hist_frames s) as [frames |], (_hist_maxlen s) as [k |];
    try reflexivity.
  destruct (Z.eqb_spec k n) as [-> | _]; reflexivity.
Qed.

Lemma prepared_hist_one (s : sps30) :
  prepared_hist 1 s
  = match _hist_frames s with
    | Some _ => (Some [], None)
    | None => (None, _hist_maxlen s)
    end.
Proof.
  unfold prepared_hist. cbn [Z.ltb Z.compare Pos.compare Pos.compare_cont andb].
  now destruct (_hist_frames s).
Qed.

(** The state in which [get_measurement] starts to read the sensor. *)
Lemma query_state_facts (n : Z) (s : sps30) :
  writes (query_state n s) = writes s
  /\ reads (query_state n s) = reads s
  /\ _total_crc_errors (query_state n s) = _total_crc_errors s
  /\ _hist_frames (query_state n s)
     = fst (prepared_hist (clamp_rolling_n n) s)
  /\ _hist_maxlen (query_state n s)
     = snd (prepared_hist (clamp_rolling_n n) s)
  /\ debug (query_state n s) = debug s
  /\ has_struct (query_state n s) = has_struct s
  /\ float_impl (query_state n s) = float_impl s
  /\ ticks (query_state n s) = ticks s
  /\ bus_traffic (query_state n s) = bus_traffic s
  /\ _is_measuring (query_state n s) = _is_measuring s.
Proof.
  unfold query_state, logged.
  destruct (debug s) eqn:D; cbv zeta; rewrite ?prepared_hist_emit;
    simpl_state; repeat apply conj; try reflexivity; try assumption;
    trace_solve.
Qed.

Lemma run_get_measurement_head (n : Z) (s : sps30) :
  _is_measuring s = true ->
  get_measurement n s
  = try_except
      (r <- read_sensor ;;
       match r with
       | Return early => ret early
       | Continue fr =>
           r <- rolling_average (clamp_rolling_n n) fr ;;
           match r with
           | Return early => ret early
           | Continue fr => payload_build (clamp_rolling_n n) fr
           end
       end)
      (fun e => print "Measurement failed" ;; ret None)
      (query_state n s).
Proof.
  intros Hm. unfold get_measurement, query_state. cbv zeta.
  fold (clamp_rolling_n n).
  eapply run_bind; [apply run_dbg |]. cbv beta iota.
  eapply run_bind; [apply run_gets |]. cbv beta iota.
  apply run_if_false.
  { unfold logged. destruct (debug s); cbn [_is_measuring emit];
      now rewrite Hm. }
  eapply run_bind; [apply prepare_window_spec |]. cbv beta iota.
  eapply run_bind; [apply run_modify |]. cbv beta iota.
  reflexivity.
Qed.

Lemma try_except_bind_ok {A B} (m : M A) (k : A -> M B) (h : exn -> M B)
  (s s' : sps30) (a : A) :
  m s = (Ok a, s') ->
  try_except (bind m k) h s = try_except (k a) h s'.
Proof. intros H. unfold try_except, bind. now rewrite H. Qed.

(** Reading the sensor from the state that [get_measurement] prepares. *)
Lemma run_read_sensor_prepared (n : Z) (s : sps30) (w : list bool)
  (r : list (option (list Z))) (d0 c : Z) (raw : list Z) :
  writes s = true :: true :: w ->
  reads s = Some [d0; 1; c] :: Some raw :: r ->
  crc_loop [d0; 1] = c ->
  List.length raw = 60%nat ->
  exists s',
    read_sensor (query_state n s)
    = (Ok (if all_valid (decode_validity raw)
           then Continue (decode_frame (conversion_of s) raw)
           else Return None),
       s')
    /\ _valid s' = decode_validity raw
    /\ _total_crc_errors s'
       = _total_crc_errors s + failed_sections (decode_validity raw)
    /\ _last_measurement_crc_errors s'
       = failed_sections (decode_validity raw)
    /\ bus_traffic s' = bus_traffic s ++ read_exchange [d0; 1; c] raw
    /\ writes s' = w /\ reads s' = r
    /\ _hist_frames s' = fst (prepared_hist (clamp_rolling_n n) s)
    /\ _hist_maxlen s' = snd (prepared_hist (clamp_rolling_n n) s)
    /\ debug s' = debug s
    /\ float_impl s' = float_impl s
    /\ ticks s' = ticks s
    /\ has_struct s' = has_struct s
    /\ _is_measuring s' = _is_measuring s.
Proof.
  intros Hw Hr Hc Hlen.
  destruct (query_state_facts n s)
    as (Qw & Qr & Qt & Qh & Qm & Qd & Qs & Qf & Qk & Qe & Qi).
  apply Z.eqb_eq in Hc.
  destruct (run_read_sensor (query_state n s) w r d0 c raw)
    as (s' & Hrun & Hv & Ht & Hl & He & Hw' & Hr' & Hsame);
    try congruence.
  destruct Hsame as (Sd & Sm & Sh & Sl & Ss & Sf & Sk).
  exists s'. repeat apply conj; try congruence.
  - rewrite Hrun. unfold conversion_of. now rewrite Qs, Qf.
  - rewrite He, Qe. reflexivity.
Qed.

(** ** The three section decoders *)

Lemma crc_failed_facts (sec : section) (s : sps30) :
  _valid (crc_failed sec s) = with_section sec false (_valid s)
  /\ _total_crc_errors (crc_failed sec s) = _total_crc_errors s + 1
  /\ bus_traffic (crc_failed sec s) = bus_traffic s
  /\ writes (crc_failed sec s) = writes s
  /\ reads (crc_failed sec s) = reads s.
Proof.
  destruct sec; unfold crc_failed; simpl_state; repeat apply conj;
    try reflexivity; trace_solve.
Qed.

Lemma logged_facts (text : string) (s : sps30) :
  _valid (logged text s) = _valid s
  /\ _total_crc_errors (logged text s) = _total_crc_errors s
  /\ bus_traffic (logged text s) = bus_traffic s
  /\ writes (logged text s) = writes s
  /\ reads (logged text s) = reads s
  /\ conversion_of (logged text s) = conversion_of s.
Proof.
  unfold logged. destruct (debug s); repeat apply conj; try reflexivity.
  trace_solve.
Qed.

(** X1. [_mass_density_measurement] on a 24-byte section. When every
    packet carries the checksum of its two data bytes, the method returns
    the four labelled values, each the conversion of the 32-bit word of its
    two packets, sets the section's flag and counts no error. Otherwise it
    returns the empty dict, clears the flag and counts exactly one error,
    however many packets are bad. The other two flags and the bus are left
    alone. *)
Theorem mass_density_measurement_outcome (data : list Z) (s : sps30) :
  List.length data = 24%nat ->
  let conv := ieee754_number_conversion (has_struct s) (float_impl s) in
  let s' := snd (_mass_density_measurement data s) in
  fst (_mass_density_measurement data s)
  = Ok (if section_ok 4 data
        then [("pm1.0", conv (field_word data 0));
              ("pm2.5", conv (field_word data 6));
              ("pm4.0", conv (field_word data 12));
              ("pm10", conv (field_word data 18))]
        else [])
  /\ v_mass_density (_valid s') = section_ok 4 data
  /\ v_particle_count (_valid s') = v_particle_count (_valid s)
  /\ v_particle_size (_valid s') = v_particle_size (_valid s)
  /\ _total_crc_errors s'
     = _total_crc_errors s + (if section_ok 4 data then 0 else 1)
  /\ bus_traffic s' = bus_traffic s.
Proof.
  intros Hlen conv s'. subst s'. rewrite (run_mass_density data s Hlen).
  destruct (logged_facts "_mass_density_measurement() len" s)
    as (Lv & Lt & Lb & _ & _ & Lc).
  destruct (crc_failed_facts MassDensity
              (logged "_mass_density_measurement() len" s))
    as (Fv & Ft & Fb & _).
  destruct (section_ok 4 data); cbn [fst snd].
  - rewrite Lc. unfold mark_section, bus_traffic.
    cbn [_valid _total_crc_errors trace set_valid with_section
         v_mass_density v_particle_count v_particle_size].
    fold (bus_traffic (logged "_mass_density_measurement() len" s)).
    rewrite Lv, Lt, Lb. repeat apply conj; try reflexivity. lia.
  - rewrite Fv, Ft, Fb, Lv, Lt, Lb. repeat apply conj; reflexivity.
Qed.

Lemma mass_density_measurement_outcome_witness :
  let s := power_on true true PyFloat.Binary64 [] [] 0 in
  let data := response_of [0x3F800000; 0x40000000; 0x40400000; 0x40800000] in
  fst (_mass_density_measurement data s)
  = Ok [("pm1.0", PyFloat.of_int PyFloat.Binary64 1);
        ("pm2.5", PyFloat.of_int PyFloat.Binary64 2);
        ("pm4.0", PyFloat.of_int PyFloat.Binary64 3);
        ("pm10", PyFloat.of_int PyFloat.Binary64 4)].
Proof.
  intros s data.
  destruct (mass_density_measurement_outcome data s eq_refl) as (H & _).
  rewrite H. vm_compute. reflexivity.
Defined.

(** X2. [_particle_count_measurement] on a 30-byte section: the five
    labelled values and the section's flag set when every packet passes
    its checksum; the empty dict, the flag cleared and exactly one error
    counted otherwise. *)
Theorem particle_count_measurement_outcome (data : list Z) (s : sps30) :
  List.length data = 30%nat ->
  let conv := ieee754_number_conversion (has_struct s) (float_impl s) in
  let s' := snd (_particle_count_measurement data s) in
  fst (_particle_count_measurement data s)
  = Ok (if section_ok 5 data
        then [("pm0.5", conv (field_word data 0));
              ("pm1.0", conv (field_word data 6));
              ("pm2.5", conv (field_word data 12));
              ("pm4.0", conv (field_word data 18));
              ("pm10", conv (field_word data 24))]
        else [])
  /\ v_particle_count (_valid s') = section_ok 5 data
  /\ v_mass_density (_valid s') = v_mass_density (_valid s)
  /\ v_particle_size (_valid s') = v_particle_size (_valid s)
  /\ _total_crc_errors s'
     = _total_crc_errors s + (if section_ok 5 data then 0 else 1)
  /\ bus_traffic s' = bus_traffic s.
Proof.
  intros Hlen conv s'. subst s'. rewrite (run_particle_count data s Hlen).
  destruct (logged_facts "_particle_count_measurement() len" s)
    as (Lv & Lt & Lb & _ & _ & Lc).
  destruct (crc_failed_facts ParticleCount
              (logged "_particle_count_measurement() len" s))
    as (Fv & Ft & Fb & _).
  destruct (section_ok 5 data); cbn [fst snd].
  - rewrite Lc. unfold mark_section, bus_traffic.
    cbn [_valid _total_crc_errors trace set_valid with_section
         v_mass_density v_particle_count v_particle_size].
    fold (bus_traffic (logged "_particle_count_measurement() len" s)).
    rewrite Lv, Lt, Lb. repeat apply conj; try reflexivity. lia.
  - rewrite Fv, Ft, Fb, Lv, Lt, Lb. repeat apply conj; reflexivity.
Qed.

Lemma particle_count_measurement_outcome_witness :
  let s := power_on false false PyFloat.Binary32 [] [] 0 in
  let data := response_of [0x3F800000; 0x40000000; 0x40400000; 0x40800000;
                           0x40A00000] in
  fst (_particle_count_measurement (5 :: tl data) s) = Ok []
  /\ _total_crc_errors (snd (_particle_count_measurement (5 :: tl data) s)) = 1.
Proof.
  intros s data.
  destruct (particle_count_measurement_outcome (5 :: tl data) s eq_refl)
    as (H & _ & _ & _ & Ht & _).
  rewrite H, Ht. vm_compute. split; reflexivity.
Defined.

(** X3. [_particle_size_measurement] on a 6-byte section: the conversion
    of the 32-bit word of the two packets and the section's flag set when
    both packets pass their checksum; [0.0], the flag cleared and exactly
    one error counted otherwise. *)
Theorem particle_size_measurement_outcome (data : list Z) (s : sps30) :
  List.length data = 6%nat ->
  let conv := ieee754_number_conversion (has_struct s) (float_impl s) in
  let s' := snd (_particle_size_measurement data s) in
  fst (_particle_size_measurement data s)
  = Ok (if section_ok 1 data then conv (field_word data 0) else PyFloat.zero)
  /\ v_particle_size (_valid s') = section_ok 1 data
  /\ v_mass_density (_valid s') = v_mass_density (_valid s)
  /\ v_particle_count (_valid s') = v_particle_count (_valid s)
  /\ _total_crc_errors s'
     = _total_crc_errors s + (if section_ok 1 data then 0 else 1)
  /\ bus_traffic s' = bus_traffic s.
Proof.
  intros Hlen conv s'. subst s'. rewrite (run_particle_size data s Hlen).
  destruct (logged_facts "_particle_size_measurement() len" s)
    as (Lv & Lt & Lb & _ & _ & Lc).
  destruct (crc_failed_facts ParticleSize
              (logged "_particle_size_measurement() len" s))
    as (Fv & Ft & Fb & _).
  destruct (section_ok 1 data); cbn [fst snd].
  - rewrite Lc. unfold mark_section, bus_traffic.
    cbn [_valid _total_crc_errors trace set_valid with_section
         v_mass_density v_particle_count v_particle_size].
    fold (bus_traffic (logged "_particle_size_measurement() len" s)).
    rewrite Lv, Lt, Lb. repeat apply conj; try reflexivity. lia.
  - rewrite Fv, Ft, Fb, Lv, Lt, Lb. repeat apply conj; reflexivity.
Qed.

Lemma particle_size_measurement_outcome_witness :
  let s := power_on true false PyFloat.Binary64 [] [] 0 in
  fst (_particle_size_measurement (response_of [0x3F000000]) s)
  = Ok (PyFloat.int_truediv PyFloat.Binary64 1 2).
Proof.
  intros s.
  destruct (particle_size_measurement_outcome (response_of [0x3F000000]) s
              eq_refl) as (H & _).
  rewrite H. vm_compute. reflexivity.
Defined.

(** ** The whole of [get_measurement] on a complete read *)

Lemma decode_frame_well_formed (conv : Z -> float) (raw : list Z) :
  well_formed (decode_frame conv raw).
Proof. split; reflexivity. Qed.

Lemma run_payload_build (n : Z) (fr : frame) (s : sps30) :
  payload_build n fr s
  = (Ok (Some (payload_of n fr s)),
     if _last_measurement_crc_errors s =? 0
     then logged "MEASUREMENT SUCCESSFUL - CRC OK" s else s).
Proof.
  unfold payload_build, build_result, payload_of.
  repeat (eapply run_bind; [apply run_gets |]; cbv beta iota).
  eapply run_bind; [apply run_ret |]. cbv beta iota.
  eapply run_bind; [apply run_gets |]. cbv beta iota.
  destruct (_last_measurement_crc_errors s =? 0); unfold when.
  - eapply run_bind; [apply run_dbg |]. reflexivity.
  - reflexivity.
Qed.

Lemma payload_of_same (n : Z) (fr : frame) (s s' : sps30) :
  ticks s' = ticks s ->
  _last_measurement_crc_errors s' = _last_measurement_crc_errors s ->
  _total_crc_errors s' = _total_crc_errors s ->
  _valid s' = _valid s ->
  payload_of n fr s' = payload_of n fr s.
Proof. unfold payload_of. now intros -> -> -> ->. Qed.

Lemma logged_same (text : string) (s : sps30) :
  debug (logged text s) = debug s
  /\ _is_measuring (logged text s) = _is_measuring s
  /\ _last_measurement_crc_errors (logged text s)
     = _last_measurement_crc_errors s
  /\ _hist_frames (logged text s) = _hist_frames s
  /\ _hist_maxlen (logged text s) = _hist_maxlen s
  /\ ticks (logged text s) = ticks s
  /\ float_impl (logged text s) = float_impl s
  /\ has_struct (logged text s) = has_struct s.
Proof.
  unfold logged. destruct (debug s) eqn:D; repeat apply conj;
    first [reflexivity | exact D].
Qed.

(** The handler of a method's [try] block is not entered when the block
    returns. *)
Lemma try_except_ok {A} (m : M A) (h : exn -> M A) (s s' : sps30) (a : A) :
  m s = (Ok a, s') -> try_except m h s = (Ok a, s').
Proof. intros H. unfold try_except. now rewrite H. Qed.

Lemma failed_sections_all_valid (v : validity) :
  all_valid v = true -> failed_sections v = 0.
Proof.
  destruct v as [[] [] []]; cbn; intros H; first [reflexivity | discriminate].
Qed.

Lemma failed_sections_some_invalid (v : validity) :
  all_valid v = false -> 1 <= failed_sections v <= 3.
Proof.
  destruct v as [[] [] []]; cbn; intros H; first [lia | discriminate].
Qed.

(** A complete read whose frame fails the acceptance test. *)
Lemma run_get_measurement_rejected (n : Z) (s : sps30) (w : list bool)
  (r : list (option (list Z))) (d0 c : Z) (raw : list Z) :
  _is_measuring s = true ->
  writes s = true :: true :: w ->
  reads s = Some [d0; 1; c] :: Some raw :: r ->
  crc_loop [d0; 1] = c ->
  List.length raw = 60%nat ->
  all_valid (decode_validity raw) = false ->
  exists s',
    get_measurement n s = (Ok None, s')
    /\ _valid s' = decode_validity raw
    /\ _total_crc_errors s'
       = _total_crc_errors s + failed_sections (decode_validity raw)
    /\ _last_measurement_crc_errors s'
       = failed_sections (decode_validity raw)
    /\ bus_traffic s' = bus_traffic s ++ read_exchange [d0; 1; c] raw
    /\ writes s' = w /\ reads s' = r
    /\ _hist_frames s' = fst (prepared_hist (clamp_rolling_n n) s)
    /\ _hist_maxlen s' = snd (prepared_hist (clamp_rolling_n n) s).
Proof.
  intros Hm Hw Hr Hc Hlen Hbad.
  destruct (run_read_sensor_prepared n s w r d0 c raw Hw Hr Hc Hlen)
    as (s1 & Hrun & Hv & Ht & Hl & He & Hw1 & Hr1 & Hh & Hml & _).
  rewrite Hbad in Hrun.
  exists s1. repeat apply conj; try assumption.
  rewrite (run_get_measurement_head n s Hm).
  rewrite (try_except_bind_ok _ _ _ _ _ _ Hrun). reflexivity.
Qed.

(** A complete read with an accepted frame and no averaging. *)
Lemma run_get_measurement_single (n : Z) (s : sps30) (w : list bool)
  (r : list (option (list Z))) (d0 c : Z) (raw : list Z) :
  _is_measuring s = true ->
  writes s = true :: true :: w ->
  reads s = Some [d0; 1; c] :: Some raw :: r ->
  crc_loop [d0; 1] = c ->
  List.length raw = 60%nat ->
  all_valid (decode_validity raw) = true ->
  n <= 1 ->
  exists s',
    get_measurement n s
    = (Ok (Some (payload_of 1 (decode_frame (conversion_of s) raw) s')), s')
    /\ _valid s' = decode_validity raw
    /\ _total_crc_errors s' = _total_crc_errors s
    /\ _last_measurement_crc_errors s' = 0
    /\ ticks s' = ticks s
    /\ bus_traffic s' = bus_traffic s ++ read_exchange [d0; 1; c] raw
    /\ writes s' = w /\ reads s' = r
    /\ _hist_frames s' = fst (prepared_hist 1 s)
    /\ _hist_maxlen s' = snd (prepared_hist 1 s).
Proof.
  intros Hm Hw Hr Hc Hlen Hok Hn.
  destruct (run_read_sensor_prepared n s w r d0 c raw Hw Hr Hc Hlen)
    as (s1 & Hrun & Hv & Ht & Hl & He & Hw1 & Hr1 & Hh & Hml & _ & _ & Hk & _).
  rewrite Hok in Hrun. rewrite (failed_sections_all_valid _ Hok) in Ht, Hl.
  assert (Hclamp : clamp_rolling_n n = 1).
  { unfold clamp_rolling_n. destruct (Z.ltb_spec n 1); lia. }
  rewrite Hclamp in *.
  set (fr := decode_frame (conversion_of s) raw) in *.
  set (s2 := if _last_measurement_crc_errors s1 =? 0
             then logged "MEASUREMENT SUCCESSFUL - CRC OK" s1 else s1).
  destruct (logged_facts "MEASUREMENT SUCCESSFUL - CRC OK" s1)
    as (Lv & Lt & Lb & Lw & Lr & _).
  destruct (logged_same "MEASUREMENT SUCCESSFUL - CRC OK" s1)
    as (_ & _ & Ll & Lh & Lm & Lk & _).
  assert (Hs2 : _valid s2 = _valid s1
                /\ _total_crc_errors s2 = _total_crc_errors s1
                /\ _last_measurement_crc_errors s2
                   = _last_measurement_crc_errors s1
                /\ ticks s2 = ticks s1
                /\ bus_traffic s2 = bus_traffic s1
                /\ writes s2 = writes s1 /\ reads s2 = reads s1
                /\ _hist_frames s2 = _hist_frames s1
                /\ _hist_maxlen s2 = _hist_maxlen s1).
  { subst s2. destruct (_last_measurement_crc_errors s1 =? 0);
      repeat apply conj; first [assumption | reflexivity]. }
  destruct Hs2 as (Sv & St & Sl & Sk & Sb & Sw & Sr & Sh & Sm).
  exists s2. repeat apply conj; try congruence; try lia.
  rewrite (run_get_measurement_head n s Hm), Hclamp.
  rewrite (try_except_bind_ok _ _ _ _ _ _ Hrun). cbv beta iota.
  apply try_except_ok.
  eapply run_bind.
  { unfold rolling_average. change (1 <? 1) with false. cbv iota.
    apply run_ret. }
  cbv beta iota.
  rewrite run_payload_build. fold s2.
  now rewrite (payload_of_same 1 fr s1 s2).
Qed.

(** A complete read with an accepted frame and a window above one. *)
Lemma run_get_measurement_rolling (n : Z) (s : sps30) (w : list bool)
  (r : list (option (list Z))) (d0 c : Z) (raw : list Z) :
  _is_measuring s = true ->
  writes s = true :: true :: w ->
  reads s = Some [d0; 1; c] :: Some raw :: r ->
  crc_loop [d0; 1] = c ->
  List.length raw = 60%nat ->
  all_valid (decode_validity raw) = true ->
  1 < n ->
  Forall well_formed (kept_frames n s) ->
  let window :=
    slide n (kept_frames n s ++ [decode_frame (conversion_of s) raw]) in
  exists s',
    get_measurement n s
    = (Ok (if Z.of_nat (List.length window) <? n then None
           else Some (payload_of n (mean_frame (float_impl s) window) s')),
       s')
    /\ _hist_frames s' = Some window
    /\ _hist_maxlen s' = Some n
    /\ _valid s' = decode_validity raw
    /\ _total_crc_errors s' = _total_crc_errors s
    /\ _last_measurement_crc_errors s' = 0
    /\ ticks s' = ticks s
    /\ bus_traffic s' = bus_traffic s ++ read_exchange [d0; 1; c] raw
    /\ writes s' = w /\ reads s' = r
    /\ _is_measuring s' = true
    /\ has_struct s' = has_struct s
    /\ float_impl s' = float_impl s.
Proof.
  intros Hm Hw Hr Hc Hlen Hok Hn Hwf window.
  destruct (run_read_sensor_prepared n s w r d0 c raw Hw Hr Hc Hlen)
    as (s1 & Hrun & Hv & Ht & Hl & He & Hw1 & Hr1 & Hh & Hml & _ & Hf & Hk
        & Hst & Hmeas).
  rewrite Hok in Hrun. rewrite (failed_sections_all_valid _ Hok) in Ht, Hl.
  assert (Hclamp : clamp_rolling_n n = n).
  { unfold clamp_rolling_n. destruct (Z.ltb_spec n 1); lia. }
  rewrite Hclamp, (prepared_hist_above n s Hn) in *. cbn [fst snd] in Hh, Hml.
  set (fr := decode_frame (conversion_of s) raw) in *.
  assert (Hwf' : Forall well_formed (kept_frames n s ++ [fr])).
  { apply Forall_app. split; [exact Hwf |].
    constructor; [apply decode_frame_well_formed | constructor]. }
  destruct (run_rolling_average n fr s1 (kept_frames n s) Hn Hh Hwf')
    as (s2 & Hroll & Rh & Rm & Rv & Rt & Rl & Rk & Rd & Rw & Rr & Rb
        & Rmeas & Rst & Rf).
  fold window in Hroll, Rh. rewrite Hf in Hroll.
  rewrite (run_get_measurement_head n s Hm), Hclamp.
  rewrite (try_except_bind_ok _ _ _ _ _ _ Hrun). cbv beta iota.
  rewrite (try_except_bind_ok _ _ _ _ _ _ Hroll).
  destruct (Z.of_nat (List.length window) <? n) eqn:E; cbv beta iota.
  - exists s2. repeat apply conj; try congruence; try lia.
    reflexivity.
  - set (s3 := if _last_measurement_crc_errors s2 =? 0
               then logged "MEASUREMENT SUCCESSFUL - CRC OK" s2 else s2).
    destruct (logged_facts "MEASUREMENT SUCCESSFUL - CRC OK" s2)
      as (Lv & Lt & Lb & Lw & Lr & _).
    destruct (logged_same "MEASUREMENT SUCCESSFUL - CRC OK" s2)
      as (_ & Li & Ll & Lh & Lm & Lk & Lf & Ls).
    assert (Hs3 : _valid s3 = _valid s2
                  /\ _total_crc_errors s3 = _total_crc_errors s2
                  /\ _last_measurement_crc_errors s3
                     = _last_measurement_crc_errors s2
                  /\ ticks s3 = ticks s2
                  /\ bus_traffic s3 = bus_traffic s2
                  /\ writes s3 = writes s2 /\ reads s3 = reads s2
                  /\ _hist_frames s3 = _hist_frames s2
                  /\ _hist_maxlen s3 = _hist_maxlen s2
                  /\ _is_measuring s3 = _is_measuring s2
                  /\ has_struct s3 = has_struct s2
                  /\ float_impl s3 = float_impl s2).
    { subst s3. destruct (_last_measurement_crc_errors s2 =? 0);
        repeat apply conj; first [assumption | reflexivity]. }
    destruct Hs3 as (Sv & St & Sl & Sk & Sb & Sw & Sr & Sh & Sm & Si & Ss
                     & Sf).
    exists s3. repeat apply conj; try congruence; try lia.
    apply try_except_ok. rewrite run_payload_build. fold s3.
    now rewrite (payload_of_same n _ s2 s3).
Qed.

(** ** Bytes and words *)

Lemma testbit_byte_at (x k n : Z) :
  0 <= k -> 0 <= n ->
  Z.testbit (Z.shiftl (Z.land x 0xFF) k) n
  = (k <=? n) && (n <? k + 8) && Z.testbit x (n - k).
Proof.
  intros Hk Hn. rewrite Z.shiftl_spec by lia.
  destruct (Z.leb_spec k n) as [H | H].
  - rewrite Z.land_spec. change 0xFF with (Z.ones 8).
    rewrite Z.testbit_ones_nonneg by lia.
    destruct (Z.ltb_spec (n - k) 8), (Z.ltb_spec n (k + 8)); try lia;
      cbn [andb]; now rewrite ?andb_true_r, ?andb_false_r.
  - now rewrite Z.testbit_neg_r by lia.
Qed.

(** The four bytes of a word, most significant first, give the word
    back. *)
Lemma word_of_its_bytes (w : Z) :
  Z.lor (Z.lor (Z.lor (Z.shiftl (Z.land (Z.shiftr w 24) 0xFF) 24)
                  (Z.shiftl (Z.land (Z.shiftr w 16) 0xFF) 16))
           (Z.shiftl (Z.land (Z.shiftr w 8) 0xFF) 8))
    (Z.land w 0xFF)
  = Z.land w 0xFFFFFFFF.
Proof.
  apply Z.bits_inj'. intros n Hn.
  rewrite !Z.lor_spec, !testbit_byte_at by lia.
  rewrite <- (Z.shiftl_0_r (Z.land w 0xFF)), testbit_byte_at by lia.
  rewrite Z.land_spec.
  change 0xFFFFFFFF with (Z.ones 32). rewrite Z.testbit_ones_nonneg by lia.
  destruct (Z.ltb_spec n 32), (Z.leb_spec 24 n), (Z.leb_spec 16 n),
    (Z.leb_spec 8 n), (Z.leb_spec 0 n), (Z.ltb_spec n (24 + 8)),
    (Z.ltb_spec n (16 + 8)), (Z.ltb_spec n (8 + 8)), (Z.ltb_spec n (0 + 8));
    try lia; cbn [andb orb];
    rewrite ?Z.shiftr_spec by lia;
    rewrite ?andb_true_r, ?andb_false_r, ?orb_false_r;
    try reflexivity; f_equal; lia.
Qed.

Lemma land_land_same (x m : Z) : Z.land (Z.land x m) m = Z.land x m.
Proof. now rewrite <- Z.land_assoc, Z.land_diag. Qed.

Lemma shiftr_land_0xFFFF (w : Z) :
  Z.land (Z.shiftr (Z.land w 0xFFFF) 8) 0xFF = Z.land (Z.shiftr w 8) 0xFF.
Proof.
  apply Z.bits_inj'. intros n Hn.
  rewrite !Z.land_spec, !Z.shiftr_spec, Z.land_spec by lia.
  change 0xFFFF with (Z.ones 16). change 0xFF with (Z.ones 8).
  rewrite !Z.testbit_ones_nonneg by lia.
  destruct (Z.ltb_spec n 8), (Z.ltb_spec (n + 8) 16); try lia;
    now rewrite ?andb_true_r, ?andb_false_r.
Qed.

Lemma land_0xFFFF_0xFF (w : Z) : Z.land (Z.land w 0xFFFF) 0xFF = Z.land w 0xFF.
Proof. now rewrite <- Z.land_assoc. Qed.

(** The word that the driver assembles from the packets of one float. *)
Lemma field_word_float_of_word (w : Z) (rest : list Z) :
  field_word (float_of_word w ++ rest) 0 = Z.land w 0xFFFFFFFF.
Proof.
  unfold field_word, float_of_word, packet_of.
  cbn [app nth Nat.add].
  rewrite shiftr_land_0xFFFF, land_0xFFFF_0xFF, Z.shiftr_shiftr by lia.
  apply word_of_its_bytes.
Qed.

Lemma field_ok_float_of_word (w : Z) (rest : list Z) :
  field_ok (float_of_word w ++ rest) 0 = true.
Proof.
  unfold field_ok, packet_ok, float_of_word, packet_of.
  cbn [app nth Nat.add]. now rewrite !Z.eqb_refl.
Qed.

Lemma word_of_packets (w : Z) :
  Z.lor (Z.lor (Z.lor (Z.shiftl (Z.land (Z.shiftr (Z.shiftr w 16) 8) 0xFF) 24)
                  (Z.shiftl (Z.land (Z.shiftr w 16) 0xFF) 16))
           (Z.shiftl (Z.land (Z.shiftr (Z.land w 0xFFFF) 8) 0xFF) 8))
    (Z.land (Z.land w 0xFFFF) 0xFF)
  = Z.land w 0xFFFFFFFF.
Proof. apply (field_word_float_of_word w []). Qed.

Lemma conversion_masks (struct_available : bool) (fi : PyFloat.float_impl)
  (w : Z) :
  ieee754_number_conversion struct_available fi (Z.land w 0xFFFFFFFF)
  = ieee754_number_conversion struct_available fi w.
Proof. unfold ieee754_number_conversion. now rewrite land_land_same. Qed.

(** Reduces the decoding of a response of known shape. *)
Ltac unfold_response :=
  unfold decode_validity, decode_frame, decode_section, section_ok, field_ok,
    packet_ok, mass_part, count_part, size_part, response_of, float_of_word,
    packet_of, py_slice, py_slice_from, enumerate, field_word,
    mass_density_category, particle_count_category, all_valid;
  cbn [flat_map app firstn skipn Nat.sub Nat.add Nat.mul seq forallb nth
       List.length combine map decode_fields dict_set String.eqb Ascii.eqb
       Bool.eqb SIZE_FLOAT v_mass_density v_particle_count v_particle_size
       mass_density particle_count particle_size];
  unfold field_word; cbn [nth Nat.add].

(** Ten words sent as a measurement response pass every checksum. *)
Lemma response_of_valid (words : list Z) :
  List.length words = 10%nat ->
  List.length (response_of words) = 60%nat
  /\ decode_validity (response_of words)
     = {| v_mass_density := true; v_particle_count := true;
          v_particle_size := true |}.
Proof.
  intros H.
  do 10 (destruct words as [| ? words]; [discriminate H |]).
  destruct words; [| discriminate H]. clear H.
  split; [reflexivity |].
  unfold_response. now rewrite !Z.eqb_refl.
Qed.

(** ... and decode to the conversion of the words, in the order of the
    labels. *)
Lemma response_of_decodes (struct_available : bool) (fi : PyFloat.float_impl)
  (words : list Z) :
  List.length words = 10%nat ->
  let conv := ieee754_number_conversion struct_available fi in
  decode_frame conv (response_of words)
  = {| mass_density :=
         combine mass_density_category (map conv (firstn 4 words));
       particle_count :=
         combine particle_count_category (map conv (firstn 5 (skipn 4 words)));
       particle_size := conv (nth 9 words 0) |}.
Proof.
  intros H conv.
  do 10 (destruct words as [| ? words]; [discriminate H |]).
  destruct words; [| discriminate H]. clear H.
  unfold_response. rewrite !word_of_packets. subst conv.
  now rewrite !conversion_masks.
Qed.

Lemma all_valid_every (v : validity) :
  all_valid v = true -> v = every_section_valid.
Proof.
  destruct v as [[] [] []]; cbn; intros H;
    first [reflexivity | discriminate].
Qed.

Lemma payload_of_clean (n : Z) (fr : frame) (s : sps30) :
  _valid s = every_section_valid ->
  _last_measurement_crc_errors s = 0 ->
  payload_of n fr s = clean_result n fr (ticks s) (_total_crc_errors s).
Proof. unfold payload_of, clean_result. now intros -> ->. Qed.

(** X4. A complete read in which some section fails its checksums: the
    call returns the empty result, the per-attempt error count is the
    number of failed sections (at least one), the cumulative count grows
    by as much, and the rejected frame does not enter the rolling
    window. *)
Theorem get_measurement_rejects_frame (rolling_n : Z) (s : sps30)
  (w : list bool) (r : list (option (list Z))) (d0 : Z) (raw : list Z) :
  _is_measuring s = true ->
  writes s = true :: true :: w ->
  reads s = Some [d0; 1; crc_loop [d0; 1]] :: Some raw :: r ->
  List.length raw = 60%nat ->
  all_valid (decode_validity raw) = false ->
  let s' := snd (get_measurement rolling_n s) in
  let failed := failed_sections (decode_validity raw) in
  fst (get_measurement rolling_n s) = Ok None
  /\ _valid s' = decode_validity raw
  /\ _last_measurement_crc_errors s' = failed
  /\ _total_crc_errors s' = _total_crc_errors s + failed
  /\ 1 <= failed <= 3
  /\ bus_traffic s'
     = bus_traffic s ++ read_exchange [d0; 1; crc_loop [d0; 1]] raw
  /\ _hist_frames s' = fst (prepared_hist (clamp_rolling_n rolling_n) s)
  /\ _hist_maxlen s' = snd (prepared_hist (clamp_rolling_n rolling_n) s).
Proof.
  intros Hm Hw Hr Hlen Hbad s' failed. subst s' failed.
  destruct (run_get_measurement_rejected rolling_n s w r d0 _ raw
              Hm Hw Hr eq_refl Hlen Hbad)
    as (s1 & -> & Hv & Ht & Hl & Hb & _ & _ & Hh & Hml).
  cbn [fst snd]. repeat apply conj; try assumption; try reflexivity;
    now apply failed_sections_some_invalid.
Qed.

Lemma get_measurement_rejects_frame_witness :
  let raw :=
    0x55 :: tl (response_of [0x3F800000; 0x40000000; 0x40400000; 0x40800000;
                             0x3F800000; 0x40000000; 0x40400000; 0x40800000;
                             0x40A00000; 0x3F000000]) in
  let s := set_is_measuring true
             (power_on true true PyFloat.Binary64 [true; true]
                [Some [0; 1; crc_loop [0; 1]]; Some raw] 0) in
  fst (get_measurement 3 s) = Ok None
  /\ _last_measurement_crc_errors (snd (get_measurement 3 s)) = 1.
Proof.
  intros raw s.
  destruct (get_measurement_rejects_frame 3 s [] [] 0 raw
              eq_refl eq_refl eq_refl eq_refl)
    as (H1 & _ & H3 & _).
  - vm_compute. reflexivity.
  - split; [exact H1 |]. rewrite H3. vm_compute. reflexivity.
Defined.

(** X5. A complete read with every checksum right and a window size of
    one or less: the call returns the decoded frame itself, with no error
    for this measurement, every section valid and [rolling_n] reported as
    1; an existing rolling history is emptied. The bus sees exactly the
    data-ready query and the read of the measured values. *)
Theorem get_measurement_single_frame (rolling_n : Z) (s : sps30)
  (w : list bool) (r : list (option (list Z))) (d0 : Z) (raw : list Z) :
  _is_measuring s = true ->
  writes s = true :: true :: w ->
  reads s = Some [d0; 1; crc_loop [d0; 1]] :: Some raw :: r ->
  List.length raw = 60%nat ->
  all_valid (decode_validity raw) = true ->
  rolling_n <= 1 ->
  let s' := snd (get_measurement rolling_n s) in
  let conv := ieee754_number_conversion (has_struct s) (float_impl s) in
  fst (get_measurement rolling_n s)
  = Ok (Some (clean_result 1 (decode_frame conv raw) (ticks s)
                (_total_crc_errors s)))
  /\ _valid s' = every_section_valid
  /\ _last_measurement_crc_errors s' = 0
  /\ _total_crc_errors s' = _total_crc_errors s
  /\ bus_traffic s'
     = bus_traffic s ++ read_exchange [d0; 1; crc_loop [d0; 1]] raw
  /\ _hist_frames s'
     = match _hist_frames s with Some _ => Some [] | None => None end.
Proof.
  intros Hm Hw Hr Hlen Hok Hn s' conv. subst s' conv.
  destruct (run_get_measurement_single rolling_n s w r d0 _ raw
              Hm Hw Hr eq_refl Hlen Hok Hn)
    as (s1 & -> & Hv & Ht & Hl & Hk & Hb & _ & _ & Hh & Hml).
  rewrite (all_valid_every _ Hok) in Hv.
  rewrite prepared_hist_one in Hh.
  cbn [fst snd]. repeat apply conj; try assumption.
  - rewrite (payload_of_clean 1 _ s1 Hv Hl), Hk, Ht. reflexivity.
  - rewrite Hh. now destruct (_hist_frames s).
Qed.

Lemma get_measurement_single_frame_witness :
  let raw :=
    response_of [0x3F800000; 0x40000000; 0x40400000; 0x40800000;
                 0x3F800000; 0x40000000; 0x40400000; 0x40800000;
                 0x40A00000; 0x3F000000] in
  let s := set_is_measuring true
             (power_on false true PyFloat.Binary64 [true; true]
                [Some [0; 1; crc_loop [0; 1]]; Some raw] 7) in
  exists m,
    fst (get_measurement 1 s) = Ok (Some m)
    /\ sd_particle_size (result_sensor_data m)
       = PyFloat.int_truediv PyFloat.Binary64 1 2.
Proof.
  intros raw s.
  destruct (get_measurement_single_frame 1 s [] [] 0 raw
              eq_refl eq_refl eq_refl eq_refl)
    as (H1 & _).
  - vm_compute. reflexivity.
  - lia.
  - eexists. split; [exact H1 |]. vm_compute. reflexivity.
Defined.

(** X6. A complete read with every checksum right and a window size
    [n > 1]. The decoded frame is appended to the frames kept from the
    earlier calls (all of them when they were stored under the same [n],
    none when [n] changed or nothing was stored), and the oldest frame is
    dropped once there are more than [n]. Until the window holds [n]
    frames the call returns the empty result; from then on it returns the
    per-field arithmetic mean over the window. *)
Theorem get_measurement_rolling_window (n : Z) (s : sps30)
  (w : list bool) (r : list (option (list Z))) (d0 : Z) (raw : list Z) :
  _is_measuring s = true ->
  writes s = true :: true :: w ->
  reads s = Some [d0; 1; crc_loop [d0; 1]] :: Some raw :: r ->
  List.length raw = 60%nat ->
  all_valid (decode_validity raw) = true ->
  1 < n ->
  Forall well_formed (kept_frames n s) ->
  let s' := snd (get_measurement n s) in
  let conv := ieee754_number_conversion (has_struct s) (float_impl s) in
  let stored := kept_frames n s ++ [decode_frame conv raw] in
  let window := if n <? Z.of_nat (List.length stored) then tl stored
                else stored in
  fst (get_measurement n s)
  = Ok (if Z.of_nat (List.length window) <? n then None
        else Some (clean_result n (mean_frame (float_impl s) window)
                     (ticks s) (_total_crc_errors s)))
  /\ _hist_frames s' = Some window
  /\ _hist_maxlen s' = Some n
  /\ Forall well_formed window
  /\ (Z.of_nat (List.length (kept_frames n s)) <= n ->
      Z.of_nat (List.length window) <= n)
  /\ _last_measurement_crc_errors s' = 0
  /\ _total_crc_errors s' = _total_crc_errors s
  /\ bus_traffic s'
     = bus_traffic s ++ read_exchange [d0; 1; crc_loop [d0; 1]] raw.
Proof.
  intros Hm Hw Hr Hlen Hok Hn Hwf s' conv stored window.
  destruct (run_get_measurement_rolling n s w r d0 _ raw
              Hm Hw Hr eq_refl Hlen Hok Hn Hwf)
    as (s1 & Hrun & Hh & Hml & Hv & Ht & Hl & Hk & Hb & _).
  fold conv in Hrun, Hh. unfold conversion_of in Hrun, Hh.
  fold conv stored in Hrun, Hh. unfold slide in Hrun, Hh.
  fold window in Hrun, Hh.
  subst s'. rewrite Hrun. cbn [fst snd].
  rewrite (all_valid_every _ Hok) in Hv.
  assert (Hstored : Forall well_formed stored).
  { apply Forall_app. split; [exact Hwf |].
    constructor; [apply decode_frame_well_formed | constructor]. }
  repeat apply conj; try assumption.
  - destruct (Z.of_nat (List.length window) <? n); [reflexivity |].
    now rewrite (payload_of_clean n _ s1 Hv Hl), Hk, Ht.
  - apply (slide_well_formed n) in Hstored. exact Hstored.
  - intros Hkept. subst window.
    destruct (Z.ltb_spec n (Z.of_nat (List.length stored))); [| assumption].
    subst stored.
    destruct (kept_frames n s) as [| f kept]; cbn [app tl List.length] in *;
      rewrite ?length_app in *; cbn [List.length] in *; lia.
Qed.

Lemma get_measurement_rolling_window_witness :
  let raw :=
    response_of [0x3F800000; 0x40000000; 0x40400000; 0x40800000;
                 0x3F800000; 0x40000000; 0x40400000; 0x40800000;
                 0x40A00000; 0x3F000000] in
  let s := set_is_measuring true
             (power_on false true PyFloat.Binary64 [true; true]
                [Some [0; 1; crc_loop [0; 1]]; Some raw] 7) in
  fst (get_measurement 2 s) = Ok None
  /\ _hist_frames (snd (get_measurement 2 s))
     = Some [decode_frame
               (ieee754_number_conversion true PyFloat.Binary64) raw].
Proof.
  intros raw s.
  destruct (get_measurement_rolling_window 2 s [] [] 0 raw
              eq_refl eq_refl eq_refl eq_refl)
    as (H1 & H2 & _).
  - vm_compute. reflexivity.
  - lia.
  - constructor.
  - split; [rewrite H1 | rewrite H2]; vm_compute; reflexivity.
Defined.

(** X7. Round trip through the wire format. When the sensor answers with
    ten 32-bit words, each sent as two packets (high half first) that
    carry the checksum of their two bytes, [get_measurement] accepts the
    frame, and the frame it decodes holds, label by label, the
    conversion of these words: four mass densities, five particle
    counts, then the typical size. With a window size of one or less
    this frame is what the call returns. With a window size [n > 1] it
    is the frame that enters the rolling window, and the call returns
    the empty result until the window holds [n] frames and the mean over
    the window from then on. *)
Theorem get_measurement_decodes_response (rolling_n : Z) (s : sps30)
  (w : list bool) (r : list (option (list Z))) (d0 : Z) (words : list Z) :
  _is_measuring s = true ->
  writes s = true :: true :: w ->
  reads s = Some [d0; 1; crc_loop [d0; 1]] :: Some (response_of words) :: r ->
  List.length words = 10%nat ->
  let conv := ieee754_number_conversion (has_struct s) (float_impl s) in
  let decoded :=
    {| mass_density :=
         combine mass_density_category (map conv (firstn 4 words));
       particle_count :=
         combine particle_count_category
           (map conv (firstn 5 (skipn 4 words)));
       particle_size := conv (nth 9 words 0) |} in
  let s' := snd (get_measurement rolling_n s) in
  (rolling_n <= 1 ->
   fst (get_measurement rolling_n s)
   = Ok (Some (clean_result 1 decoded (ticks s) (_total_crc_errors s)))
   /\ _valid s' = every_section_valid
   /\ _last_measurement_crc_errors s' = 0)
  /\ (1 < rolling_n ->
      Forall well_formed (kept_frames rolling_n s) ->
      let stored := kept_frames rolling_n s ++ [decoded] in
      let window :=
        if rolling_n <? Z.of_nat (List.length stored) then tl stored
        else stored in
      fst (get_measurement rolling_n s)
      = Ok (if Z.of_nat (List.length window) <? rolling_n then None
            else Some (clean_result rolling_n
                         (mean_frame (float_impl s) window)
                         (ticks s) (_total_crc_errors s)))
      /\ _hist_frames s' = Some window
      /\ _valid s' = every_section_valid
      /\ _last_measurement_crc_errors s' = 0).
Proof.
  intros Hm Hw Hr Hlen conv decoded s'. subst s'.
  destruct (response_of_valid words Hlen) as (Hlen60 & Hvalid).
  assert (Hok : all_valid (decode_validity (response_of words)) = true)
    by now rewrite Hvalid.
  assert (Hdec : decode_frame (conversion_of s) (response_of words) = decoded)
    by (unfold conversion_of;
        now rewrite (response_of_decodes (has_struct s) (float_impl s)
                       words Hlen)).
  split.
  - intros Hn.
    destruct (run_get_measurement_single rolling_n s w r d0 _
                (response_of words) Hm Hw Hr eq_refl Hlen60 Hok Hn)
      as (s1 & -> & Hv & Ht & Hl & Hk & _).
    rewrite Hvalid in Hv. cbn [fst snd].
    rewrite (payload_of_clean 1 _ s1 Hv Hl), Hk, Ht, Hdec.
    repeat apply conj; first [reflexivity | assumption].
  - intros Hn Hwf stored window.
    destruct (run_get_measurement_rolling rolling_n s w r d0 _
                (response_of words) Hm Hw Hr eq_refl Hlen60 Hok Hn Hwf)
      as (s1 & Hrun & Hh & Hml & Hv & Ht & Hl & Hk & _).
    rewrite Hdec in Hrun, Hh. unfold slide in Hrun, Hh.
    fold stored in Hrun, Hh. fold window in Hrun, Hh.
    rewrite Hvalid in Hv. rewrite Hrun. cbn [fst snd].
    repeat apply conj; try assumption.
    destruct (Z.of_nat (List.length window) <? rolling_n); [reflexivity |].
    now rewrite (payload_of_clean rolling_n _ s1 Hv Hl), Hk, Ht.
Qed.

Lemma get_measurement_decodes_response_witness :
  let words := [0x3F800000; 0x40000000; 0x40400000; 0x40800000;
                0x3F800000; 0x40000000; 0x40400000; 0x40800000;
                0x40A00000; 0x3F000000] in
  let s := set_is_measuring true
             (power_on false false PyFloat.Binary32 [true; true]
                [Some [0; 1; crc_loop [0; 1]]; Some (response_of words)] 7) in
  (exists m,
      fst (get_measurement 0 s) = Ok (Some m)
      /\ sd_mass_density (result_sensor_data m)
         = [("pm1.0", PyFloat.of_int PyFloat.Binary32 1);
            ("pm2.5", PyFloat.of_int PyFloat.Binary32 2);
            ("pm4.0", PyFloat.of_int PyFloat.Binary32 3);
            ("pm10", PyFloat.of_int PyFloat.Binary32 4)])
  /\ fst (get_measurement 2 s) = Ok None.
Proof.
  intros words s. split.
  - destruct (get_measurement_decodes_response 0 s [] [] 0 words
                eq_refl eq_refl eq_refl eq_refl) as (H & _).
    destruct H as (H & _); [lia |].
    eexists. split; [exact H |]. vm_compute. reflexivity.
  - destruct (get_measurement_decodes_response 2 s [] [] 0 words
                eq_refl eq_refl eq_refl eq_refl) as (_ & H).
    destruct H as (H & _); [lia | constructor |].
    rewrite H. vm_compute. reflexivity.
Defined.

(** ** Transport: writing a command *)

Lemma forallb_byte_range (cmd : list Z) :
  Forall (fun b => 0 <= b < 256) cmd ->
  forallb (fun b => (0 <=? b) && (b <? 256)) cmd = true.
Proof.
  intros H. apply forallb_forall. intros b Hb.
  rewrite Forall_forall in H. specialize (H b Hb).
  apply andb_true_intro. split; [apply Z.leb_le | apply Z.ltb_lt]; lia.
Qed.

Lemma forallb_byte_range_not (cmd : list Z) :
  ~ Forall (fun b => 0 <= b < 256) cmd ->
  forallb (fun b => (0 <=? b) && (b <? 256)) cmd = false.
Proof.
  intros H. destruct (forallb _ cmd) eqn:E; [| reflexivity].
  exfalso. apply H. apply Forall_forall. intros b Hb.
  rewrite forallb_forall in E. specialize (E b Hb).
  apply andb_prop in E. destruct E as [E1 E2].
  apply Z.leb_le in E1. apply Z.ltb_lt in E2. lia.
Qed.

(** X8. [_write_cmd] on a command of byte values. When the bus write
    succeeds, the bus sees the command and then, for a non-zero guard, a
    pause of [guard_ms] milliseconds. When the bus write fails, the
    method runs the clock-toggling bus reset and raises the I/O error
    again; there is no pause. A command with an element outside
    [0, 255] raises [ValueError] before anything reaches the bus, and
    no bus reset is run. *)
Theorem write_cmd_outcomes (cmd : list Z) (guard_ms : Z) (s : sps30) :
  let s' := snd (_write_cmd cmd guard_ms s) in
  (Forall (fun b => 0 <= b < 256) cmd ->
   match writes s with
   | true :: rest =>
       fst (_write_cmd cmd guard_ms s) = Ok tt
       /\ bus_traffic s'
          = bus_traffic s
            ++ I2CWrite I2C_ADDRESS cmd true
               :: (if guard_ms =? 0 then [] else [SleepUs (guard_ms * 1000)])
       /\ writes s' = rest
   | _ =>
       fst (_write_cmd cmd guard_ms s) = Raise OSError
       /\ bus_traffic s'
          = bus_traffic s ++ I2CWrite I2C_ADDRESS cmd false :: bus_reset_events
   end)
  /\ (~ Forall (fun b => 0 <= b < 256) cmd ->
      fst (_write_cmd cmd guard_ms s) = Raise ValueError
      /\ bus_traffic s' = bus_traffic s
      /\ writes s' = writes s).
Proof.
  intros s'. subst s'. split; intros Hcmd.
  - apply forallb_byte_range in Hcmd.
    destruct s as [d m v t l h n hs fi w r tr tk]. cbn [writes].
    unfold _write_cmd, _bus_reset, i2c_writeto, to_bytes. rewrite Hcmd.
    destruct w as [| [|] rest]; destruct d; run;
      try (destruct (guard_ms =? 0); run);
      repeat split; try reflexivity; trace_solve.
  - apply forallb_byte_range_not in Hcmd.
    destruct s as [d m v t l h n hs fi w r tr tk]. cbn [writes].
    unfold _write_cmd, to_bytes. rewrite Hcmd.
    destruct d; run; repeat split; try reflexivity; trace_solve.
Qed.

Lemma write_cmd_outcomes_witness :
  let s := power_on false true PyFloat.Binary64 [true] [] 0 in
  fst (_write_cmd CMD_SLEEP 20 s) = Ok tt
  /\ bus_traffic (snd (_write_cmd CMD_SLEEP 20 s))
     = [I2CWrite I2C_ADDRESS CMD_SLEEP true; SleepUs 20000].
Proof.
  intros s.
  destruct (write_cmd_outcomes CMD_SLEEP 20 s) as (H & _).
  assert (Hcmd : Forall (fun b => 0 <= b < 256) CMD_SLEEP)
    by (repeat constructor; lia).
  destruct (H Hcmd) as (H1 & H2 & _). split; [exact H1 | exact H2].
Defined.

(** ** Device session: start, stop, reset *)

(** X9. [start_measurement] sends the start command with the float
    format argument [0x03, 0x00] and its checksum [0xAC]. When the bus
    write succeeds it returns [True], enters the measuring state and
    clears the three validity flags. When the write fails it returns
    [False] after the bus reset, and the measuring state and the flags
    stay as they were. Neither case touches the error counters or the
    rolling history, and no exception leaves the method. *)
Theorem start_measurement_outcome (s : sps30) :
  let s' := snd (start_measurement s) in
  let cmd := [0x00; 0x10; 0x03; 0x00; 0xAC] in
  match writes s with
  | true :: rest =>
      fst (start_measurement s) = Ok true
      /\ _is_measuring s' = true
      /\ _valid s' = no_section_valid
      /\ bus_traffic s' = bus_traffic s ++ [I2CWrite I2C_ADDRESS cmd true]
      /\ writes s' = rest
  | _ =>
      fst (start_measurement s) = Ok false
      /\ _is_measuring s' = _is_measuring s
      /\ _valid s' = _valid s
      /\ bus_traffic s'
         = bus_traffic s ++ I2CWrite I2C_ADDRESS cmd false :: bus_reset_events
  end
  /\ _total_crc_errors s' = _total_crc_errors s
  /\ _last_measurement_crc_errors s' = _last_measurement_crc_errors s
  /\ _hist_frames s' = _hist_frames s.
Proof.
  destruct s as [d m v t l h n hs fi w r tr tk]. cbn [writes].
  unfold start_measurement, _write_cmd, _bus_reset, i2c_writeto, to_bytes,
    crc_calc.
  destruct w as [| [|] rest]; destruct d; run;
    change (crc_loop [3; 0]) with 0xAC; run;
    repeat split; try reflexivity; trace_solve.
Qed.

(** X10. [stop_measurement] returns [True] and leaves the measuring
    state when the bus write of the stop command succeeds; when the write
    fails it returns [False] after the bus reset and the driver still
    counts as measuring if it did before. *)
Theorem stop_measurement_outcome (s : sps30) :
  let s' := snd (stop_measurement s) in
  match writes s with
  | true :: rest =>
      fst (stop_measurement s) = Ok true
      /\ _is_measuring s' = false
      /\ bus_traffic s'
         = bus_traffic s ++ [I2CWrite I2C_ADDRESS CMD_STOP_MEASUREMENT true]
      /\ writes s' = rest
  | _ =>
      fst (stop_measurement s) = Ok false
      /\ _is_measuring s' = _is_measuring s
      /\ bus_traffic s'
         = bus_traffic s
           ++ I2CWrite I2C_ADDRESS CMD_STOP_MEASUREMENT false
              :: bus_reset_events
  end
  /\ _valid s' = _valid s
  /\ _total_crc_errors s' = _total_crc_errors s
  /\ _last_measurement_crc_errors s' = _last_measurement_crc_errors s
  /\ _hist_frames s' = _hist_frames s.
Proof.
  destruct s as [d m v t l h n hs fi w r tr tk]. cbn [writes].
  unfold stop_measurement, _write_cmd, _bus_reset, i2c_writeto, to_bytes.
  destruct w as [| [|] rest]; destruct d; run;
    repeat split; try reflexivity; trace_solve.
Qed.

(** X11. [reset] returns [True], leaves the measuring state and zeroes
    both error counters when the bus write of the reset command
    succeeds; when the write fails it returns [False] and keeps the
    measuring state and both counters. In both cases the validity flags
    and the rolling history stay as they were: a reset does not empty
    the window. *)
Theorem reset_outcome (s : sps30) :
  let s' := snd (reset s) in
  match writes s with
  | true :: rest =>
      fst (reset s) = Ok true
      /\ _is_measuring s' = false
      /\ _total_crc_errors s' = 0
      /\ _last_measurement_crc_errors s' = 0
      /\ bus_traffic s' = bus_traffic s ++ [I2CWrite I2C_ADDRESS CMD_RESET true]
      /\ writes s' = rest
  | _ =>
      fst (reset s) = Ok false
      /\ _is_measuring s' = _is_measuring s
      /\ _total_crc_errors s' = _total_crc_errors s
      /\ _last_measurement_crc_errors s' = _last_measurement_crc_errors s
      /\ bus_traffic s'
         = bus_traffic s
           ++ I2CWrite I2C_ADDRESS CMD_RESET false :: bus_reset_events
  end
  /\ _valid s' = _valid s
  /\ _hist_frames s' = _hist_frames s
  /\ _hist_maxlen s' = _hist_maxlen s.
Proof.
  destruct s as [d m v t l h n hs fi w r tr tk]. cbn [writes].
  unfold reset, _write_cmd, _bus_reset, i2c_writeto, to_bytes.
  destruct w as [| [|] rest]; destruct d; run;
    repeat split; try reflexivity; trace_solve.
Qed.

(** X12. [sleep], [wakeup], [start_fan_cleaning] and
    [clear_status_register] each send their fixed two-byte command and
    return [True] exactly when the bus write succeeds; a failed write
    ends in the bus reset and [False], never in an exception. [wakeup]
    writes without a pause, the other three pause 20 ms after a
    successful write. None of them changes the measuring state, the
    validity flags, the error counters or the rolling history. *)
Theorem plain_commands_outcome (s : sps30) :
  Forall (fun '(method, cmd, guard_ms) =>
            let s' := snd (method s) in
            fst (method s) = Ok (next_write_ok s)
            /\ bus_traffic s'
               = bus_traffic s ++ write_exchange cmd guard_ms (next_write_ok s)
            /\ writes s' = tl (writes s)
            /\ _is_measuring s' = _is_measuring s
            /\ _valid s' = _valid s
            /\ _total_crc_errors s' = _total_crc_errors s
            /\ _last_measurement_crc_errors s' = _last_measurement_crc_errors s
            /\ _hist_frames s' = _hist_frames s)
    plain_commands.
Proof.
  destruct s as [d m v t l h n hs fi w r tr tk].
  unfold plain_commands, next_write_ok, write_exchange. cbn [writes].
  repeat constructor;
    unfold sleep, wakeup, start_fan_cleaning, clear_status_register,
      _write_cmd, _bus_reset, i2c_writeto, to_bytes;
    destruct w as [| [|] rest]; destruct d; run;
      first [reflexivity | trace_solve].
Qed.

(** ** What the public methods never do *)

Lemma returns_bind_dbg {A} (text : string) (m : M A) (s : sps30) :
  returns m (logged text s) -> returns (_dbg text ;; m) s.
Proof.
  intros [a H]. exists a.
  erewrite run_bind; [exact H | apply run_dbg | reflexivity].
Qed.

(** A [try] block whose handler returns lets no exception out. *)
Lemma returns_try_except {A} (m : M A) (h : exn -> M A) (s : sps30) :
  (forall e s1, returns (h e) s1) -> returns (try_except m h) s.
Proof.
  intros Hh. unfold returns, try_except.
  destruct (m s) as [[a | e] s1]; [now exists a | apply Hh].
Qed.

Lemma returns_print_ret {A} (text : string) (a : A) (s : sps30) :
  returns (print text ;; ret a) s.
Proof. now exists a. Qed.

(** X13. No exception leaves [get_measurement], [read_data_ready_flag],
    [start_measurement], [stop_measurement], [reset],
    [write_auto_cleaning_interval_days], [read_status_register],
    [sleep], [wakeup], [start_fan_cleaning] or [clear_status_register]:
    whatever the state of the driver, whether the bus writes and reads
    fail or succeed and whatever bytes come back, each of them comes
    back with a value. *)
Theorem public_methods_never_raise (s : sps30) (rolling_n days : Z) :
  returns (get_measurement rolling_n) s
  /\ returns read_data_ready_flag s
  /\ returns start_measurement s
  /\ returns stop_measurement s
  /\ returns reset s
  /\ returns (write_auto_cleaning_interval_days days) s
  /\ returns read_status_register s
  /\ returns sleep s
  /\ returns wakeup s
  /\ returns start_fan_cleaning s
  /\ returns clear_status_register s.
Proof.
  repeat apply conj.
  - destruct (_is_measuring s) eqn:Hm.
    + unfold returns. rewrite (run_get_measurement_head rolling_n s Hm).
      apply (returns_try_except _ _ (query_state rolling_n s)). intros e s1. apply returns_print_ret.
    + exists None. unfold get_measurement.
      erewrite run_bind; [| apply run_dbg | cbv beta iota; reflexivity].
      erewrite run_bind; [| apply run_gets | cbv beta iota; reflexivity].
      unfold logged. destruct (debug s); cbn [_is_measuring emit];
        rewrite Hm; reflexivity.
  - unfold read_data_ready_flag. apply returns_bind_dbg.
    apply returns_try_except. intros e s1. exists false.
    unfold bind, gets, when, print, modify, ret. now destruct (debug s1).
  - unfold start_measurement. apply returns_bind_dbg.
    apply returns_try_except. intros e s1. apply returns_print_ret.
  - unfold stop_measurement. apply returns_bind_dbg.
    apply returns_try_except. intros e s1. apply returns_print_ret.
  - unfold reset.
    apply returns_try_except. intros e s1. apply returns_print_ret.
  - unfold write_auto_cleaning_interval_days. apply returns_bind_dbg.
    apply returns_try_except. intros e s1. apply returns_print_ret.
  - unfold read_status_register. apply returns_bind_dbg.
    apply returns_try_except. intros e s1. now exists (StatusError e).
  - unfold sleep. apply returns_bind_dbg.
    apply returns_try_except. intros e s1. apply returns_print_ret.
  - unfold wakeup. apply returns_bind_dbg.
    apply returns_try_except. intros e s1. apply returns_print_ret.
  - unfold start_fan_cleaning. apply returns_bind_dbg.
    apply returns_try_except. intros e s1. apply returns_print_ret.
  - unfold clear_status_register. apply returns_bind_dbg.
    apply returns_try_except. intros e s1. apply returns_print_ret.
Qed.

(** ** Auto-clean interval *)

Lemma run_read_interval_short (s : sps30) (w : list bool)
  (r : list (option (list Z))) (data : list Z) :
  writes s = true :: w ->
  reads s = Some data :: r ->
  List.length data <> 6%nat ->
  exists s',
    read_auto_cleaning_interval s = (Ok IntervalNone, s')
    /\ _total_crc_errors s' = _total_crc_errors s
    /\ bus_traffic s' = bus_traffic s ++ interval_exchange data
    /\ writes s' = w /\ reads s' = r.
Proof.
  intros Hw Hr Hlen.
  assert (Hlenb : (List.length data =? NBYTES_AUTO_CLEANING_INTERVAL)%nat
                  = false) by (now apply Nat.eqb_neq).
  destruct s as [d m v t l h ml hs fi ws rs tr tk].
  cbn [writes reads] in Hw, Hr. subst ws rs.
  unfold read_auto_cleaning_interval.
  destruct d; (eexists; split; [mrun |]);
    simpl_state; repeat apply conj; try reflexivity; trace_solve.
Qed.

Lemma run_read_interval (s : sps30) (w : list bool)
  (r : list (option (list Z))) (b0 b1 c0 b2 b3 c1 : Z) :
  writes s = true :: w ->
  reads s = Some [b0; b1; c0; b2; b3; c1] :: r ->
  let ok0 := crc_loop [b0; b1] =? c0 in
  let ok1 := crc_loop [b2; b3] =? c1 in
  exists s',
    read_auto_cleaning_interval s
    = (Ok (if ok0 && ok1
           then Seconds (Z.lor (Z.shiftl (Z.lor (Z.shiftl b2 8) b3) 16)
                           (Z.lor (Z.shiftl b0 8) b1))
           else IntervalNone),
       s')
    /\ _total_crc_errors s'
       = _total_crc_errors s + (if ok0 && ok1 then 0 else 1)
    /\ bus_traffic s'
       = bus_traffic s ++ interval_exchange [b0; b1; c0; b2; b3; c1]
    /\ writes s' = w /\ reads s' = r.
Proof.
  intros Hw Hr ok0 ok1. subst ok0 ok1.
  destruct s as [d m v t l h ml hs fi ws rs tr tk].
  cbn [writes reads] in Hw, Hr. subst ws rs.
  unfold read_auto_cleaning_interval.
  destruct (crc_loop [b0; b1] =? c0) eqn:E0;
    [destruct (crc_loop [b2; b3] =? c1) eqn:E1 |];
    cbn [andb]; destruct d;
    (eexists; split; [mrun |]);
    simpl_state; repeat apply conj; try reflexivity; try lia; trace_solve.
Qed.

(** X14. [read_auto_cleaning_interval] after a successful command write.
    An answer of six bytes whose two packets pass their checksum gives
    the interval in seconds, with the first packet as the low half-word
    and the second as the high half-word. A packet that fails its
    checksum gives [None] and counts one error (the second packet is not
    looked at when the first fails). An answer of any other length gives
    [None] and counts no error. *)
Theorem read_auto_cleaning_interval_outcome (s : sps30) (w : list bool)
  (r : list (option (list Z))) (data : list Z) :
  writes s = true :: w ->
  reads s = Some data :: r ->
  let s' := snd (read_auto_cleaning_interval s) in
  (List.length data <> 6%nat ->
   fst (read_auto_cleaning_interval s) = Ok IntervalNone
   /\ _total_crc_errors s' = _total_crc_errors s)
  /\ (forall b0 b1 c0 b2 b3 c1,
        data = [b0; b1; c0; b2; b3; c1] ->
        let ok := (crc_loop [b0; b1] =? c0) && (crc_loop [b2; b3] =? c1) in
        let lo_word := Z.lor (Z.shiftl b0 8) b1 in
        let hi_word := Z.lor (Z.shiftl b2 8) b3 in
        fst (read_auto_cleaning_interval s)
        = Ok (if ok then Seconds (Z.lor (Z.shiftl hi_word 16) lo_word)
              else IntervalNone)
        /\ _total_crc_errors s'
           = _total_crc_errors s + (if ok then 0 else 1))
  /\ bus_traffic s' = bus_traffic s ++ interval_exchange data
  /\ writes s' = w /\ reads s' = r.
Proof.
  intros Hw Hr s'. subst s'.
  assert (Hcases : List.length data <> 6%nat
                   \/ exists b0 b1 c0 b2 b3 c1, data = [b0; b1; c0; b2; b3; c1]).
  { destruct data as [| b0 [| b1 [| c0 [| b2 [| b3 [| c1 [| x data]]]]]]];
      try (left; cbn [List.length]; lia).
    right. now exists b0, b1, c0, b2, b3, c1. }
  destruct Hcases as [Hlen | (b0 & b1 & c0 & b2 & b3 & c1 & ->)].
  - destruct (run_read_interval_short s w r data Hw Hr Hlen)
      as (s1 & -> & Ht & Hb & Hw1 & Hr1).
    cbn [fst snd]. repeat apply conj; try assumption.
    + intros _. split; [reflexivity | assumption].
    + intros ? ? ? ? ? ? ->. cbn [List.length] in Hlen. lia.
  - destruct (run_read_interval s w r b0 b1 c0 b2 b3 c1 Hw Hr)
      as (s1 & -> & Ht & Hb & Hw1 & Hr1).
    cbn [fst snd]. repeat apply conj; try assumption.
    + intros Hlen. cbn [List.length] in Hlen. lia.
    + intros ? ? ? ? ? ? E. injection E as <- <- <- <- <- <-.
      split; [reflexivity | assumption].
Qed.

Lemma read_auto_cleaning_interval_outcome_witness :
  let s := power_on false true PyFloat.Binary64 [true]
             [Some (interval_packets 604800)] 0 in
  fst (read_auto_cleaning_interval s) = Ok (Seconds 604800).
Proof.
  intros s.
  destruct (read_auto_cleaning_interval_outcome s [] []
              (interval_packets 604800) eq_refl eq_refl) as (_ & H & _).
  specialize (H _ _ _ _ _ _ eq_refl). destruct H as [H _].
  rewrite H. vm_compute. reflexivity.
Defined.

(** X15. [read_auto_cleaning_interval] has no [try] of its own: when the
    bus write of its command fails, the I/O error leaves the method,
    after the bus reset. *)
Theorem read_auto_cleaning_interval_raises (s : sps30) :
  next_write_ok s = false ->
  fst (read_auto_cleaning_interval s) = Raise OSError
  /\ bus_traffic (snd (read_auto_cleaning_interval s))
     = bus_traffic s
       ++ write_exchange CMD_AUTO_CLEANING_INTERVAL 0 false
  /\ _total_crc_errors (snd (read_auto_cleaning_interval s))
     = _total_crc_errors s.
Proof.
  destruct s as [d m v t l h n hs fi w r tr tk].
  unfold next_write_ok, write_exchange. cbn [writes]. intros Hw.
  unfold read_auto_cleaning_interval, _write_cmd, _bus_reset, i2c_writeto,
    to_bytes.
  destruct w as [| [|] rest]; try discriminate Hw; destruct d; run;
    repeat split; try reflexivity; trace_solve.
Qed.

Lemma read_auto_cleaning_interval_raises_witness :
  fst (read_auto_cleaning_interval
         (power_on true true PyFloat.Binary64 [false] [] 0))
  = Raise OSError.
Proof.
  apply (read_auto_cleaning_interval_raises
           (power_on true true PyFloat.Binary64 [false] [] 0)).
  reflexivity.
Defined.

Lemma console_only_refl (s : sps30) : console_only s s.
Proof. unfold console_only, same_session. repeat apply conj; reflexivity. Qed.

Lemma console_only_emit (text : string) (s : sps30) :
  console_only s (emit [Console text] s).
Proof.
  unfold console_only, same_session. repeat apply conj; try reflexivity.
  trace_solve.
Qed.

Lemma console_only_trans (s1 s2 s3 : sps30) :
  console_only s1 s2 -> console_only s2 s3 -> console_only s1 s3.
Proof.
  unfold console_only, same_session.
  intros [(? & ? & ? & ? & ? & ? & ?) (? & ? & ? & ? & ? & ?)]
         [(? & ? & ? & ? & ? & ? & ?) (? & ? & ? & ? & ? & ?)].
  repeat apply conj; congruence.
Qed.

Lemma console_only_logged (text : string) (s : sps30) :
  console_only s (logged text s).
Proof.
  unfold logged. destruct (debug s);
    [apply console_only_emit | apply console_only_refl].
Qed.

Lemma console_only_printed (texts : list string) (s : sps30) :
  console_only s (printed texts s).
Proof.
  revert s. induction texts as [| t ts IH]; intros s.
  - apply console_only_refl.
  - cbn [printed]. eapply console_only_trans; [apply console_only_emit |].
    apply IH.
Qed.

Lemma crc_loop_range (b0 b1 : Z) : 0 <= crc_loop [b0; b1] < 256.
Proof. rewrite crc_loop_pair. apply checksum_range. Qed.

Lemma land_0xFF_range (x : Z) : 0 <= Z.land x 0xFF < 256.
Proof. rewrite land_0xFF_mod. apply Z.mod_pos_bound. lia. Qed.

Lemma packet_of_bytes (half : Z) :
  Forall (fun b => 0 <= b < 256) (packet_of half).
Proof.
  unfold packet_of. cbv zeta.
  repeat constructor; first [apply land_0xFF_range | apply crc_loop_range].
Qed.

(** A successful write of a command of byte values. *)
Lemma run_write_cmd_ok (cmd : list Z) (guard_ms : Z) (s : sps30)
  (w : list bool) :
  Forall (fun b => 0 <= b < 256) cmd ->
  writes s = true :: w ->
  exists s1,
    _write_cmd cmd guard_ms s = (Ok tt, s1)
    /\ writes s1 = w
    /\ reads s1 = reads s
    /\ bus_traffic s1 = bus_traffic s ++ write_exchange cmd guard_ms true
    /\ same_session s s1
    /\ _valid s1 = _valid s
    /\ _total_crc_errors s1 = _total_crc_errors s
    /\ _last_measurement_crc_errors s1 = _last_measurement_crc_errors s.
Proof.
  intros Hcmd Hw. apply forallb_byte_range in Hcmd.
  destruct s as [d m v t l h n hs fi ws r tr tk]. cbn [writes] in Hw.
  subst ws. unfold _write_cmd, i2c_writeto, to_bytes, write_exchange,
    same_session.
  rewrite Hcmd.
  destruct d; destruct (guard_ms =? 0); (eexists; split; [run; reflexivity |]);
    simpl_state; repeat apply conj; try reflexivity; trace_solve.
Qed.

Lemma run_auto_cleaning_interval_cmd (seconds : Z) (s : sps30) :
  auto_cleaning_interval_cmd seconds s
  = (Ok (CMD_AUTO_CLEANING_INTERVAL ++ interval_packets seconds), s).
Proof. reflexivity. Qed.

(** The half-words that come back from the packets of an interval. *)
Lemma interval_of_its_packets (seconds : Z) :
  let lo := Z.land seconds 0xFFFF in
  let hi := Z.shiftr seconds 16 in
  Z.lor (Z.shiftl (Z.lor (Z.shiftl (Z.land (Z.shiftr hi 8) 0xFF) 8)
                     (Z.land hi 0xFF)) 16)
    (Z.lor (Z.shiftl (Z.land (Z.shiftr lo 8) 0xFF) 8) (Z.land lo 0xFF))
  = seconds mod 2 ^ 32.
Proof.
  cbv zeta.
  rewrite Z.shiftl_lor, Z.shiftl_shiftl, Z.lor_assoc by lia.
  change (8 + 16) with 24.
  rewrite word_of_packets.
  change 0xFFFFFFFF with (Z.ones 32). now rewrite Z.land_ones by lia.
Qed.

(** [write_auto_cleaning_interval_days] up to its read-back. *)
Lemma run_write_interval_days (days : Z) (s : sps30) (w : list bool) :
  writes s = true :: w ->
  exists s1,
    (forall x s', read_auto_cleaning_interval s1 = (Ok x, s') ->
                  write_auto_cleaning_interval_days days s = (Ok x, s'))
    /\ writes s1 = w
    /\ reads s1 = reads s
    /\ _total_crc_errors s1 = _total_crc_errors s
    /\ bus_traffic s1
       = bus_traffic s
         ++ [I2CWrite I2C_ADDRESS
               (CMD_AUTO_CLEANING_INTERVAL ++ interval_packets (days * 86400))
               true].
Proof.
  intros Hw.
  set (cmd := CMD_AUTO_CLEANING_INTERVAL ++ interval_packets (days * 86400)).
  set (s0 := logged "write_auto_cleaning_interval_days(days)" s).
  set (s0' := if debug s0
              then printed ["auto-clean = days -> s"; "cmd ="] s0 else s0).
  assert (C0 : console_only s s0) by apply console_only_logged.
  assert (C0' : console_only s0 s0').
  { subst s0'. destruct (debug s0);
      [apply console_only_printed | apply console_only_refl]. }
  destruct (console_only_trans _ _ _ C0 C0')
    as [_ (_ & Ct & _ & Cw & Cr & Cb)].
  assert (Hcmd : Forall (fun b => 0 <= b < 256) cmd).
  { subst cmd. apply Forall_app. split; [repeat constructor; lia |].
    apply Forall_app. split; apply packet_of_bytes. }
  rewrite Hw in Cw.
  destruct (run_write_cmd_ok cmd 0 s0' w Hcmd Cw)
    as (s1 & Hrun & Hw1 & Hr1 & Hb1 & _ & _ & Ht1 & _).
  exists s1. repeat apply conj; try congruence.
  - intros x s' Hread. unfold write_auto_cleaning_interval_days.
    eapply run_bind; [apply run_dbg |]. cbv beta iota zeta. fold s0.
    rewrite (try_except_bind_ok _ _ _ s0 s0 cmd
               (run_auto_cleaning_interval_cmd (days * 86400) s0)).
    rewrite (try_except_bind_ok _ _ _ s0 s0 (debug s0) (run_gets debug s0)).
    assert (Hp : when (debug s0)
                   (prints ["auto-clean = days -> s"; "cmd ="]) s0
                 = (Ok tt, s0')).
    { subst s0'. unfold when. destruct (debug s0); [| reflexivity].
      apply run_prints. }
    rewrite (try_except_bind_ok _ _ _ s0 s0' tt Hp).
    rewrite (try_except_bind_ok _ _ _ s0' s1 tt Hrun).
    now apply try_except_ok.
  - rewrite Hb1, Cb. reflexivity.
Qed.

(** X16. Round trip of the auto-clean interval. The command that
    [write_auto_cleaning_interval_days] puts on the bus is the opcode,
    then the packet of the low half-word of [days * 86400], then the
    packet of the high half-word. When the read-back answers with these
    same six bytes, the method returns [days * 86400] reduced to 32
    bits, which is the interval itself for [0 <= days <= 49710], and
    counts no error. *)
Theorem auto_cleaning_interval_round_trip (days : Z) (s : sps30)
  (w : list bool) (r : list (option (list Z))) :
  writes s = true :: true :: w ->
  reads s = Some (interval_packets (days * 86400)) :: r ->
  let s' := snd (write_auto_cleaning_interval_days days s) in
  let seconds := days * 86400 in
  fst (write_auto_cleaning_interval_days days s)
  = Ok (Seconds (seconds mod 2 ^ 32))
  /\ (0 <= days <= 49710 -> seconds mod 2 ^ 32 = seconds)
  /\ bus_traffic s'
     = bus_traffic s
       ++ I2CWrite I2C_ADDRESS
            ([0x80; 0x04]
             ++ packet_of (Z.land seconds 0xFFFF)
             ++ packet_of (Z.shiftr seconds 16)) true
          :: interval_exchange (interval_packets seconds)
  /\ _total_crc_errors s' = _total_crc_errors s.
Proof.
  intros Hw Hr s' seconds. subst s'.
  destruct (run_write_interval_days days s (true :: w) Hw)
    as (s1 & Hrun & Hw1 & Hr1 & Ht1 & Hb1).
  rewrite Hr in Hr1. fold seconds in Hr1, Hb1.
  destruct (run_read_interval s1 w r _ _ _ _ _ _ Hw1 Hr1)
    as (s2 & Hread & Ht2 & Hb2 & _).
  rewrite !Z.eqb_refl in Hread, Ht2. cbn [andb] in Hread, Ht2.
  rewrite (interval_of_its_packets seconds) in Hread.
  rewrite (Hrun _ _ Hread). cbn [fst snd].
  repeat apply conj.
  - reflexivity.
  - intros Hd. apply Z.mod_small. subst seconds. lia.
  - rewrite Hb2, Hb1, <- app_assoc. reflexivity.
  - lia.
Qed.

Lemma auto_cleaning_interval_round_trip_witness :
  let s := power_on true true PyFloat.Binary64 [true; true]
             [Some (interval_packets (7 * 86400))] 0 in
  fst (write_auto_cleaning_interval_days 7 s) = Ok (Seconds 604800).
Proof.
  intros s.
  destruct (auto_cleaning_interval_round_trip 7 s [] [] eq_refl eq_refl)
    as (H & _).
  exact H.
Defined.

(** ** Status register *)

Lemma land_bit_testbit (x k : Z) :
  0 <= k -> negb (Z.land x (Z.shiftl 1 k) =? 0) = Z.testbit x k.
Proof.
  intros Hk. rewrite Z.shiftl_1_l.
  assert (H : Z.land x (2 ^ k) = if Z.testbit x k then 2 ^ k else 0).
  { apply Z.bits_inj'. intros n Hn. rewrite Z.land_spec.
    destruct (Z.testbit x k) eqn:E.
    - rewrite Z.pow2_bits_eqb by lia.
      destruct (Z.eqb_spec k n) as [<- | Hne];
        [now rewrite E | now rewrite andb_false_r].
    - rewrite Z.bits_0, Z.pow2_bits_eqb by lia.
      destruct (Z.eqb_spec k n) as [<- | Hne];
        [now rewrite E | now rewrite andb_false_r]. }
  rewrite H. destruct (Z.testbit x k); [| reflexivity].
  assert (0 < 2 ^ k) by (apply Z.pow_pos_nonneg; lia).
  destruct (Z.eqb_spec (2 ^ k) 0); [lia | reflexivity].
Qed.

Lemma status_word_big_endian (b0 b1 b2 b3 : Z) :
  Z.lor (Z.lor (Z.shiftl (Z.lor (Z.lor (Z.shiftl 0 16) (Z.shiftl b0 8)) b1) 16)
           (Z.shiftl b2 8)) b3
  = Z.lor (Z.lor (Z.lor (Z.shiftl b0 24) (Z.shiftl b1 16)) (Z.shiftl b2 8)) b3.
Proof.
  rewrite Z.shiftl_0_l, Z.lor_0_l, Z.shiftl_lor, Z.shiftl_shiftl by lia.
  reflexivity.
Qed.

Lemma run_read_status_register (s : sps30) (w : list bool)
  (r : list (option (list Z))) (b0 b1 c0 b2 b3 c1 : Z) :
  writes s = true :: w ->
  reads s = Some [b0; b1; c0; b2; b3; c1] :: r ->
  let ok0 := crc_loop [b0; b1] =? c0 in
  let ok1 := crc_loop [b2; b3] =? c1 in
  let word :=
    Z.lor (Z.lor (Z.shiftl (Z.lor (Z.lor (Z.shiftl 0 16) (Z.shiftl b0 8)) b1)
                    16)
             (Z.shiftl b2 8)) b3 in
  exists s',
    read_status_register s
    = (Ok (if ok0 && ok1
           then StatusFlags
                  {| speed_status :=
                       if negb (Z.land word (Z.shiftl 1 21) =? 0)
                       then "warning" else "ok";
                     laser_status :=
                       if negb (Z.land word (Z.shiftl 1 5) =? 0)
                       then "out of range" else "ok";
                     fan_status :=
                       if negb (Z.land word (Z.shiftl 1 4) =? 0)
                       then "0 rpm" else "ok";
                     raw_status := word |}
           else StatusCrcMismatched),
       s')
    /\ _total_crc_errors s'
       = _total_crc_errors s + (if ok0 && ok1 then 0 else 1)
    /\ bus_traffic s'
       = bus_traffic s ++ status_exchange [b0; b1; c0; b2; b3; c1]
    /\ writes s' = w /\ reads s' = r.
Proof.
  intros Hw Hr ok0 ok1 word. subst ok0 ok1 word.
  destruct s as [d m v t l h ml hs fi ws rs tr tk].
  cbn [writes reads] in Hw, Hr. subst ws rs.
  unfold read_status_register.
  destruct (crc_loop [b0; b1] =? c0) eqn:E0;
    [destruct (crc_loop [b2; b3] =? c1) eqn:E1 |];
    cbn [andb]; destruct d;
    (eexists; split; [mrun |]);
    simpl_state; repeat apply conj; try reflexivity; try lia; trace_solve.
Qed.

(** X17. [read_status_register] on a six-byte answer. When both packets
    pass their checksum, the raw status is the big-endian 32-bit word of
    the four data bytes, the speed status is "warning" exactly when bit
    21 of that word is set, the laser status is "out of range" exactly
    for bit 5 and the fan status is "0 rpm" exactly for bit 4. When a
    packet fails its checksum the result is the "CRC mismatched" error
    and one error is counted. *)
Theorem read_status_register_outcome (s : sps30) (w : list bool)
  (r : list (option (list Z))) (b0 b1 c0 b2 b3 c1 : Z) :
  writes s = true :: w ->
  reads s = Some [b0; b1; c0; b2; b3; c1] :: r ->
  let s' := snd (read_status_register s) in
  let ok := (crc_loop [b0; b1] =? c0) && (crc_loop [b2; b3] =? c1) in
  let word :=
    Z.lor (Z.lor (Z.lor (Z.shiftl b0 24) (Z.shiftl b1 16)) (Z.shiftl b2 8))
      b3 in
  fst (read_status_register s)
  = Ok (if ok
        then StatusFlags
               {| speed_status :=
                    if Z.testbit word 21 then "warning" else "ok";
                  laser_status :=
                    if Z.testbit word 5 then "out of range" else "ok";
                  fan_status := if Z.testbit word 4 then "0 rpm" else "ok";
                  raw_status := word |}
        else StatusCrcMismatched)
  /\ _total_crc_errors s' = _total_crc_errors s + (if ok then 0 else 1)
  /\ bus_traffic s'
     = bus_traffic s ++ status_exchange [b0; b1; c0; b2; b3; c1]
  /\ writes s' = w /\ reads s' = r.
Proof.
  intros Hw Hr s' ok word. subst s' ok word.
  destruct (run_read_status_register s w r b0 b1 c0 b2 b3 c1 Hw Hr)
    as (s1 & -> & Ht & Hb & Hw1 & Hr1).
  cbn [fst snd]. rewrite !land_bit_testbit, status_word_big_endian by lia.
  repeat apply conj; try assumption; reflexivity.
Qed.

Lemma read_status_register_outcome_witness :
  let s := power_on false true PyFloat.Binary64 [true]
             [Some (packet_of 0x0020 ++ packet_of 0x0010)] 0 in
  exists st,
    fst (read_status_register s) = Ok (StatusFlags st)
    /\ speed_status st = "warning"
    /\ laser_status st = "ok"
    /\ fan_status st = "0 rpm"
    /\ raw_status st = 0x00200010.
Proof.
  intros s.
  destruct (read_status_register_outcome s [] [] 0x00 0x20
              (crc_loop [0x00; 0x20]) 0x00 0x10 (crc_loop [0x00; 0x10])
              eq_refl eq_refl) as (H & _).
  eexists. split; [exact H |]. repeat split.
Defined.

(** ** The checksum as an error-detecting code *)

Lemma byte_values_complete (x : Z) : 0 <= x < 256 -> In x byte_values.
Proof.
  intros H. unfold byte_values. apply in_map_iff.
  exists (Z.to_nat x). split; [lia |]. apply in_seq. lia.
Qed.

Lemma for_all_bytes (p : Z -> bool) :
  forallb p byte_values = true -> forall x, 0 <= x < 256 -> p x = true.
Proof.
  intros H x Hx. rewrite forallb_forall in H. apply H.
  now apply byte_values_complete.
Qed.

Lemma for_all_byte_pairs (p : Z -> Z -> bool) :
  forallb (fun a => forallb (p a) byte_values) byte_values = true ->
  forall a b, 0 <= a < 256 -> 0 <= b < 256 -> p a b = true.
Proof.
  intros H a b Ha Hb.
  apply (for_all_bytes (p a)); [| exact Hb].
  now apply (for_all_bytes (fun a => forallb (p a) byte_values)).
Qed.

Lemma lxor_byte (a b : Z) :
  0 <= a < 256 -> 0 <= b < 256 -> 0 <= Z.lxor a b < 256.
Proof.
  intros Ha Hb.
  assert (H := for_all_byte_pairs
                 (fun a b => (0 <=? Z.lxor a b) && (Z.lxor a b <? 256))
                 ltac:(vm_compute; reflexivity) a b Ha Hb).
  cbv beta in H. apply andb_prop in H. destruct H as [H1 H2].
  apply Z.leb_le in H1. apply Z.ltb_lt in H2. lia.
Qed.

Lemma crc_step_byte (x : Z) : 0 <= crc_step x < 256.
Proof. rewrite crc_step_iteration. apply iteration_range. Qed.

Lemma crc_step_linear (a b : Z) :
  0 <= a < 256 -> 0 <= b < 256 ->
  crc_step (Z.lxor a b) = Z.lxor (crc_step a) (crc_step b).
Proof.
  intros Ha Hb. apply Z.eqb_eq.
  apply (for_all_byte_pairs
           (fun a b => crc_step (Z.lxor a b)
                       =? Z.lxor (crc_step a) (crc_step b))
           ltac:(vm_compute; reflexivity) a b Ha Hb).
Qed.

Lemma iter_crc_step_byte (n : nat) (x : Z) :
  0 <= x < 256 -> 0 <= Nat.iter n crc_step x < 256.
Proof.
  intros Hx. destruct n as [| n]; [exact Hx |].
  rewrite Nat.iter_succ. apply crc_step_byte.
Qed.

Lemma iter_crc_step_linear (n : nat) (a b : Z) :
  0 <= a < 256 -> 0 <= b < 256 ->
  Nat.iter n crc_step (Z.lxor a b)
  = Z.lxor (Nat.iter n crc_step a) (Nat.iter n crc_step b).
Proof.
  intros Ha Hb. induction n as [| n IH]; [reflexivity |].
  rewrite !Nat.iter_succ, IH.
  apply crc_step_linear; now apply iter_crc_step_byte.
Qed.

(** The checksum of a corrupted pair is the checksum of the pair, XOR
    the syndrome of the error pattern. *)
Lemma crc_loop_error (b0 b1 e0 e1 : Z) :
  0 <= b0 < 256 -> 0 <= b1 < 256 -> 0 <= e0 < 256 -> 0 <= e1 < 256 ->
  crc_loop [Z.lxor b0 e0; Z.lxor b1 e1]
  = Z.lxor (crc_loop [b0; b1]) (crc_byte (crc_byte 0 e0) e1).
Proof.
  intros H0 H1 He0 He1. unfold crc_loop, crc_byte. cbn [fold_left].
  rewrite Z.lxor_0_l.
  assert (Hff : 0 <= 0xFF < 256) by lia.
  assert (Ha : 0 <= Z.lxor 0xFF b0 < 256) by now apply lxor_byte.
  rewrite <- (Z.lxor_assoc 0xFF b0 e0).
  rewrite (iter_crc_step_linear 8 (Z.lxor 0xFF b0) e0) by assumption.
  set (A := Nat.iter 8 crc_step (Z.lxor 0xFF b0)).
  set (E := Nat.iter 8 crc_step e0).
  assert (HA : 0 <= A < 256) by now apply iter_crc_step_byte.
  assert (HE : 0 <= E < 256) by now apply iter_crc_step_byte.
  replace (Z.lxor (Z.lxor A E) (Z.lxor b1 e1))
    with (Z.lxor (Z.lxor A b1) (Z.lxor E e1)).
  - apply iter_crc_step_linear; now apply lxor_byte.
  - rewrite !Z.lxor_assoc. f_equal.
    rewrite <- !Z.lxor_assoc. f_equal. apply Z.lxor_comm.
Qed.

(** No error pattern on the two data bytes has a syndrome that brings
    the weight of the whole pattern below four. *)
Lemma syndrome_weight (e0 e1 : Z) :
  0 <= e0 < 256 -> 0 <= e1 < 256 ->
  ~ (e0 = 0 /\ e1 = 0) ->
  4 <= bits_set e0 + bits_set e1 + bits_set (crc_byte (crc_byte 0 e0) e1).
Proof.
  intros He0 He1 Hnz.
  assert (H := for_all_byte_pairs
                 (fun e0 e1 =>
                    (e0 =? 0) && (e1 =? 0)
                    || (4 <=? bits_set e0 + bits_set e1
                              + bits_set (crc_byte (crc_byte 0 e0) e1)))
                 ltac:(vm_compute; reflexivity) e0 e1 He0 He1).
  cbv beta in H. apply Bool.orb_true_iff in H. destruct H as [H | H].
  - apply Bool.andb_true_iff in H. destruct H as [H0 H1].
    apply Z.eqb_eq in H0. apply Z.eqb_eq in H1. exfalso. apply Hnz.
    split; assumption.
  - apply Z.leb_le in H. exact H.
Qed.

(** An error pattern confined to one of the two data bytes has a
    non-zero syndrome. *)
Lemma syndrome_first_byte (e : Z) :
  0 <= e < 256 -> e <> 0 -> crc_byte (crc_byte 0 e) 0 <> 0.
Proof.
  intros He Hne Heq.
  assert (H := for_all_bytes
                 (fun e => (e =? 0) || negb (crc_byte (crc_byte 0 e) 0 =? 0))
                 ltac:(vm_compute; reflexivity) e He).
  cbv beta in H. rewrite Heq in H.
  apply Bool.orb_true_iff in H. destruct H as [H | H].
  - apply Z.eqb_eq in H. contradiction.
  - discriminate H.
Qed.

Lemma syndrome_second_byte (e : Z) :
  0 <= e < 256 -> e <> 0 -> crc_byte (crc_byte 0 0) e <> 0.
Proof.
  intros He Hne Heq.
  assert (H := for_all_bytes
                 (fun e => (e =? 0) || negb (crc_byte (crc_byte 0 0) e =? 0))
                 ltac:(vm_compute; reflexivity) e He).
  cbv beta in H. rewrite Heq in H.
  apply Bool.orb_true_iff in H. destruct H as [H | H].
  - apply Z.eqb_eq in H. contradiction.
  - discriminate H.
Qed.

Lemma syndrome_of_no_error : crc_byte (crc_byte 0 0) 0 = 0.
Proof. vm_compute. reflexivity. Qed.

Lemma lxor_cancel_l (a x y : Z) : Z.lxor a x = Z.lxor a y -> x = y.
Proof.
  intros H. apply (f_equal (Z.lxor a)) in H.
  now rewrite <- !Z.lxor_assoc, Z.lxor_nilpotent, !Z.lxor_0_l in H.
Qed.

(** X18. The checksum as an error-detecting code. Take a packet of two
    data bytes and their checksum, and flip bits in it. The packet check
    of the driver fails whenever the flipped bits are one, two or three
    in number, wherever they are, and whenever they all lie in one of
    the three bytes, however many they are. *)
Theorem packet_errors_detected (b0 b1 e0 e1 ec : Z) :
  0 <= b0 < 256 -> 0 <= b1 < 256 ->
  0 <= e0 < 256 -> 0 <= e1 < 256 -> 0 <= ec < 256 ->
  ~ (e0 = 0 /\ e1 = 0 /\ ec = 0) ->
  bits_set e0 + bits_set e1 + bits_set ec <= 3
  \/ (e1 = 0 /\ ec = 0) \/ (e0 = 0 /\ ec = 0) \/ (e0 = 0 /\ e1 = 0) ->
  let sent := [b0; b1; crc_loop [b0; b1]] in
  let received :=
    [Z.lxor b0 e0; Z.lxor b1 e1; Z.lxor (crc_loop [b0; b1]) ec] in
  packet_ok sent 0 = true /\ packet_ok received 0 = false.
Proof.
  intros H0 H1 He0 He1 Hec Hnz Hpat sent received. subst sent received.
  unfold packet_ok. cbn [nth Nat.add]. split; [apply Z.eqb_refl |].
  apply Z.eqb_neq. rewrite crc_loop_error by assumption. intros Heq.
  apply lxor_cancel_l in Heq.
  destruct Hpat as [Hpat | [[E1 Ec] | [[E0 Ec] | [E0 E1]]]].
  - destruct (Z.eq_dec e0 0) as [E0 | N0];
      [destruct (Z.eq_dec e1 0) as [E1 | N1] |].
    + apply Hnz. repeat split; try assumption.
      rewrite <- Heq, E0, E1. apply syndrome_of_no_error.
    + assert (Hw := syndrome_weight e0 e1 He0 He1).
      rewrite Heq in Hw. assert (4 <= 3); [| lia].
      etransitivity; [apply Hw | exact Hpat]. intros [_ E1]. contradiction.
    + assert (Hw := syndrome_weight e0 e1 He0 He1).
      rewrite Heq in Hw. assert (4 <= 3); [| lia].
      etransitivity; [apply Hw | exact Hpat]. intros [E0 _]. contradiction.
  - rewrite E1, Ec in Heq.
    apply (syndrome_first_byte e0 He0); [| exact Heq].
    intros E0. apply Hnz. repeat split; assumption.
  - rewrite E0, Ec in Heq.
    apply (syndrome_second_byte e1 He1); [| exact Heq].
    intros E1. apply Hnz. repeat split; assumption.
  - apply Hnz. repeat split; try assumption.
    rewrite <- Heq, E0, E1. apply syndrome_of_no_error.
Qed.

Lemma packet_errors_detected_witness :
  packet_ok [0xBE; 0xEF; crc_loop [0xBE; 0xEF]] 0 = true
  /\ packet_ok [Z.lxor 0xBE 0x01; Z.lxor 0xEF 0x02;
                Z.lxor (crc_loop [0xBE; 0xEF]) 0x40] 0 = false.
Proof.
  apply (packet_errors_detected 0xBE 0xEF 0x01 0x02 0x40).
  - lia.
  - lia.
  - lia.
  - lia.
  - lia.
  - intros (H & _). discriminate H.
  - left. vm_compute. discriminate.
Defined.

(** ** The rolling window over a series of reads *)

Lemma skipn_succ_tl {A} (k : nat) (l : list A) :
  skipn (S k) l = tl (skipn k l).
Proof.
  revert l. induction k as [| k IH]; intros [| x l]; try reflexivity.
  change (skipn (S k) l = tl (skipn k l)). apply IH.
Qed.

Lemma last_frames_short (n : Z) (frames : list frame) :
  Z.of_nat (List.length frames) <= n -> last_frames n frames = frames.
Proof.
  intros H. unfold last_frames.
  replace (List.length frames - Z.to_nat n)%nat with 0%nat by lia.
  reflexivity.
Qed.

Lemma last_frames_length (n : Z) (frames : list frame) :
  0 <= n ->
  Z.of_nat (List.length (last_frames n frames))
  = Z.min (Z.of_nat (List.length frames)) n.
Proof. intros H. unfold last_frames. rewrite length_skipn. lia. Qed.

(** One more frame in a window that holds the last [n]. *)
Lemma slide_last_frames (n : Z) (frames : list frame) (fr : frame) :
  1 <= n ->
  slide n (last_frames n frames ++ [fr]) = last_frames n (frames ++ [fr]).
Proof.
  intros Hn. unfold slide. rewrite length_app.
  assert (Hl := last_frames_length n frames ltac:(lia)).
  cbn [List.length].
  destruct (Z.ltb_spec n (Z.of_nat (List.length (last_frames n frames) + 1)))
    as [Hfull | Hroom].
  - unfold last_frames in *. rewrite length_app. cbn [List.length].
    rewrite length_skipn in Hfull, Hl.
    set (k := (List.length frames - Z.to_nat n)%nat) in *.
    replace (List.length frames + 1 - Z.to_nat n)%nat with (S k) by lia.
    rewrite skipn_app.
    replace (S k - List.length frames)%nat with 0%nat by lia.
    change (skipn 0 [fr]) with [fr]. rewrite skipn_succ_tl.
    destruct (skipn k frames) as [| f rest] eqn:E; [| reflexivity].
    apply (f_equal (@List.length frame)) in E.
    rewrite length_skipn in E. cbn [List.length] in E. lia.
  - rewrite last_frames_short by lia.
    symmetry. apply last_frames_short. rewrite length_app.
    cbn [List.length]. lia.
Qed.

Lemma kept_frames_stored (n : Z) (s : sps30) (window : list frame) :
  _hist_frames s = Some window -> _hist_maxlen s = Some n ->
  kept_frames n s = window.
Proof. unfold kept_frames. intros -> ->. now rewrite Z.eqb_refl. Qed.

Lemma last_frames_well_formed (n : Z) (frames : list frame) :
  Forall well_formed frames -> Forall well_formed (last_frames n frames).
Proof.
  intros H. unfold last_frames.
  set (k := (List.length frames - Z.to_nat n)%nat).
  rewrite <- (firstn_skipn k frames) in H. apply Forall_app in H.
  apply H.
Qed.

(** The window after a series of accepted reads holds the last [n] of
    the frames seen so far. *)
Lemma run_after_calls (n : Z) (raws : list (list Z)) :
  1 < n ->
  forall (s : sps30) (seen : list frame) (w : list bool)
         (r : list (option (list Z))),
    _is_measuring s = true ->
    kept_frames n s = last_frames n seen ->
    Forall well_formed seen ->
    writes s = repeat true (2 * List.length raws) ++ w ->
    reads s = answers raws ++ r ->
    Forall accepted raws ->
    let s' := after_calls n (List.length raws) s in
    _is_measuring s' = true
    /\ kept_frames n s'
       = last_frames n (seen ++ map (decode_frame (conversion_of s)) raws)
    /\ writes s' = w /\ reads s' = r
    /\ has_struct s' = has_struct s
    /\ float_impl s' = float_impl s
    /\ ticks s' = ticks s
    /\ _total_crc_errors s' = _total_crc_errors s.
Proof.
  intros Hn. induction raws as [| raw raws IH];
    intros s seen w r Hm Hk Hwf Hw Hr Hacc s'; subst s'.
  - cbn [List.length after_calls map]. rewrite app_nil_r.
    cbn in Hw, Hr. repeat apply conj; try assumption; reflexivity.
  - cbn [List.length after_calls map].
    inversion Hacc as [| ? ? [Hlen Hok] Hacc']. subst.
    cbn [List.length] in Hw.
    replace (2 * S (List.length raws))%nat
      with (S (S (2 * List.length raws))) in Hw by lia.
    cbn [repeat app] in Hw. cbn [answers flat_map app] in Hr.
    fold (answers raws) in Hr.
    assert (Hwfk : Forall well_formed (kept_frames n s))
      by (rewrite Hk; now apply last_frames_well_formed).
    destruct (run_get_measurement_rolling n s _ _ 0 _ raw
                Hm Hw Hr eq_refl Hlen Hok Hn Hwfk)
      as (s1 & Hrun & Hh & Hml & _ & Ht & _ & Htk & _ & Hw1 & Hr1 & Hm1
          & Hst & Hf).
    rewrite Hrun. cbn [snd].
    rewrite Hk, slide_last_frames in Hh by lia.
    assert (Hconv : conversion_of s1 = conversion_of s)
      by (unfold conversion_of; now rewrite Hst, Hf).
    destruct (IH s1 (seen ++ [decode_frame (conversion_of s) raw]) w r Hm1
                (kept_frames_stored n s1 _ Hh Hml))
      as (Im & Ik & Iw & Ir & Ist & If & Itk & It); try assumption.
    { apply Forall_app. split; [exact Hwf |].
      constructor; [apply decode_frame_well_formed | constructor]. }
    rewrite Hconv, <- app_assoc in Ik.
    repeat apply conj; try congruence.
    exact Ik.
Qed.

(** X19. The rolling mean over a series of reads. Let the driver be
    measuring with a window size [n > 1], and let a run of complete
    reads all be accepted. Then the call for the last of them returns
    the empty result as long as fewer than [n] frames have been seen
    (those kept from before the run included), and otherwise the
    per-field arithmetic mean of the last [n] frames seen, which are
    also what the window holds after the call. *)
Theorem rolling_mean_over_last_frames (n : Z) (s : sps30)
  (raws : list (list Z)) (raw : list Z) (w : list bool)
  (r : list (option (list Z))) :
  1 < n ->
  _is_measuring s = true ->
  Forall well_formed (kept_frames n s) ->
  Z.of_nat (List.length (kept_frames n s)) <= n ->
  writes s = repeat true (2 * List.length (raws ++ [raw])) ++ w ->
  reads s = answers (raws ++ [raw]) ++ r ->
  Forall accepted (raws ++ [raw]) ->
  let conv := ieee754_number_conversion (has_struct s) (float_impl s) in
  let seen := kept_frames n s ++ map (decode_frame conv) (raws ++ [raw]) in
  let before_last := after_calls n (List.length raws) s in
  fst (get_measurement n before_last)
  = Ok (if Z.of_nat (List.length seen) <? n then None
        else Some (clean_result n
                     (mean_frame (float_impl s) (last_frames n seen))
                     (ticks s) (_total_crc_errors s)))
  /\ _hist_frames (snd (get_measurement n before_last))
     = Some (last_frames n seen).
Proof.
  intros Hn Hm Hwf Hshort Hw Hr Hacc conv seen before_last.
  rewrite length_app in Hw. cbn [List.length] in Hw.
  replace (2 * (List.length raws + 1))%nat
    with (2 * List.length raws + 2)%nat in Hw by lia.
  rewrite repeat_app, <- app_assoc in Hw. cbn [repeat app] in Hw.
  unfold answers in Hr. rewrite flat_map_app, <- app_assoc in Hr.
  fold (answers raws) in Hr. cbn [flat_map app] in Hr.
  apply Forall_app in Hacc. destruct Hacc as [Hacc Hlast].
  inversion Hlast as [| ? ? [Hlen Hok] _]. subst.
  destruct (run_after_calls n raws Hn s (kept_frames n s) _ _ Hm
              (eq_sym (last_frames_short n _ Hshort)) Hwf Hw Hr Hacc)
    as (Im & Ik & Iw & Ir & Ist & If & Itk & It).
  fold before_last in Im, Ik, Iw, Ir, Ist, If, Itk, It.
  assert (Hwfk : Forall well_formed (kept_frames n before_last)).
  { rewrite Ik. apply last_frames_well_formed. apply Forall_app.
    split; [exact Hwf |]. apply Forall_forall. intros f Hf.
    apply in_map_iff in Hf. destruct Hf as (x & <- & _).
    apply decode_frame_well_formed. }
  destruct (run_get_measurement_rolling n before_last _ _ 0 _ raw
              Im Iw Ir eq_refl Hlen Hok Hn Hwfk)
    as (s1 & Hrun & Hh & Hml & Hv & Ht & Hl & Htk & _).
  assert (Hwin : slide n (kept_frames n before_last
                          ++ [decode_frame (conversion_of before_last) raw])
                 = last_frames n seen).
  { rewrite Ik, slide_last_frames by lia. subst seen conv.
    unfold conversion_of. rewrite Ist, If, map_app, app_assoc.
    reflexivity. }
  rewrite Hwin in Hrun, Hh. rewrite Hrun. cbn [fst snd].
  split; [| exact Hh].
  rewrite (last_frames_length n seen) by lia.
  rewrite (all_valid_every _ Hok) in Hv.
  rewrite (payload_of_clean n _ s1 Hv Hl), Htk, Ht, Itk, It, If.
  destruct (Z.ltb_spec (Z.of_nat (List.length seen)) n) as [H1 | H1];
    destruct (Z.ltb_spec (Z.min (Z.of_nat (List.length seen)) n) n)
      as [H2 | H2]; try lia; reflexivity.
Qed.

Lemma rolling_mean_over_last_frames_witness :
  let response size :=
    response_of [0x3F800000; 0x40000000; 0x40400000; 0x40800000;
                 0x3F800000; 0x40000000; 0x40400000; 0x40800000;
                 0x40A00000; size] in
  let raws := [response 0x41200000; response 0x41A00000] in
  let raw := response 0x41F00000 in
  let s := set_is_measuring true
             (power_on false true PyFloat.Binary64 (repeat true 6)
                (answers (raws ++ [raw])) 0) in
  exists m,
    fst (get_measurement 3 (after_calls 3 2 s)) = Ok (Some m)
    /\ sd_particle_size (result_sensor_data m)
       = PyFloat.of_int PyFloat.Binary64 20.
Proof.
  intros response raws raw s.
  destruct (rolling_mean_over_last_frames 3 s raws raw [] []) as (H & _).
  - lia.
  - reflexivity.
  - constructor.
  - cbn. lia.
  - reflexivity.
  - vm_compute. reflexivity.
  - repeat constructor; vm_compute; reflexivity.
  - eexists. split; [exact H |]. vm_compute. reflexivity.
Defined.

(** ** The data-ready query *)

Lemma run_read_data_ready_flag (s : sps30) (w : list bool)
  (r : list (option (list Z))) (d0 d1 c : Z) (rest : list Z) :
  writes s = true :: w ->
  reads s = Some (d0 :: d1 :: c :: rest) :: r ->
  exists s1,
    read_data_ready_flag s
    = (Ok ((crc_loop [d0; d1] =? c) && (d1 =? 1)), s1)
    /\ _total_crc_errors s1
       = _total_crc_errors s + (if crc_loop [d0; d1] =? c then 0 else 1)
    /\ bus_traffic s1
       = bus_traffic s ++ ready_exchange (d0 :: d1 :: c :: rest)
    /\ writes s1 = w /\ reads s1 = r.
Proof.
  intros Hw Hr.
  destruct s as [d m v t l h ml hs fi ws rs tr tk].
  cbn [writes reads] in Hw, Hr. subst ws rs.
  destruct (crc_loop [d0; d1] =? c) eqn:E; cbn [andb];
    destruct d; destruct rest as [| x rest];
    (eexists; split; [mrun |]);
    simpl_state; repeat apply conj; try lia; try reflexivity;
    trace_solve.
Qed.

Lemma run_crc_calc_warn (data : list Z) (s : sps30) :
  List.length data <> 2%nat ->
  crc_calc data s = (Ok 0xFF, logged "CRC warn: need 2 bytes" s).
Proof.
  intros H. unfold crc_calc.
  destruct (Nat.eqb_spec (List.length data) 2) as [E | _]; [contradiction |].
  cbn [negb]. eapply run_bind; [apply run_dbg |]. reflexivity.
Qed.

Ltac run_symbolic ::=
  lazymatch goal with
  | |- index _ _ _ = _ => apply run_index_nth; lia
  | |- prints _ _ = _ => apply run_prints
  | |- average_frames _ _ = _ =>
      apply run_average_frames;
      [ now apply slide_full_nonempty | assumption ]
  | |- crc_calc _ _ = _ =>
      rewrite run_crc_calc_warn by (cbn; lia);
      first [ rewrite logged_on by side_condition
            | rewrite logged_off by side_condition ];
      reflexivity
  | _ => run_section
  end.

Lemma run_read_data_ready_flag_short (s : sps30) (w : list bool)
  (r : list (option (list Z))) (data : list Z) :
  writes s = true :: w ->
  reads s = Some data :: r ->
  (List.length data < 3)%nat ->
  exists s1,
    read_data_ready_flag s = (Ok false, s1)
    /\ _total_crc_errors s1 = _total_crc_errors s
    /\ bus_traffic s1 = bus_traffic s ++ ready_exchange data
    /\ writes s1 = w /\ reads s1 = r.
Proof.
  intros Hw Hr Hlen.
  destruct s as [d m v t l h ml hs fi ws rs tr tk].
  cbn [writes reads] in Hw, Hr. subst ws rs.
  destruct data as [| a [| b [| x data]]];
    try (cbn [List.length] in Hlen; lia);
    destruct d; (eexists; split; [mrun |]);
    simpl_state; repeat apply conj; try reflexivity; trace_solve.
Qed.

(** X20. [read_data_ready_flag] after a successful command write. On
    an answer of at least three bytes it returns [True] exactly when the
    third byte is the checksum of the first two and the second byte is
    1; a checksum failure counts one error, a flag other than 1 counts
    none. On an answer of fewer than three bytes it returns [False] and
    counts no error. In every case the bus sees the query, the 20 ms
    pause and one read of three bytes. *)
Theorem read_data_ready_flag_outcome (s : sps30) (w : list bool)
  (r : list (option (list Z))) (data : list Z) :
  writes s = true :: w ->
  reads s = Some data :: r ->
  let s' := snd (read_data_ready_flag s) in
  (forall d0 d1 c rest,
      data = d0 :: d1 :: c :: rest ->
      fst (read_data_ready_flag s)
      = Ok ((crc_loop [d0; d1] =? c) && (d1 =? 1))
      /\ _total_crc_errors s'
         = _total_crc_errors s + (if crc_loop [d0; d1] =? c then 0 else 1))
  /\ ((List.length data < 3)%nat ->
      fst (read_data_ready_flag s) = Ok false
      /\ _total_crc_errors s' = _total_crc_errors s)
  /\ bus_traffic s' = bus_traffic s ++ ready_exchange data
  /\ writes s' = w /\ reads s' = r.
Proof.
  intros Hw Hr s'. subst s'.
  destruct (Nat.ltb_spec (List.length data) 3) as [Hshort | Hlong].
  - destruct (run_read_data_ready_flag_short s w r data Hw Hr Hshort)
      as (s1 & -> & Ht & Hb & Hw1 & Hr1).
    cbn [fst snd]. repeat apply conj; try assumption.
    + intros ? ? ? ? ->. cbn [List.length] in Hshort. lia.
    + intros _. split; [reflexivity | assumption].
  - destruct data as [| d0 [| d1 [| c rest]]];
      try (cbn [List.length] in Hlong; lia).
    destruct (run_read_data_ready_flag s w r d0 d1 c rest Hw Hr)
      as (s1 & -> & Ht & Hb & Hw1 & Hr1).
    cbn [fst snd]. repeat apply conj; try assumption.
    + intros ? ? ? ? E. injection E as <- <- <- <-.
      split; [reflexivity | assumption].
    + intros Hshort. cbn [List.length] in Hshort. lia.
Qed.

Lemma read_data_ready_flag_outcome_witness :
  let s := power_on true true PyFloat.Binary64 [true]
             [Some [0; 1; crc_loop [0; 1]]] 0 in
  fst (read_data_ready_flag s) = Ok true.
Proof.
  intros s.
  destruct (read_data_ready_flag_outcome s [] [] [0; 1; crc_loop [0; 1]]
              eq_refl eq_refl) as (H & _).
  destruct (H _ _ _ _ eq_refl) as (H1 & _).
  rewrite H1. vm_compute. reflexivity.
Defined.

(** ** A measuring session *)

Lemma run_start_measurement_ok (s : sps30) (w : list bool) :
  writes s = true :: w ->
  exists s1,
    start_measurement s = (Ok true, s1)
    /\ _is_measuring s1 = true
    /\ writes s1 = w
    /\ reads s1 = reads s
    /\ bus_traffic s1
       = bus_traffic s ++ [I2CWrite I2C_ADDRESS start_command true]
    /\ _hist_frames s1 = _hist_frames s
    /\ _hist_maxlen s1 = _hist_maxlen s
    /\ has_struct s1 = has_struct s
    /\ float_impl s1 = float_impl s
    /\ ticks s1 = ticks s
    /\ _total_crc_errors s1 = _total_crc_errors s.
Proof.
  intros Hw.
  destruct s as [d m v t l h ml hs fi ws rs tr tk].
  cbn [writes] in Hw. subst ws.
  assert (Hcrc : crc_loop [3; 0] = 0xAC) by (vm_compute; reflexivity).
  unfold start_measurement, start_command.
  destruct d; (eexists; split; [mrun |]);
    simpl_state; repeat apply conj; try reflexivity; trace_solve.
Qed.

Lemma run_stop_measurement_ok (s : sps30) (w : list bool) :
  writes s = true :: w ->
  exists s1,
    stop_measurement s = (Ok true, s1)
    /\ _is_measuring s1 = false
    /\ writes s1 = w
    /\ reads s1 = reads s
    /\ bus_traffic s1
       = bus_traffic s ++ [I2CWrite I2C_ADDRESS CMD_STOP_MEASUREMENT true].
Proof.
  intros Hw.
  destruct s as [d m v t l h ml hs fi ws rs tr tk].
  cbn [writes] in Hw. subst ws.
  unfold stop_measurement.
  destruct d; (eexists; split; [mrun |]);
    simpl_state; repeat apply conj; try reflexivity; trace_solve.
Qed.

Lemma run_get_measurement_idle (n : Z) (s : sps30) :
  _is_measuring s = false ->
  exists s1,
    get_measurement n s = (Ok None, s1)
    /\ bus_traffic s1 = bus_traffic s
    /\ writes s1 = writes s
    /\ reads s1 = reads s.
Proof.
  intros Hm.
  destruct s as [d m v t l h ml hs fi ws rs tr tk].
  cbn [_is_measuring] in Hm. subst m.
  destruct d; (eexists; split; [mrun |]);
    simpl_state; repeat apply conj; try reflexivity; trace_solve.
Qed.

(** X21. A session. From any state of the driver, let the four bus
    writes succeed and let the sensor answer the data-ready query with
    the flag set and the read with a response whose checksums are all
    right. Then [start_measurement] returns [True]; a following
    [get_measurement] with a window size of one or less returns the
    decoded frame; a following [stop_measurement] returns [True]; and
    a [get_measurement] after that returns the empty result without
    touching the bus. The bus has seen the start command, the
    data-ready exchange, the read of the measured values and the stop
    command, in this order. *)
Theorem measurement_session (rolling_n : Z) (s : sps30) (w : list bool)
  (r : list (option (list Z))) (d0 : Z) (raw : list Z) :
  writes s = true :: true :: true :: true :: w ->
  reads s = Some [d0; 1; crc_loop [d0; 1]] :: Some raw :: r ->
  List.length raw = 60%nat ->
  all_valid (decode_validity raw) = true ->
  rolling_n <= 1 ->
  let conv := ieee754_number_conversion (has_struct s) (float_impl s) in
  let s1 := snd (start_measurement s) in
  let s2 := snd (get_measurement rolling_n s1) in
  let s3 := snd (stop_measurement s2) in
  let s4 := snd (get_measurement rolling_n s3) in
  fst (start_measurement s) = Ok true
  /\ fst (get_measurement rolling_n s1)
     = Ok (Some (clean_result 1 (decode_frame conv raw) (ticks s)
                   (_total_crc_errors s)))
  /\ fst (stop_measurement s2) = Ok true
  /\ fst (get_measurement rolling_n s3) = Ok None
  /\ bus_traffic s4
     = bus_traffic s
       ++ [I2CWrite I2C_ADDRESS start_command true]
       ++ read_exchange [d0; 1; crc_loop [d0; 1]] raw
       ++ [I2CWrite I2C_ADDRESS CMD_STOP_MEASUREMENT true].
Proof.
  intros Hw Hr Hlen Hok Hn conv s1 s2 s3 s4. subst conv s1 s2 s3 s4.
  destruct (run_start_measurement_ok s _ Hw)
    as (s1 & -> & Hm1 & Hw1 & Hr1 & Hb1 & _ & _ & Hst1 & Hf1 & Hk1 & Ht1).
  cbn [fst snd]. rewrite Hr in Hr1.
  destruct (run_get_measurement_single rolling_n s1 _ _ d0 _ raw
              Hm1 Hw1 Hr1 eq_refl Hlen Hok Hn)
    as (s2 & -> & Hv2 & Ht2 & Hl2 & Hk2 & Hb2 & Hw2 & _).
  cbn [fst snd].
  destruct (run_stop_measurement_ok s2 _ Hw2)
    as (s3 & -> & Hm3 & _ & _ & Hb3).
  cbn [fst snd].
  destruct (run_get_measurement_idle rolling_n s3 Hm3)
    as (s4 & -> & Hb4 & _).
  cbn [fst snd].
  rewrite (all_valid_every _ Hok) in Hv2.
  rewrite (payload_of_clean 1 _ s2 Hv2 Hl2), Hk2, Ht2, Hk1, Ht1.
  unfold conversion_of. rewrite Hst1, Hf1.
  repeat apply conj; try reflexivity.
  rewrite Hb4, Hb3, Hb2, Hb1, <- !app_assoc. reflexivity.
Qed.

Lemma measurement_session_witness :
  let raw :=
    response_of [0x3F800000; 0x40000000; 0x40400000; 0x40800000;
                 0x3F800000; 0x40000000; 0x40400000; 0x40800000;
                 0x40A00000; 0x3F000000] in
  let s := power_on false true PyFloat.Binary64 (repeat true 4)
             [Some [0; 1; crc_loop [0; 1]]; Some raw] 0 in
  fst (start_measurement s) = Ok true
  /\ fst (get_measurement 1
            (snd (stop_measurement
                    (snd (get_measurement 1 (snd (start_measurement s)))))))
     = Ok None.
Proof.
  intros raw s.
  destruct (measurement_session 1 s [] [] 0 raw eq_refl eq_refl eq_refl)
    as (H1 & _ & _ & H4 & _).
  - vm_compute. reflexivity.
  - lia.
  - split; [exact H1 | exact H4].
Defined.

(** ** Bus failures inside [get_measurement] *)

Lemma run_i2c_writeto_fail (addr : Z) (payload : list Z) (s : sps30) :
  next_write_ok s = false ->
  i2c_writeto addr payload s
  = (Raise OSError,
     emit [I2CWrite addr payload false] (set_writes (tl (writes s)) s)).
Proof.
  unfold next_write_ok, i2c_writeto.
  destruct s as [d m v t l h ml hs fi ws rs tr tk]. cbn [writes].
  destruct ws as [| [|] ws]; intros H; first [discriminate H | reflexivity].
Qed.

Ltac run_symbolic ::=
  lazymatch goal with
  | |- index _ _ _ = _ => apply run_index_nth; lia
  | |- prints _ _ = _ => apply run_prints
  | |- average_frames _ _ = _ =>
      apply run_average_frames;
      [ now apply slide_full_nonempty | assumption ]
  | |- crc_calc _ _ = _ =>
      rewrite run_crc_calc_warn by (cbn; lia);
      first [ rewrite logged_on by side_condition
            | rewrite logged_off by side_condition ];
      reflexivity
  | |- i2c_writeto _ _ _ = _ =>
      apply run_i2c_writeto_fail; simpl_state; assumption
  | _ => run_section
  end.

(** X22. A bus failure in the middle of [get_measurement]. When the
    data-ready query succeeds with the flag set and the write of the
    read-measured-values command then fails, the bus reset is run, the
    exception stays inside the method and the call returns the empty
    result. The three validity flags are false, no read is issued, and
    the error counters are as before the call: the per-attempt count
    still shows the previous measurement. *)
Theorem get_measurement_write_failure (rolling_n : Z) (s : sps30)
  (w : list bool) (r : list (option (list Z))) (d0 : Z) :
  _is_measuring s = true ->
  writes s = true :: w ->
  next_write_ok (set_writes w s) = false ->
  reads s = Some [d0; 1; crc_loop [d0; 1]] :: r ->
  let s' := snd (get_measurement rolling_n s) in
  fst (get_measurement rolling_n s) = Ok None
  /\ bus_traffic s'
     = bus_traffic s
       ++ ready_exchange [d0; 1; crc_loop [d0; 1]]
       ++ write_exchange CMD_READ_MEASURED_VALUES 20 false
  /\ reads s' = r
  /\ _valid s' = no_section_valid
  /\ _total_crc_errors s' = _total_crc_errors s
  /\ _last_measurement_crc_errors s' = _last_measurement_crc_errors s
  /\ _hist_frames s' = fst (prepared_hist (clamp_rolling_n rolling_n) s).
Proof.
  intros Hm Hw Hfail Hr s'. subst s'.
  destruct s as [d m v t l h ml hs fi ws rs tr tk].
  cbn [_is_measuring writes reads] in Hm, Hw, Hr. subst m ws rs.
  unfold next_write_ok in Hfail. cbn [writes set_writes] in Hfail.
  assert (Hc : (crc_loop [d0; 1] =? crc_loop [d0; 1]) = true)
    by apply Z.eqb_refl.
  assert (exists s1,
             get_measurement rolling_n
               {| debug := d; _is_measuring := true; _valid := v;
                  _total_crc_errors := t; _last_measurement_crc_errors := l;
                  _hist_frames := h; _hist_maxlen := ml; has_struct := hs;
                  float_impl := fi; writes := true :: w;
                  reads := Some [d0; 1; crc_loop [d0; 1]] :: r;
                  trace := tr; ticks := tk |}
             = (Ok None, s1)
             /\ bus_traffic s1
                = bus_events tr
                  ++ ready_exchange [d0; 1; crc_loop [d0; 1]]
                  ++ write_exchange CMD_READ_MEASURED_VALUES 20 false
             /\ reads s1 = r
             /\ _valid s1 = no_section_valid
             /\ _total_crc_errors s1 = t
             /\ _last_measurement_crc_errors s1 = l
             /\ _hist_frames s1
                = fst (prepared_hist (clamp_rolling_n rolling_n)
                         {| debug := d; _is_measuring := true; _valid := v;
                            _total_crc_errors := t;
                            _last_measurement_crc_errors := l;
                            _hist_frames := h; _hist_maxlen := ml;
                            has_struct := hs; float_impl := fi;
                            writes := true :: w;
                            reads := Some [d0; 1; crc_loop [d0; 1]] :: r;
                            trace := tr; ticks := tk |}))
    as (s1 & -> & H).
  { unfold write_exchange.
    destruct d; (eexists; split; [mrun |]);
      simpl_state; repeat apply conj; try reflexivity; trace_solve. }
  cbn [fst snd]. split; [reflexivity | exact H].
Qed.

Lemma get_measurement_write_failure_witness :
  let s := set_is_measuring true
             (power_on true true PyFloat.Binary64 [true; false]
                [Some [0; 1; crc_loop [0; 1]]] 0) in
  fst (get_measurement 1 s) = Ok None
  /\ reads (snd (get_measurement 1 s)) = [].
Proof.
  intros s.
  destruct (get_measurement_write_failure 1 s [false] [] 0
              eq_refl eq_refl eq_refl eq_refl) as (H1 & _ & H3 & _).
  split; [exact H1 | exact H3].
Defined.

(** ** Float decoding *)

Lemma copysign_one_eqb (fi : PyFloat.float_impl) (a b : float) :
  PyFloat.eqb (copysign_one fi a) (copysign_one fi b)
  = Bool.eqb (sign_of a) (sign_of b).
Proof.
  unfold copysign_one.
  destruct fi, (sign_of a), (sign_of b); vm_compute; reflexivity.
Qed.

Lemma Pcompare_eq (p q : positive) : Pos.compare_cont Eq p q = Eq -> p = q.
Proof. apply Pos.compare_eq. Qed.

Lemma SFeqb_finite (s1 s2 : bool) (m1 m2 : positive) (e1 e2 : Z) :
  SFeqb (S754_finite s1 m1 e1) (S754_finite s2 m2 e2) = true ->
  s1 = s2 /\ m1 = m2 /\ e1 = e2.
Proof.
  unfold SFeqb, SFcompare.
  destruct s1, s2; try discriminate;
    destruct (Z.compare_spec e1 e2) as [-> | H | H]; try discriminate;
    destruct (Pos.compare_cont Eq m1 m2) eqn:E; try discriminate;
    intros _; apply Pcompare_eq in E; now subst.
Qed.

Lemma SFeqb_finite_refl (s : bool) (m : positive) (e : Z) :
  SFeqb (S754_finite s m e) (S754_finite s m e) = true.
Proof.
  unfold SFeqb, SFcompare.
  destruct s; rewrite Z.compare_refl;
    fold (Pos.compare m m); now rewrite Pos.compare_refl.
Qed.

(** X23. [floats_equal] of the converters' self-test holds exactly
    when the two floats are the same datum: a NaN equals a NaN, zeros
    and infinities are equal only with the same sign, and finite values
    only with the same sign, mantissa and exponent. It is therefore an
    equivalence, and it is stricter than [==], which holds between
    [0.0] and [-0.0] and fails on a NaN. *)
Theorem floats_equal_is_identity (fi : PyFloat.float_impl) (a b : float) :
  (floats_equal fi a b = true <-> a = b)
  /\ floats_equal fi PyFloat.zero PyFloat.neg_zero = false
  /\ PyFloat.eqb PyFloat.zero PyFloat.neg_zero = true
  /\ floats_equal fi PyFloat.nan PyFloat.nan = true
  /\ PyFloat.eqb PyFloat.nan PyFloat.nan = false.
Proof.
  split; [| repeat split; destruct fi; reflexivity].
  unfold floats_equal. rewrite !copysign_one_eqb. split.
  - intros H.
    destruct a as [[] | [] | | [] ma ea], b as [[] | [] | | [] mb eb];
      cbn [isnan isinf andb] in H;
      try reflexivity;
      lazymatch type of H with
      | context [PyFloat.eqb (S754_finite ?sa _ _) (S754_finite ?sb _ _)] =>
          destruct (PyFloat.eqb (S754_finite sa ma ea) (S754_finite sb mb eb))
            eqn:E; [| discriminate H];
          unfold PyFloat.eqb in E; apply SFeqb_finite in E;
          destruct E as (_ & -> & ->); first [reflexivity | discriminate H]
      | _ => cbn in H; discriminate H
      end.
  - intros <-.
    destruct a as [sa | sa | | sa ma ea]; cbn [isnan isinf andb sign_of];
      try reflexivity.
    + now destruct sa.
    + now destruct sa.
    + unfold PyFloat.eqb. rewrite SFeqb_finite_refl. now destruct sa.
Qed.

(** X24. The converters' self-test on [SAMPLE_WORDS], for the two
    converters that the file calls correct: on each of the thirteen
    sample words, and in both float formats, the bit-twiddling decoder
    and the [struct]-based decoder give floats that [floats_equal]
    accepts. The words decode to +0, -0, 1, -1, +infinity, -infinity
    and a NaN where the file's comments say so. *)
Theorem sample_words_agree (fi : PyFloat.float_impl) :
  Forall (fun w => floats_equal fi (IEEE754.ieee754_to_float fi w)
                     (ieee754_to_float_struct fi w) = true)
    SAMPLE_WORDS
  /\ map (IEEE754.ieee754_to_float fi)
       [0x00000000; 0x80000000; 0x3F800000; 0xBF800000;
        0x7F800000; 0xFF800000; 0x7FC00000]
     = [PyFloat.zero; PyFloat.neg_zero;
        PyFloat.of_int fi 1; PyFloat.of_int fi (-1);
        S754_infinity false; S754_infinity true; PyFloat.nan].
Proof.
  split.
  - unfold SAMPLE_WORDS. repeat constructor; destruct fi; vm_compute;
      reflexivity.
  - destruct fi; vm_compute; reflexivity.
Qed.

Lemma fallback_is_ieee754_to_float (fi : PyFloat.float_impl) (u32 : Z) :
  ieee754_number_conversion false fi u32 = IEEE754.ieee754_to_float fi u32.
Proof. reflexivity. Qed.

Lemma sign_of_word (u32 : Z) :
  Z.shiftr (Z.land u32 0xFFFFFFFF) 31 = if Z.testbit u32 31 then 1 else 0.
Proof.
  apply Z.bits_inj'. intros n Hn.
  rewrite Z.shiftr_spec, Z.land_spec by lia.
  change 0xFFFFFFFF with (Z.ones 32).
  rewrite Z.testbit_ones_nonneg by lia.
  destruct (Z.eq_dec n 0) as [-> | Hne].
  - cbn [Z.add]. rewrite andb_true_r.
    now destruct (Z.testbit u32 31).
  - destruct (Z.ltb_spec (n + 31) 32); [lia |]. rewrite andb_false_r.
    destruct (Z.testbit u32 31).
    + change 1 with (2 ^ 0). rewrite Z.pow2_bits_false by lia. reflexivity.
    + now rewrite Z.bits_0.
Qed.

Lemma testbit_31_masked (u32 : Z) :
  Z.testbit (Z.land u32 0xFFFFFFFF) 31 = Z.testbit u32 31.
Proof.
  rewrite Z.land_spec. change 0xFFFFFFFF with (Z.ones 32).
  rewrite Z.testbit_ones_nonneg by lia. apply andb_true_r.
Qed.

(** X25. The special values. For every integer [u32], on both paths of
    [ieee754_number_conversion] (with [struct] and without) and in both
    float formats: a word whose exponent field is all ones decodes to a
    NaN when its fraction field is not zero and to the infinity of the
    word's sign bit when it is zero; a word whose exponent and fraction
    fields are zero decodes to the zero of the word's sign bit. The
    bit-twiddling decoder of the test file is the same function as the
    fallback path. *)
Theorem special_values_decode (struct_available : bool)
  (fi : PyFloat.float_impl) (u32 : Z) :
  (exponent_field u32 = 0xFF ->
   ieee754_number_conversion struct_available fi u32
   = if fraction_field u32 =? 0 then S754_infinity (Z.testbit u32 31)
     else S754_nan)
  /\ (exponent_field u32 = 0 -> fraction_field u32 = 0 ->
      ieee754_number_conversion struct_available fi u32
      = S754_zero (Z.testbit u32 31))
  /\ IEEE754.ieee754_to_float fi u32
     = ieee754_number_conversion false fi u32.
Proof.
  unfold exponent_field, fraction_field.
  repeat apply conj; [| | reflexivity].
  - intros He. unfold ieee754_number_conversion, PyFloat.unpack_f32.
    cbv zeta. rewrite He, testbit_31_masked, sign_of_word.
    change (255 =? 0) with false. change (255 =? 255) with true.
    cbn [andb negb].
    destruct (Z.land (Z.land u32 4294967295) 8388607 =? 0);
      destruct struct_available; cbn [negb]; try reflexivity;
      destruct (Z.testbit u32 31); destruct fi; vm_compute; reflexivity.
  - intros He Hf. unfold ieee754_number_conversion, PyFloat.unpack_f32.
    cbv zeta. rewrite He, Hf, testbit_31_masked, sign_of_word.
    change (0 =? 0) with true. change (0 =? 255) with false.
    cbn [andb negb].
    destruct struct_available; destruct (Z.testbit u32 31); destruct fi;
      vm_compute; reflexivity.
Qed.

Lemma special_values_decode_witness :
  ieee754_number_conversion true PyFloat.Binary32 0xFF800000
  = S754_infinity true.
Proof.
  destruct (special_values_decode true PyFloat.Binary32 0xFF800000)
    as (H & _).
  rewrite H by (vm_compute; reflexivity). vm_compute. reflexivity.
Defined.

(** ** Calendar helpers *)

Lemma weekday_of_month (y m d : Z) :
  1 <= m <= 12 ->
  exists tm,
    nth_error [0; 3; 2; 5; 0; 3; 5; 1; 4; 6; 2; 4] (Z.to_nat (m - 1)) = Some tm
    /\ _weekday y m d
       = Some (((if m <? 3 then y - 1 else y)
                + (if m <? 3 then y - 1 else y) / 4
                - (if m <? 3 then y - 1 else y) / 100
                + (if m <? 3 then y - 1 else y) / 400 + tm + d) mod 7).
Proof.
  intros Hm. unfold _weekday, py_index. cbn [List.length Z.of_nat].
  cbv zeta.
  destruct (Z.leb_spec 0 (m - 1)); [| lia].
  destruct (Z.ltb_spec (m - 1) (Z.pos (Pos.of_succ_nat 11))); [| lia].
  cbn [andb].
  assert (Hcases : m = 1 \/ m = 2 \/ m = 3 \/ m = 4 \/ m = 5 \/ m = 6
                   \/ m = 7 \/ m = 8 \/ m = 9 \/ m = 10 \/ m = 11 \/ m = 12)
    by lia.
  repeat (destruct Hcases as [-> | Hcases]); [.. | subst m];
    eexists; split; reflexivity.
Qed.

(** Reduces comparisons between numerals. *)
Ltac numeral_tests :=
  cbn [Z.eqb Z.ltb Z.leb Z.compare Pos.compare Pos.compare_cont Pos.eqb
       orb andb negb Z.add Z.sub Z.opp Z.pos_sub Z.succ_double Z.pred_double
       Z.double Pos.add Pos.succ Pos.pred_double].

(** Computes both weekdays of a goal and leaves the congruence. *)
Ltac weekday_step y m d y' m' d' :=
  let tm := fresh "tm" in
  let Htm := fresh "Htm" in
  let H := fresh "H" in
  destruct (weekday_of_month y m d ltac:(lia)) as (tm & Htm & H);
  rewrite H; clear H; vm_compute in Htm; injection Htm as <-;
  destruct (weekday_of_month y' m' d' ltac:(lia)) as (tm & Htm & H);
  rewrite H; clear H; vm_compute in Htm; injection Htm as <-;
  numeral_tests;
  eexists; split; [reflexivity |];
  split; [apply Z.mod_pos_bound; lia |];
  f_equal; rewrite Z.add_mod_idemp_l by lia.

Lemma weekday_next_in_month (y m d : Z) :
  1 <= m <= 12 ->
  exists wd,
    _weekday y m d = Some wd /\ 0 <= wd < 7
    /\ _weekday y m (d + 1) = Some ((wd + 1) mod 7).
Proof.
  intros Hm.
  destruct (weekday_of_month y m d Hm) as (tm & Htm & ->).
  destruct (weekday_of_month y m (d + 1) Hm) as (tm' & Htm' & ->).
  rewrite Htm in Htm'. injection Htm' as <-.
  eexists; split; [reflexivity |].
  split; [apply Z.mod_pos_bound; lia |].
  f_equal. rewrite Z.add_mod_idemp_l by lia. f_equal. lia.
Qed.

Lemma is_leap_cases (y : Z) :
  (is_leap y = true /\ y / 4 - y / 100 + y / 400
                       = (y - 1) / 4 - (y - 1) / 100 + (y - 1) / 400 + 1)
  \/ (is_leap y = false /\ y / 4 - y / 100 + y / 400
                           = (y - 1) / 4 - (y - 1) / 100 + (y - 1) / 400).
Proof.
  unfold is_leap.
  destruct (Z.eqb_spec (y mod 4) 0) as [H4 | H4];
    destruct (Z.eqb_spec (y mod 100) 0) as [H100 | H100];
    destruct (Z.eqb_spec (y mod 400) 0) as [H400 | H400];
    cbn [andb orb negb];
    first [ left; split; [reflexivity |]
          | right; split; [reflexivity |] ];
    Z.div_mod_to_equations; lia.
Qed.

(** X26. [_weekday] is the day of the week of the Gregorian calendar,
    with 0 for Sunday: 1 January 2000 (a Saturday) has weekday 6, and
    for every date of every year, negative years included, the day
    after it has the next weekday, across the ends of months, leap days
    and the ends of years. *)
Theorem weekday_advances (y m d : Z) :
  1 <= m <= 12 ->
  1 <= d <= days_in_month y m ->
  (let '(y', m', d') := next_day y m d in
   exists wd,
     _weekday y m d = Some wd /\ 0 <= wd < 7
     /\ _weekday y' m' d' = Some ((wd + 1) mod 7))
  /\ _weekday 2000 1 1 = Some 6.
Proof.
  intros Hm Hd. split; [| reflexivity].
  unfold next_day.
  destruct (Z.ltb_spec d (days_in_month y m)) as [Hlt | Hge].
  { now apply weekday_next_in_month. }
  assert (Hlast : d = days_in_month y m) by lia. clear Hge Hd.
  assert (Hcases : m = 1 \/ m = 2 \/ m = 3 \/ m = 4 \/ m = 5 \/ m = 6
                   \/ m = 7 \/ m = 8 \/ m = 9 \/ m = 10 \/ m = 11 \/ m = 12)
    by lia.
  unfold days_in_month in Hlast.
  destruct (is_leap_cases y) as [[Hleap Hdiv] | [Hleap Hdiv]];
    rewrite Hleap in Hlast;
    repeat (destruct Hcases as [-> | Hcases]); try subst m;
    numeral_tests;
    cbn [Z.eqb Pos.eqb orb andb] in Hlast; subst d.
  all: lazymatch goal with
       | |- exists wd, _weekday ?y0 ?m0 ?d0 = _ /\ _
                       /\ _weekday ?y1 ?m1 ?d1 = _ =>
           weekday_step y0 m0 d0 y1 m1 d1
       end.
  all: try replace (y + 1 - 1) with y by lia.
  all: Z.div_mod_to_equations; lia.
Qed.

Lemma weekday_advances_witness :
  _weekday 2024 3 1 = Some ((4 + 1) mod 7).
Proof.
  destruct (weekday_advances 2024 2 29) as ((wd & H1 & _ & H2) & _).
  - lia.
  - vm_compute. split; discriminate.
  - vm_compute in H1. injection H1 as <-. exact H2.
Defined.

Lemma weekday_formula (y m d tm : Z) :
  3 <= m <= 12 ->
  nth_error [0; 3; 2; 5; 0; 3; 5; 1; 4; 6; 2; 4] (Z.to_nat (m - 1)) = Some tm ->
  _weekday y m d = Some ((y + y / 4 - y / 100 + y / 400 + tm + d) mod 7).
Proof.
  intros Hm Htm.
  destruct (weekday_of_month y m d ltac:(lia)) as (tm' & Htm' & ->).
  rewrite Htm in Htm'. injection Htm' as <-.
  destruct (Z.ltb_spec m 3); [lia | reflexivity].
Qed.

(** X27. The switch days. For every year, [_second_sunday_march] is a
    day from 8 to 14 that [_weekday] makes a Sunday, and the only
    earlier Sunday of that March is the one a week before;
    [_first_sunday_nov] is a day from 1 to 7 that is a Sunday, and no
    earlier day of that November is one. *)
Theorem dst_switch_days (year : Z) :
  exists march nov,
    _second_sunday_march year = Some march
    /\ 8 <= march <= 14
    /\ _weekday year 3 march = Some 0
    /\ (forall d, 1 <= d < march -> _weekday year 3 d = Some 0 ->
                  d = march - 7)
    /\ _first_sunday_nov year = Some nov
    /\ 1 <= nov <= 7
    /\ _weekday year 11 nov = Some 0
    /\ (forall d, 1 <= d < nov -> _weekday year 11 d <> Some 0).
Proof.
  unfold _second_sunday_march, _first_sunday_nov.
  assert (H3 : forall d, _weekday year 3 d
                         = Some ((year + year / 4 - year / 100 + year / 400
                                  + 2 + d) mod 7))
    by (intros d; apply weekday_formula; [lia | reflexivity]).
  assert (H11 : forall d, _weekday year 11 d
                          = Some ((year + year / 4 - year / 100 + year / 400
                                   + 2 + d) mod 7))
    by (intros d; apply weekday_formula; [lia | reflexivity]).
  rewrite (H3 1), (H11 1).
  set (K := year + year / 4 - year / 100 + year / 400 + 2) in *.
  clearbody K.
  eexists. eexists. repeat apply conj; try reflexivity.
  - Z.div_mod_to_equations; lia.
  - Z.div_mod_to_equations; lia.
  - rewrite H3. f_equal. Z.div_mod_to_equations; lia.
  - intros d Hd. rewrite H3. intros E. injection E as E.
    Z.div_mod_to_equations; lia.
  - Z.div_mod_to_equations; lia.
  - Z.div_mod_to_equations; lia.
  - rewrite H11. f_equal. Z.div_mod_to_equations; lia.
  - intros d Hd. rewrite H11. intros E. injection E as E.
    Z.div_mod_to_equations; lia.
Qed.

Lemma dst_switch_days_aux (year : Z) :
  exists march nov,
    _second_sunday_march year = Some march
    /\ _first_sunday_nov year = Some nov.
Proof.
  unfold _second_sunday_march, _first_sunday_nov.
  rewrite (weekday_formula year 3 1 2), (weekday_formula year 11 1 2)
    by first [lia | reflexivity].
  eexists. eexists. split; reflexivity.
Qed.

(** X28. [_is_us_dst] returns a value for every time tuple of
    integers, and the value is [True] exactly from hour 2 of the second
    Sunday of March up to, and not including, hour 2 of the first
    Sunday of November, month, day and hour being compared in this
    order. *)
Theorem is_us_dst_interval (y m d h : Z) :
  exists march nov,
    _second_sunday_march y = Some march
    /\ _first_sunday_nov y = Some nov
    /\ _is_us_dst y m d h
       = Some (negb (before (m, d, h) (3, march, 2))
               && before (m, d, h) (11, nov, 2)).
Proof.
  destruct (dst_switch_days_aux y) as (march & nov & Hmarch & Hnov).
  exists march, nov. repeat apply conj; try assumption.
  unfold _is_us_dst, before. rewrite Hmarch, Hnov.
  destruct (Z.ltb_spec m 3), (Z.ltb_spec 11 m), (Z.ltb_spec 3 m),
    (Z.ltb_spec m 11), (Z.eqb_spec m 3), (Z.eqb_spec m 11);
    try lia; cbn [orb andb negb]; try reflexivity; f_equal;
    destruct (Z.ltb_spec d march), (Z.ltb_spec march d),
      (Z.eqb_spec d march), (Z.ltb_spec h 2), (Z.leb_spec 2 h),
      (Z.ltb_spec d nov), (Z.eqb_spec d nov);
    try lia; reflexivity.
Qed.

(** ** Claims about the frame, the window, the interval and the floats *)

(** C1. Frame acceptance. After a data-ready query that found the flag
    set, let [get_measurement] read a 60-byte response. When one of the
    three section flags that the decoding gives is false, the call
    returns the empty result, the flags of the object are the decoded
    ones, and the per-attempt error count records the failed sections
    (at least one). Whenever the call returns a frame, all three flags
    are true: a frame with an invalid section is never returned. With
    all three flags true and a window size of one or less, the call does
    return the decoded frame. *)
Theorem frame_acceptance_rule (rolling_n : Z) (s : sps30)
  (w : list bool) (r : list (option (list Z))) (d0 : Z) (raw : list Z) :
  _is_measuring s = true ->
  writes s = true :: true :: w ->
  reads s = Some [d0; 1; crc_loop [d0; 1]] :: Some raw :: r ->
  List.length raw = 60%nat ->
  let s' := snd (get_measurement rolling_n s) in
  let flags := decode_validity raw in
  let conv := ieee754_number_conversion (has_struct s) (float_impl s) in
  (all_valid flags = false ->
   fst (get_measurement rolling_n s) = Ok None
   /\ _valid s' = flags
   /\ _last_measurement_crc_errors s' = failed_sections flags
   /\ 1 <= failed_sections flags)
  /\ (forall m,
        fst (get_measurement rolling_n s) = Ok (Some m) ->
        v_mass_density flags = true
        /\ v_particle_count flags = true
        /\ v_particle_size flags = true)
  /\ (all_valid flags = true -> rolling_n <= 1 ->
      fst (get_measurement rolling_n s)
      = Ok (Some (clean_result 1 (decode_frame conv raw) (ticks s)
                    (_total_crc_errors s)))
      /\ _valid s' = flags
      /\ _last_measurement_crc_errors s' = 0).
Proof.
  intros Hm Hw Hr Hlen s' flags conv. subst s' flags conv.
  assert (Hrej : all_valid (decode_validity raw) = false ->
                 fst (get_measurement rolling_n s) = Ok None
                 /\ _valid (snd (get_measurement rolling_n s))
                    = decode_validity raw
                 /\ _last_measurement_crc_errors
                      (snd (get_measurement rolling_n s))
                    = failed_sections (decode_validity raw)
                 /\ 1 <= failed_sections (decode_validity raw)).
  { intros Hbad.
    destruct (run_get_measurement_rejected rolling_n s w r d0 _ raw
                Hm Hw Hr eq_refl Hlen Hbad)
      as (s1 & -> & Hv & _ & Hl & _).
    cbn [fst snd]. repeat apply conj; try assumption; try reflexivity.
    now apply failed_sections_some_invalid. }
  repeat apply conj.
  - exact Hrej.
  - intros m Hsome.
    destruct (all_valid (decode_validity raw)) eqn:Hall.
    + rewrite (all_valid_every _ Hall). repeat split.
    + destruct (Hrej eq_refl) as (Hnone & _).
      rewrite Hnone in Hsome. discriminate Hsome.
  - intros Hok Hn.
    destruct (run_get_measurement_single rolling_n s w r d0 _ raw
                Hm Hw Hr eq_refl Hlen Hok Hn)
      as (s1 & -> & Hv & Ht & Hl & Hk & _).
    cbn [fst snd]. repeat apply conj; try assumption.
    rewrite (all_valid_every _ Hok) in Hv.
    now rewrite (payload_of_clean 1 _ s1 Hv Hl), Hk, Ht.
Qed.

Lemma frame_acceptance_rule_witness :
  let raw :=
    corrupt 56
      (response_of [0x3F800000; 0x40000000; 0x40400000; 0x40800000;
                    0x3F800000; 0x40000000; 0x40400000; 0x40800000;
                    0x40A00000; 0x3F000000]) in
  let s := set_is_measuring true
             (power_on true true PyFloat.Binary64 [true; true]
                [Some [0; 1; crc_loop [0; 1]]; Some raw] 0) in
  fst (get_measurement 1 s) = Ok None
  /\ _last_measurement_crc_errors (snd (get_measurement 1 s)) = 1.
Proof.
  intros raw s.
  destruct (frame_acceptance_rule 1 s [] [] 0 raw
              eq_refl eq_refl eq_refl eq_refl) as (H & _).
  destruct H as (H1 & _ & H3 & _).
  - vm_compute. reflexivity.
  - split; [exact H1 |]. rewrite H3. vm_compute. reflexivity.
Defined.

(** ** Checksum failures inside a section *)







Lemma kept_frames_other_size (n : Z) (s : sps30) :
  _hist_maxlen s <> Some n -> kept_frames n s = [].
Proof.
  unfold kept_frames. intros H.
  destruct (_hist_frames s) as [frames |]; [| reflexivity].
  destruct (_hist_maxlen s) as [k |]; [| reflexivity].
  destruct (Z.eqb_spec k n) as [-> | _]; [now contradiction H | reflexivity].
Qed.

(** Three reads of the sizes 10.0, 20.0 and 30.0 under a window of
    three, then a read of 40.0 under a window of one. *)
Lemma four_sizes_run :
  fst (get_measurement 3 four_sizes) = Ok None
  /\ fst (get_measurement 3 (after_calls 3 1 four_sizes)) = Ok None
  /\ (exists m,
         fst (get_measurement 3 (after_calls 3 2 four_sizes)) = Ok (Some m)
         /\ sd_particle_size (result_sensor_data m)
            = PyFloat.of_int PyFloat.Binary64 20)
  /\ (exists m,
         fst (get_measurement 1 (after_calls 3 3 four_sizes)) = Ok (Some m)
         /\ sd_particle_size (result_sensor_data m)
            = PyFloat.of_int PyFloat.Binary64 40).
Proof.
  split; [vm_compute; reflexivity |].
  split; [vm_compute; reflexivity |].
  split; eexists; split; vm_compute; reflexivity.
Qed.

(** C5. The rolling aggregator. Let [get_measurement] accept the frame
    of a complete read. For a window size [n > 1] the frame is appended
    to the stored ones, the oldest is dropped once there are more than
    [n], the call returns the empty result while the window holds fewer
    than [n] frames and otherwise the per-field arithmetic mean over the
    window, computed from the frames of the window alone. When the
    stored frames were kept under another window size, they are
    discarded: the window is the new frame alone. For a window size of
    one or less the call returns its own frame and empties the history.
    In the example, three reads with sizes 10.0, 20.0 and 30.0 under
    [n = 3] give nothing, nothing and then 20.0, and a fourth read of
    40.0 under [n = 1] gives 40.0. *)
Theorem rolling_aggregator_law (n : Z) (s : sps30)
  (w : list bool) (r : list (option (list Z))) (d0 : Z) (raw : list Z) :
  _is_measuring s = true ->
  writes s = true :: true :: w ->
  reads s = Some [d0; 1; crc_loop [d0; 1]] :: Some raw :: r ->
  List.length raw = 60%nat ->
  all_valid (decode_validity raw) = true ->
  let s' := snd (get_measurement n s) in
  let conv := ieee754_number_conversion (has_struct s) (float_impl s) in
  let fr := decode_frame conv raw in
  (1 < n ->
   Forall well_formed (kept_frames n s) ->
   let stored := kept_frames n s ++ [fr] in
   let window := if n <? Z.of_nat (List.length stored) then tl stored
                 else stored in
   fst (get_measurement n s)
   = Ok (if Z.of_nat (List.length window) <? n then None
         else Some (clean_result n (mean_frame (float_impl s) window)
                      (ticks s) (_total_crc_errors s)))
   /\ _hist_frames s' = Some window
   /\ _hist_maxlen s' = Some n
   /\ (_hist_maxlen s <> Some n -> window = [fr]))
  /\ (n <= 1 ->
      fst (get_measurement n s)
      = Ok (Some (clean_result 1 fr (ticks s) (_total_crc_errors s)))
      /\ _hist_frames s'
         = match _hist_frames s with Some _ => Some [] | None => None end)
  /\ fst (get_measurement 3 four_sizes) = Ok None
  /\ fst (get_measurement 3 (after_calls 3 1 four_sizes)) = Ok None
  /\ (exists m,
         fst (get_measurement 3 (after_calls 3 2 four_sizes)) = Ok (Some m)
         /\ sd_particle_size (result_sensor_data m)
            = PyFloat.of_int PyFloat.Binary64 20)
  /\ (exists m,
         fst (get_measurement 1 (after_calls 3 3 four_sizes)) = Ok (Some m)
         /\ sd_particle_size (result_sensor_data m)
            = PyFloat.of_int PyFloat.Binary64 40).
Proof.
  intros Hm Hw Hr Hlen Hok s' conv fr. subst s'.
  split; [| split; [| split; [| split; [| split]]]].
  - intros Hn Hwf stored window.
    destruct (run_get_measurement_rolling n s w r d0 _ raw
                Hm Hw Hr eq_refl Hlen Hok Hn Hwf)
      as (s1 & Hrun & Hh & Hml & Hv & Ht & Hl & Hk & _).
    fold conv in Hrun, Hh. unfold conversion_of in Hrun, Hh.
    fold conv in Hrun, Hh. fold fr in Hrun, Hh.
    unfold slide in Hrun, Hh. fold stored in Hrun, Hh.
    fold window in Hrun, Hh.
    rewrite Hrun. cbn [fst snd].
    rewrite (all_valid_every _ Hok) in Hv.
    repeat apply conj; try assumption.
    + destruct (Z.of_nat (List.length window) <? n); [reflexivity |].
      now rewrite (payload_of_clean n _ s1 Hv Hl), Hk, Ht.
    + intros Hother. subst window stored.
      rewrite (kept_frames_other_size n s Hother). cbn [app List.length].
      destruct (Z.ltb_spec n (Z.of_nat 1)); [lia | reflexivity].
  - intros Hn.
    destruct (run_get_measurement_single n s w r d0 _ raw
                Hm Hw Hr eq_refl Hlen Hok Hn)
      as (s1 & Hrun & Hv & Ht & Hl & Hk & _ & _ & _ & Hh & _).
    fold conv in Hrun. unfold conversion_of in Hrun.
    fold conv in Hrun. fold fr in Hrun.
    rewrite Hrun.
    rewrite (all_valid_every _ Hok) in Hv.
    rewrite prepared_hist_one in Hh.
    cbn [fst snd]. split.
    + now rewrite (payload_of_clean 1 _ s1 Hv Hl), Hk, Ht.
    + rewrite Hh. destruct (_hist_frames s); reflexivity.
  - apply four_sizes_run.
  - apply four_sizes_run.
  - apply four_sizes_run.
  - apply four_sizes_run.
Qed.

Lemma rolling_aggregator_law_witness :
  fst (get_measurement 3 four_sizes) = Ok None
  /\ _hist_maxlen (snd (get_measurement 3 four_sizes)) = Some 3.
Proof.
  destruct (rolling_aggregator_law 3 four_sizes (repeat true 6)
              (skipn 2 (reads four_sizes)) 0
              (response_with_size 0x41200000)
              eq_refl eq_refl eq_refl eq_refl) as (H & _).
  - vm_compute. reflexivity.
  - destruct H as (H1 & _ & H3 & _).
    + lia.
    + constructor.
    + split; [| exact H3]. rewrite H1. vm_compute. reflexivity.
Defined.

(** ** The auto-clean interval on the wire *)




(** ** Exact rounding *)

Lemma iter_pos_eq {A : Type} (f : A -> A) (n : positive) (x : A) :
  iter_pos f n x = Pos.iter f x n.
Proof.
  revert x. induction n as [n IH | n IH |]; intros x; cbn [iter_pos Pos.iter].
  - rewrite !IH, <- !Pos.iter_swap. reflexivity.
  - rewrite !IH. reflexivity.
  - reflexivity.
Qed.

Lemma pos_iter_xO (m p : positive) :
  Z.pos (Pos.iter xO m p) = Z.pos m * 2 ^ Z.pos p.
Proof.
  induction p as [| p IH] using Pos.peano_ind.
  - cbn [Pos.iter]. lia.
  - rewrite Pos.iter_succ, Pos2Z.inj_succ, Z.pow_succ_r by lia.
    rewrite Pos2Z.inj_xO, IH. lia.
Qed.

Lemma digits_iter_xO (m p : positive) :
  Z.pos (digits2_pos (Pos.iter xO m p)) = Z.pos (digits2_pos m) + Z.pos p.
Proof.
  induction p as [| p IH] using Pos.peano_ind.
  - cbn [Pos.iter digits2_pos]. lia.
  - rewrite Pos.iter_succ. cbn [digits2_pos]. lia.
Qed.

Lemma shr_iter_xO (m p : positive) :
  iter_pos shr_1 p
    {| shr_m := Z.pos (Pos.iter xO m p); shr_r := false; shr_s := false |}
  = {| shr_m := Z.pos m; shr_r := false; shr_s := false |}.
Proof.
  rewrite iter_pos_eq.
  induction p as [| p IH] using Pos.peano_ind.
  - reflexivity.
  - rewrite !Pos.iter_succ.
    rewrite <- Pos.iter_swap. cbn [shr_1 orb]. exact IH.
Qed.

Section Exact.

Variables prec emax : Z.

(** A mantissa and an exponent that the format holds as they are. *)
Lemma round_aux_id (s : bool) (m : positive) (e : Z) :
  bounded prec emax m e = true ->
  binary_round_aux prec emax s (Z.pos m) e loc_Exact = S754_finite s m e.
Proof.
  unfold bounded, canonical_mantissa. intros H.
  apply andb_prop in H. destruct H as [Hc Hb].
  apply Z.eqb_eq in Hc.
  unfold binary_round_aux, shr_fexp, Zdigits2, shr_record_of_loc.
  rewrite Hc, Z.sub_diag. cbn [shr shr_m loc_of_shr_record round_nearest_even].
  unfold Zdigits2. rewrite Hc, Z.sub_diag. cbn [shr shr_m].
  now rewrite Hb.
Qed.

(** A mantissa with [p] zero bits too many. *)
Lemma round_aux_shift (s : bool) (m p : positive) (e : Z) :
  bounded prec emax m e = true ->
  binary_round_aux prec emax s (Z.pos (Pos.iter xO m p)) (e - Z.pos p)
    loc_Exact
  = S754_finite s m e.
Proof.
  unfold bounded, canonical_mantissa. intros H.
  apply andb_prop in H. destruct H as [Hc Hb].
  apply Z.eqb_eq in Hc.
  unfold binary_round_aux, shr_fexp, Zdigits2, shr_record_of_loc.
  rewrite digits_iter_xO.
  replace (Z.pos (digits2_pos m) + Z.pos p + (e - Z.pos p))
    with (Z.pos (digits2_pos m) + e) by lia.
  rewrite Hc.
  replace (e - (e - Z.pos p)) with (Z.pos p) by lia.
  cbn [shr]. rewrite shr_iter_xO.
  cbn [shr_m loc_of_shr_record round_nearest_even].
  replace (e - Z.pos p + Z.pos p) with e by lia.
  unfold Zdigits2. rewrite Hc, Z.sub_diag. cbn [shr shr_m].
  now rewrite Hb.
Qed.

Lemma round_id (s : bool) (m : positive) (e : Z) :
  bounded prec emax m e = true ->
  binary_round prec emax s m e = S754_finite s m e.
Proof.
  intros H. unfold binary_round.
  pose proof H as H'. unfold bounded, canonical_mantissa in H'.
  apply andb_prop in H'. destruct H' as [Hc _]. apply Z.eqb_eq in Hc.
  rewrite Hc. unfold shl_align. rewrite Z.sub_diag.
  now apply round_aux_id.
Qed.

Lemma round_shr (s : bool) (m p : positive) (e : Z) :
  bounded prec emax m e = true ->
  binary_round prec emax s (Pos.iter xO m p) (e - Z.pos p)
  = S754_finite s m e.
Proof.
  intros H. unfold binary_round.
  pose proof H as H'. unfold bounded, canonical_mantissa in H'.
  apply andb_prop in H'. destruct H' as [Hc _]. apply Z.eqb_eq in Hc.
  rewrite digits_iter_xO.
  replace (Z.pos (digits2_pos m) + Z.pos p + (e - Z.pos p))
    with (Z.pos (digits2_pos m) + e) by lia.
  rewrite Hc. unfold shl_align.
  replace (e - (e - Z.pos p)) with (Z.pos p) by lia.
  now apply round_aux_shift.
Qed.

Lemma round_shl (s : bool) (m p : positive) (e : Z) :
  bounded prec emax (Pos.iter xO m p) (e - Z.pos p) = true ->
  binary_round prec emax s m e
  = S754_finite s (Pos.iter xO m p) (e - Z.pos p).
Proof.
  intros H. unfold binary_round.
  pose proof H as H'. unfold bounded, canonical_mantissa in H'.
  apply andb_prop in H'. destruct H' as [Hc _]. apply Z.eqb_eq in Hc.
  rewrite digits_iter_xO in Hc.
  replace (Z.pos (digits2_pos m) + Z.pos p + (e - Z.pos p))
    with (Z.pos (digits2_pos m) + e) in Hc by lia.
  rewrite Hc. unfold shl_align.
  replace (e - Z.pos p - e) with (Z.neg p) by lia.
  now apply round_aux_id.
Qed.

End Exact.
Lemma digits2_size (m : positive) : digits2_pos m = Pos.size m.
Proof. induction m as [m IH | m IH |]; cbn; now rewrite ?IH. Qed.

Lemma digits_log2 (m : positive) :
  Z.pos (digits2_pos m) = Z.log2 (Z.pos m) + 1.
Proof.
  rewrite digits2_size.
  destruct m as [m | m |]; cbn [Z.log2 Pos.size]; lia.
Qed.

Lemma log2_bounds (v : Z) :
  0 < v -> 2 ^ Z.log2 v <= v < 2 ^ (Z.log2 v + 1).
Proof.
  intros H. pose proof (Z.log2_spec v H) as L.
  now rewrite <- Z.add_1_r in L.
Qed.

Lemma pow2_pos (n : Z) : 0 <= n -> 0 < 2 ^ n.
Proof. intros H. apply Z.pow_pos_nonneg; lia. Qed.

Lemma pow2_split (a b : Z) : 0 <= a -> 0 <= b -> 2 ^ (a + b) = 2 ^ a * 2 ^ b.
Proof. intros. apply Z.pow_add_r; assumption. Qed.

Lemma log2_shift (v n : Z) :
  0 < v -> 0 <= n -> Z.log2 (v * 2 ^ n) = Z.log2 v + n.
Proof.
  intros Hv Hn. rewrite <- Z.shiftl_mul_pow2 by assumption.
  apply Z.log2_shiftl; assumption.
Qed.

Section Dyadic.

Variable fi : PyFloat.float_impl.

Lemma format_bounds : 24 <= (PyFloat.prec fi) /\ 128 <= (PyFloat.emax fi) /\ 3 - (PyFloat.emax fi) - (PyFloat.prec fi) <= -149.
Proof. destruct fi; cbn; lia. Qed.

(** The mantissa and the exponent of [dyadic fi s v k]. *)
Lemma dyadic_canonical (v k : Z) :
  single_range v k ->
  let e0 := Z.max (k + (Z.log2 v + 1) - (PyFloat.prec fi)) (3 - (PyFloat.emax fi) - (PyFloat.prec fi)) in
  let m0 := Z.to_pos (v * 2 ^ (k - e0)) in
  e0 <= k
  /\ Z.pos m0 = v * 2 ^ (k - e0)
  /\ bounded (PyFloat.prec fi) (PyFloat.emax fi) m0 e0 = true.
Proof.
  intros (Hv & Hk & Hk') e0 m0.
  destruct format_bounds as (Hp & He & Hm).
  pose proof (log2_bounds v ltac:(lia)) as Hl.
  assert (Hd : Z.log2 v + 1 <= 24).
  { destruct (Z.leb_spec (Z.log2 v + 1) 24); [assumption |].
    assert (2 ^ 24 <= 2 ^ Z.log2 v) by (apply Z.pow_le_mono_r; lia). lia. }
  pose proof (Z.log2_nonneg v) as Hl0.
  assert (He0 : e0 <= k) by (subst e0; lia).
  assert (Hpos : 0 < v * 2 ^ (k - e0)).
  { apply Z.mul_pos_pos; [lia | apply pow2_pos; lia]. }
  assert (Hm0 : Z.pos m0 = v * 2 ^ (k - e0)).
  { subst m0. now rewrite Z2Pos.id. }
  repeat split; try assumption.
  unfold bounded, canonical_mantissa, fexp, SpecFloat.emin.
  rewrite digits_log2, Hm0, log2_shift by lia.
  apply andb_true_intro. split.
  - apply Z.eqb_eq. subst e0. lia.
  - apply Z.leb_le. subst e0. lia.
Qed.

(** Rounding a mantissa and an exponent that stand for [v * 2^k]. *)
Lemma round_dyadic (s : bool) (m : positive) (e v k : Z) :
  single_range v k ->
  Z.pos m * 2 ^ (e - Z.min e k) = v * 2 ^ (k - Z.min e k) ->
  binary_round (PyFloat.prec fi) (PyFloat.emax fi) s m e = dyadic fi s v k.
Proof.
  intros Hr Hval.
  destruct (dyadic_canonical v k Hr) as (He0 & Hm0 & Hb).
  unfold dyadic.
  set (e0 := Z.max (k + (Z.log2 v + 1) - (PyFloat.prec fi)) (3 - (PyFloat.emax fi) - (PyFloat.prec fi))) in *.
  set (m0 := Z.to_pos (v * 2 ^ (k - e0))) in *.
  destruct (Z.lt_trichotomy e e0) as [Hlt | [Heq | Hgt]].
  - (* more bits than the format has: the rounding shifts them out *)
    rewrite Z.min_l in Hval by lia.
    rewrite Z.sub_diag, Z.mul_1_r in Hval.
    set (p := Z.to_pos (e0 - e)).
    assert (Hp : Z.pos p = e0 - e) by (subst p; rewrite Z2Pos.id; lia).
    assert (Hm : m = Pos.iter xO m0 p).
    { apply Pos2Z.inj. rewrite pos_iter_xO, Hp, Hm0, Hval.
      rewrite <- Z.mul_assoc, <- pow2_split by lia.
      f_equal. f_equal. lia. }
    pose proof (round_shr (PyFloat.prec fi) (PyFloat.emax fi) s m0 p e0 Hb) as R.
    replace (e0 - Z.pos p) with e in R by lia.
    rewrite <- Hm in R. exact R.
  - subst e.
    assert (Hm : m = m0).
    { apply Pos2Z.inj. rewrite Hm0.
      rewrite Z.min_l in Hval by lia.
      rewrite Z.sub_diag, Z.mul_1_r in Hval. exact Hval. }
    rewrite Hm. now apply round_id.
  - set (p := Z.to_pos (e - e0)).
    assert (Hp : Z.pos p = e - e0) by (subst p; rewrite Z2Pos.id; lia).
    assert (Hm : m0 = Pos.iter xO m p).
    { apply Pos2Z.inj. rewrite pos_iter_xO, Hp, Hm0.
      destruct (Z.le_ge_cases e k) as [Hek | Hek].
      - rewrite Z.min_l in Hval by lia.
        rewrite Z.sub_diag, Z.mul_1_r in Hval. rewrite Hval.
        rewrite <- Z.mul_assoc, <- pow2_split by lia.
        f_equal. f_equal. lia.
      - rewrite Z.min_r in Hval by lia.
        rewrite Z.sub_diag, Z.mul_1_r in Hval. rewrite <- Hval.
        rewrite <- Z.mul_assoc, <- pow2_split by lia.
        f_equal. f_equal. lia. }
    assert (Hb' : bounded (PyFloat.prec fi) (PyFloat.emax fi) (Pos.iter xO m p) (e - Z.pos p) = true).
    { rewrite <- Hm. replace (e - Z.pos p) with e0 by lia. exact Hb. }
    pose proof (round_shl (PyFloat.prec fi) (PyFloat.emax fi) s m p e Hb') as R.
    replace (e - Z.pos p) with e0 in R by lia.
    rewrite <- Hm in R. exact R.
Qed.

(** The same for the rounding step of the operations, which only
    shifts to the right. *)
Lemma round_aux_dyadic (s : bool) (m : positive) (e v k : Z) :
  single_range v k ->
  e <= Z.max (k + (Z.log2 v + 1) - (PyFloat.prec fi)) (3 - (PyFloat.emax fi) - (PyFloat.prec fi)) ->
  Z.pos m = v * 2 ^ (k - e) ->
  binary_round_aux (PyFloat.prec fi) (PyFloat.emax fi) s (Z.pos m) e loc_Exact = dyadic fi s v k.
Proof.
  intros Hr He Hval.
  destruct (dyadic_canonical v k Hr) as (He0 & Hm0 & Hb).
  unfold dyadic.
  set (e0 := Z.max (k + (Z.log2 v + 1) - (PyFloat.prec fi)) (3 - (PyFloat.emax fi) - (PyFloat.prec fi))) in *.
  set (m0 := Z.to_pos (v * 2 ^ (k - e0))) in *.
  destruct (Z.eq_dec e e0) as [-> | Hne].
  - assert (Hm : m = m0) by (apply Pos2Z.inj; congruence).
    rewrite Hm. now apply round_aux_id.
  - set (p := Z.to_pos (e0 - e)).
    assert (Hp : Z.pos p = e0 - e) by (subst p; rewrite Z2Pos.id; lia).
    assert (Hm : m = Pos.iter xO m0 p).
    { apply Pos2Z.inj. rewrite pos_iter_xO, Hp, Hm0, Hval.
      rewrite <- Z.mul_assoc, <- pow2_split by lia.
      f_equal. f_equal. lia. }
    pose proof (round_aux_shift (PyFloat.prec fi) (PyFloat.emax fi) s m0 p e0 Hb) as R.
    replace (e0 - Z.pos p) with e in R by lia.
    rewrite <- Hm in R. exact R.
Qed.

End Dyadic.
Section Operations.

Variable fi : PyFloat.float_impl.

Lemma log2_below (v n : Z) : 0 < v < 2 ^ n -> Z.log2 v < n.
Proof. intros H. apply Z.log2_lt_pow2; lia. Qed.

Lemma single_range_intro (v k : Z) :
  0 < v < 2 ^ 24 -> -149 <= k <= 104 -> single_range v k.
Proof.
  intros Hv Hk. pose proof (log2_below v 24 Hv).
  unfold single_range. lia.
Qed.

Lemma single_range_pow2 (j : Z) : -149 <= j <= 127 -> single_range 1 j.
Proof. intros H. unfold single_range. cbn. lia. Qed.

(** [float(v)] for a positive integer of at most 24 bits. *)
Lemma of_int_dyadic (v : Z) :
  0 < v < 2 ^ 24 -> PyFloat.of_int fi v = dyadic fi false v 0.
Proof.
  intros Hv. unfold PyFloat.of_int.
  destruct v as [| p | p]; try lia.
  cbn [binary_normalize]. apply round_dyadic.
  - apply single_range_intro; lia.
  - reflexivity.
Qed.

(** [(-1) ** sign_bit] as a float. *)
Lemma of_int_sign (b : bool) :
  PyFloat.of_int fi ((-1) ^ (if b then 1 else 0)) = dyadic fi b 1 0.
Proof.
  unfold PyFloat.of_int.
  destruct b; cbn [Z.pow Z.pow_pos Pos.iter Z.mul Pos.mul binary_normalize];
    apply round_dyadic; try (apply single_range_pow2; lia); reflexivity.
Qed.

(** [2 ** exp] for the exponents of the normal numbers. *)
Lemma pow2_dyadic (j : Z) :
  -126 <= j <= 127 -> PyFloat.pow2 fi j = dyadic fi false 1 j.
Proof.
  intros Hj. unfold PyFloat.pow2.
  destruct (Z.ltb_spec j 0) as [Hneg | Hpos].
  - apply round_dyadic; [apply single_range_pow2; lia |].
    rewrite Z.min_id. reflexivity.
  - unfold PyFloat.of_int.
    pose proof (pow2_pos j Hpos) as Hp.
    destruct (2 ^ j) as [| p | p] eqn:E; try lia.
    cbn [binary_normalize]. apply round_dyadic;
      [apply single_range_pow2; lia |].
    rewrite Z.min_l by lia.
    rewrite !Z.sub_0_r, Z.pow_0_r, E. lia.
Qed.

(** A normal number times a power of two. *)
Lemma mul_dyadic_pow2 (sx sy : bool) (v k j : Z) :
  single_range v k -> -126 <= k + Z.log2 v -> -126 <= j <= 127 ->
  single_range v (k + j) ->
  PyFloat.mul fi (dyadic fi sx v k) (dyadic fi sy 1 j)
  = dyadic fi (xorb sx sy) v (k + j).
Proof.
  intros Hr Hn Hj Hr'.
  destruct (format_bounds fi) as (Hp & He & Hm).
  destruct (dyadic_canonical fi v k Hr) as (He1 & Hm1 & _).
  destruct (dyadic_canonical fi 1 j (single_range_pow2 j ltac:(lia)))
    as (He2 & Hm2 & _).
  unfold PyFloat.mul, dyadic at 1 2. cbn [SFmul].
  set (e1 := Z.max (k + (Z.log2 v + 1) - (PyFloat.prec fi)) (3 - (PyFloat.emax fi) - (PyFloat.prec fi))) in *.
  set (e2 := Z.max (j + (Z.log2 1 + 1) - (PyFloat.prec fi)) (3 - (PyFloat.emax fi) - (PyFloat.prec fi))) in *.
  assert (E1 : e1 = k + (Z.log2 v + 1) - (PyFloat.prec fi)) by (subst e1; lia).
  assert (E2 : e2 = j + 1 - (PyFloat.prec fi)) by (subst e2; cbn [Z.log2]; lia).
  destruct Hr as (Hv & _).
  pose proof (Z.log2_nonneg v) as Hl0.
  pose proof (log2_below v 24 Hv) as Hl1.
  apply round_aux_dyadic; [exact Hr' | lia |].
  rewrite Pos2Z.inj_mul, Hm1, Hm2, Z.mul_1_l, <- Z.mul_assoc.
  rewrite <- pow2_split by lia. f_equal. f_equal. lia.
Qed.

Lemma mul_finite_comm (sx sy : bool) (mx my : positive) (ex ey : Z) :
  PyFloat.mul fi (S754_finite sx mx ex) (S754_finite sy my ey)
  = PyFloat.mul fi (S754_finite sy my ey) (S754_finite sx mx ex).
Proof.
  unfold PyFloat.mul. cbn [SFmul].
  now rewrite xorb_comm, Pos.mul_comm, Z.add_comm.
Qed.

(** [f / (1 << 23)] for a fraction field that is not zero. *)
Lemma div_frac (f : Z) :
  0 < f < 2 ^ 23 ->
  PyFloat.int_truediv fi f (Z.shiftl 1 23) = dyadic fi false f (-23).
Proof.
  intros Hf. unfold PyFloat.int_truediv.
  change (Z.shiftl 1 23) with 8388608.
  rewrite (of_int_dyadic f), (of_int_dyadic 8388608) by lia.
  destruct (format_bounds fi) as (Hp & He & Hm).
  assert (Hr1 : single_range f 0) by (apply single_range_intro; lia).
  assert (Hr2 : single_range 8388608 0) by (apply single_range_intro; lia).
  assert (Hr : single_range f (-23)) by (apply single_range_intro; lia).
  destruct (dyadic_canonical fi f 0 Hr1) as (He1 & Hm1 & Hb1).
  destruct (dyadic_canonical fi 8388608 0 Hr2) as (He2 & Hm2 & Hb2).
  pose proof (Z.log2_nonneg f) as Hl0.
  pose proof (log2_below f 23 ltac:(lia)) as Hl1.
  unfold PyFloat.div, dyadic at 1 2. cbn [SFdiv].
  set (e1 := Z.max (0 + (Z.log2 f + 1) - (PyFloat.prec fi)) (3 - (PyFloat.emax fi) - (PyFloat.prec fi))) in *.
  set (e2 := Z.max (0 + (Z.log2 8388608 + 1) - (PyFloat.prec fi)) (3 - (PyFloat.emax fi) - (PyFloat.prec fi))) in *.
  set (m1 := Z.to_pos (f * 2 ^ (0 - e1))) in *.
  set (m2 := Z.to_pos (8388608 * 2 ^ (0 - e2))) in *.
  assert (E1 : e1 = Z.log2 f + 1 - (PyFloat.prec fi)) by (subst e1; lia).
  assert (E2 : e2 = 24 - (PyFloat.prec fi)) by (subst e2; cbn [Z.log2 Pos.size]; lia).
  assert (D1 : Z.pos (digits2_pos m1) = (PyFloat.prec fi)).
  { rewrite digits_log2, Hm1, log2_shift by lia. lia. }
  assert (D2 : Z.pos (digits2_pos m2) = (PyFloat.prec fi)).
  { rewrite digits_log2, Hm2, log2_shift by lia.
    cbn [Z.log2 Pos.size]. lia. }
  unfold SFdiv_core_binary, Zdigits2. rewrite D1, D2.
  unfold fexp, SpecFloat.emin.
  replace (Z.min (Z.max ((PyFloat.prec fi) + e1 - ((PyFloat.prec fi) + e2) - (PyFloat.prec fi)) (3 - (PyFloat.emax fi) - (PyFloat.prec fi)))
             (e1 - e2))
    with (e1 - e2 - (PyFloat.prec fi)) by lia.
  replace (e1 - e2 - (e1 - e2 - (PyFloat.prec fi))) with (PyFloat.prec fi) by lia.
  assert (Hshift : match (PyFloat.prec fi) with
                   | Z.pos _ => Z.shiftl (Z.pos m1) (PyFloat.prec fi)
                   | 0 => Z.pos m1
                   | Z.neg _ => 0
                   end = Z.pos m1 * 2 ^ (PyFloat.prec fi)).
  { destruct (PyFloat.prec fi) eqn:Eprec; try lia.
    rewrite Z.shiftl_mul_pow2 by lia. reflexivity. }
  rewrite Hshift.
  assert (Hm2' : Z.pos m2 = 2 ^ ((PyFloat.prec fi) - 1)).
  { rewrite Hm2, E2. change 8388608 with (2 ^ 23).
    rewrite <- pow2_split by lia. f_equal. lia. }
  assert (Hq : Z.div_eucl (Z.pos m1 * 2 ^ (PyFloat.prec fi)) (Z.pos m2)
               = (Z.pos (xO m1), 0)).
  { pose proof (Z_div_mod (Z.pos m1 * 2 ^ (PyFloat.prec fi)) (Z.pos m2) ltac:(lia)) as Hd.
    destruct (Z.div_eucl (Z.pos m1 * 2 ^ (PyFloat.prec fi)) (Z.pos m2)) as [q r].
    destruct Hd as [Hd1 Hd2].
    replace (2 ^ (PyFloat.prec fi)) with (2 * Z.pos m2) in Hd1
      by (rewrite Hm2', <- Z.pow_succ_r by lia; f_equal; lia).
    assert (q = 2 * Z.pos m1) by nia.
    assert (r = 0) by nia.
    subst q r. reflexivity. }
  rewrite Hq.
  assert (Hloc : new_location (Z.pos m2) 0 = loc_Exact).
  { unfold new_location, new_location_even, new_location_odd.
    destruct (Z.even (Z.pos m2)); reflexivity. }
  rewrite Hloc.
  apply round_aux_dyadic; [exact Hr | lia |].
  rewrite Pos2Z.inj_xO, Hm1, Z.mul_assoc, (Z.mul_comm 2 f), <- Z.mul_assoc.
  f_equal. rewrite <- Z.pow_succ_r by lia. f_equal. lia.
Qed.

(** [1 + f / (1 << 23)]: the mantissa with its leading one. *)
Lemma add_one_frac (f : Z) :
  0 < f < 2 ^ 23 ->
  PyFloat.add fi (dyadic fi false 1 0) (dyadic fi false f (-23))
  = dyadic fi false (2 ^ 23 + f) (-23).
Proof.
  intros Hf.
  destruct (format_bounds fi) as (Hp & He & Hm).
  assert (Hr1 : single_range 1 0) by (apply single_range_pow2; lia).
  assert (Hr2 : single_range f (-23)) by (apply single_range_intro; lia).
  assert (Hr : single_range (2 ^ 23 + f) (-23))
    by (apply single_range_intro; lia).
  destruct (dyadic_canonical fi 1 0 Hr1) as (He1 & Hm1 & Hb1).
  destruct (dyadic_canonical fi f (-23) Hr2) as (He2 & Hm2 & Hb2).
  pose proof (Z.log2_nonneg f) as Hl0.
  pose proof (log2_below f 23 ltac:(lia)) as Hl1.
  unfold PyFloat.add, dyadic at 1 2. cbn [SFadd].
  set (e1 := Z.max (0 + (Z.log2 1 + 1) - (PyFloat.prec fi)) (3 - (PyFloat.emax fi) - (PyFloat.prec fi))) in *.
  set (e2 := Z.max (-23 + (Z.log2 f + 1) - (PyFloat.prec fi)) (3 - (PyFloat.emax fi) - (PyFloat.prec fi))) in *.
  set (m1 := Z.to_pos (1 * 2 ^ (0 - e1))) in *.
  set (m2 := Z.to_pos (f * 2 ^ (-23 - e2))) in *.
  assert (E1 : e1 = 1 - (PyFloat.prec fi)) by (subst e1; cbn [Z.log2]; lia).
  assert (E2 : e2 = Z.log2 f - 22 - (PyFloat.prec fi)) by (subst e2; lia).
  rewrite Z.min_r by lia.
  set (p := Z.to_pos (e1 - e2)).
  assert (Hp' : Z.pos p = e1 - e2) by (subst p; rewrite Z2Pos.id; lia).
  unfold shl_align. rewrite Z.sub_diag.
  replace (e2 - e1) with (Z.neg p) by lia.
  cbn [fst cond_Zopp Z.add binary_normalize].
  apply round_dyadic; [exact Hr |].
  rewrite Z.min_l by lia. rewrite Z.sub_diag, Z.mul_1_r.
  rewrite Pos2Z.inj_add, pos_iter_xO, Hm1, Hm2, Hp', Z.mul_1_l.
  rewrite Z.mul_add_distr_r. f_equal.
  rewrite <- !pow2_split by lia. f_equal. lia.
Qed.

End Operations.
Lemma fields_range (u32 : Z) :
  0 <= exponent_field u32 < 256 /\ 0 <= fraction_field u32 < 2 ^ 23.
Proof.
  unfold exponent_field, fraction_field.
  change 0xFF with (Z.ones 8). change 0x7FFFFF with (Z.ones 23).
  rewrite !Z.land_ones by lia. split; apply Z.mod_pos_bound; lia.
Qed.

Section Decoders.

Variable fi : PyFloat.float_impl.

(** A power of two times a normal number. *)
Lemma mul_pow2_dyadic (sx sy : bool) (v k : Z) :
  single_range v k -> -126 <= k + Z.log2 v ->
  PyFloat.mul fi (dyadic fi sx 1 0) (dyadic fi sy v k) = dyadic fi (xorb sx sy) v k.
Proof.
  intros Hr Hn.
  pose proof (mul_dyadic_pow2 fi sy sx v k 0 Hr Hn ltac:(lia)) as R.
  rewrite Z.add_0_r, xorb_comm in R. rewrite <- (R Hr).
  unfold dyadic. apply mul_finite_comm.
Qed.

(** The mantissa of a normal number. *)
Lemma mantissa_with_leading_one (f : Z) :
  0 <= f < 2 ^ 23 ->
  PyFloat.add fi (PyFloat.of_int fi 1)
    (PyFloat.int_truediv fi f (Z.shiftl 1 23))
  = dyadic fi false (2 ^ 23 + f) (-23).
Proof.
  intros Hf. rewrite (of_int_dyadic fi 1) by lia.
  destruct (Z.eq_dec f 0) as [-> | Hne].
  - unfold PyFloat.int_truediv. change (Z.shiftl 1 23) with 8388608.
    rewrite (of_int_dyadic fi 8388608) by lia.
    destruct fi; reflexivity.
  - rewrite div_frac by lia. apply add_one_frac. lia.
Qed.

(** The fallback path on a normal word. *)
Lemma fallback_normal (u32 : Z) :
  exponent_field u32 <> 0 -> exponent_field u32 <> 0xFF ->
  ieee754_number_conversion false fi u32
  = dyadic fi (Z.testbit u32 31) (2 ^ 23 + fraction_field u32)
      (exponent_field u32 - 150).
Proof.
  intros H0 H255.
  destruct (fields_range u32) as (He & Hf).
  unfold ieee754_number_conversion. cbv zeta.
  change (Z.land (Z.shiftr (Z.land u32 0xFFFFFFFF) 23) 0xFF)
    with (exponent_field u32).
  change (Z.land (Z.land u32 0xFFFFFFFF) 0x7FFFFF)
    with (fraction_field u32).
  rewrite sign_of_word.
  set (E := exponent_field u32) in *. set (F := fraction_field u32) in *.
  destruct (Z.eqb_spec E 0) as [| _]; [contradiction |].
  destruct (Z.eqb_spec E 0xFF) as [| _]; [contradiction |].
  cbn [andb].
  rewrite mantissa_with_leading_one, of_int_sign, pow2_dyadic by lia.
  assert (Hr : single_range (2 ^ 23 + F) (-23))
    by (apply single_range_intro; lia).
  assert (Hl : Z.log2 (2 ^ 23 + F) = 23).
  { apply Z.log2_unique; lia. }
  rewrite mul_pow2_dyadic by (try assumption; lia).
  rewrite mul_dyadic_pow2; try assumption; try lia.
  - rewrite !xorb_false_r. f_equal. lia.
  - unfold single_range. rewrite Hl. lia.
Qed.

(** The fallback path on a subnormal word. *)
Lemma fallback_subnormal (u32 : Z) :
  exponent_field u32 = 0 -> fraction_field u32 <> 0 ->
  ieee754_number_conversion false fi u32
  = dyadic fi (Z.testbit u32 31) (fraction_field u32) (-149).
Proof.
  intros H0 Hf0.
  destruct (fields_range u32) as (He & Hf).
  unfold ieee754_number_conversion. cbv zeta.
  change (Z.land (Z.shiftr (Z.land u32 0xFFFFFFFF) 23) 0xFF)
    with (exponent_field u32).
  change (Z.land (Z.land u32 0xFFFFFFFF) 0x7FFFFF)
    with (fraction_field u32).
  rewrite sign_of_word, H0.
  set (F := fraction_field u32) in *.
  destruct (Z.eqb_spec F 0) as [| _]; [contradiction |].
  change (0 =? 0) with true. change (0 =? 0xFF) with false.
  cbn [andb]. change (1 - 127) with (-126).
  rewrite div_frac, of_int_sign, pow2_dyadic by lia.
  assert (Hr : single_range F (-23)) by (apply single_range_intro; lia).
  pose proof (Z.log2_nonneg F) as Hl0.
  pose proof (log2_below F 23 ltac:(lia)) as Hl1.
  rewrite mul_pow2_dyadic by (try assumption; lia).
  rewrite mul_dyadic_pow2; try assumption; try lia.
  - rewrite !xorb_false_r. reflexivity.
  - unfold single_range. lia.
Qed.

(** The [struct] path on a word that is neither a zero nor special. *)
Lemma struct_finite (u32 : Z) :
  exponent_field u32 <> 0xFF ->
  exponent_field u32 <> 0 \/ fraction_field u32 <> 0 ->
  ieee754_number_conversion true fi u32
  = if exponent_field u32 =? 0
    then dyadic fi (Z.testbit u32 31) (fraction_field u32) (-149)
    else dyadic fi (Z.testbit u32 31) (2 ^ 23 + fraction_field u32)
           (exponent_field u32 - 150).
Proof.
  intros H255 Hnz.
  destruct (fields_range u32) as (He & Hf).
  unfold ieee754_number_conversion, PyFloat.unpack_f32. cbv zeta.
  change (Z.land (Z.shiftr (Z.land u32 0xFFFFFFFF) 23) 0xFF)
    with (exponent_field u32).
  change (Z.land (Z.land u32 0xFFFFFFFF) 0x7FFFFF)
    with (fraction_field u32).
  rewrite testbit_31_masked.
  set (E := exponent_field u32) in *. set (F := fraction_field u32) in *.
  destruct (Z.eqb_spec E 0xFF) as [| _]; [contradiction |].
  change 0x800000 with (2 ^ 23).
  assert (Hgen : forall (s : bool) (m k : Z),
             single_range m k ->
             binary_normalize (PyFloat.prec fi) (PyFloat.emax fi)
               (if s then - m else m) k s
             = dyadic fi s m k).
  { intros s m k Hr.
    assert (Hm : 0 < m) by (destruct Hr as ((? & _) & _); lia).
    destruct m as [| p | p]; try lia.
    destruct s; cbn [Z.opp binary_normalize]; apply round_dyadic;
      try assumption; rewrite Z.min_id; reflexivity. }
  destruct (Z.eqb_spec E 0) as [HE | HE].
  - apply Hgen. unfold single_range.
    pose proof (Z.log2_nonneg F). pose proof (log2_below F 23 ltac:(lia)).
    lia.
  - apply Hgen. unfold single_range.
    assert (Hl : Z.log2 (2 ^ 23 + F) = 23) by (apply Z.log2_unique; lia).
    rewrite Hl. lia.
Qed.

End Decoders.
(** ** The value of a decoded word *)

Lemma to_Q_finite (s : bool) (m : positive) (e : Z) :
  exists q,
    PyFloat.to_Q (S754_finite s m e) = Some q
    /\ (q == (if s then - (1) else 1) * (inject_Z (Z.pos m) * 2 ^ e))%Q.
Proof.
  unfold PyFloat.to_Q. eexists. split; [reflexivity |].
  assert (Hmag : ((if 0 <=? e then inject_Z (Z.pos m * 2 ^ e)
                   else Z.pos m # Z.to_pos (2 ^ (- e)))
                  == inject_Z (Z.pos m) * 2 ^ e)%Q).
  { destruct (Z.leb_spec 0 e) as [He | He].
    - rewrite inject_Z_mult, Zpower_Qpower by assumption. reflexivity.
    - rewrite Qmake_Qdiv, Z2Pos.id by (apply pow2_pos; lia).
      rewrite Zpower_Qpower by lia.
      replace e with (- - e)%Z at 2 by lia.
      rewrite (Qpower_opp 2 (- e)). reflexivity. }
  destruct s; rewrite Hmag; ring.
Qed.

Lemma to_Q_dyadic (fi : PyFloat.float_impl) (s : bool) (v k : Z) :
  single_range v k ->
  exists q,
    PyFloat.to_Q (dyadic fi s v k) = Some q
    /\ (q == (if s then - (1) else 1) * (inject_Z v * 2 ^ k))%Q.
Proof.
  intros Hr. destruct (dyadic_canonical fi v k Hr) as (He0 & Hm0 & _).
  unfold dyadic.
  set (e0 := Z.max (k + (Z.log2 v + 1) - PyFloat.prec fi)
               (3 - PyFloat.emax fi - PyFloat.prec fi)) in *.
  destruct (to_Q_finite s (Z.to_pos (v * 2 ^ (k - e0))) e0) as (q & Hq & Hv).
  exists q. split; [exact Hq |].
  rewrite Hv, Hm0, inject_Z_mult, Zpower_Qpower by lia.
  replace k with (k - e0 + e0)%Z at 2 by lia.
  rewrite (Qpower_plus 2 (k - e0) e0) by discriminate.
  change (inject_Z 2) with 2%Q.
  generalize (2 ^ (k - e0))%Q (2 ^ e0)%Q. intros a b. ring.
Qed.
Lemma decode_zero_word (struct_available : bool) (fi : PyFloat.float_impl)
  (u32 : Z) :
  exponent_field u32 = 0 -> fraction_field u32 = 0 ->
  ieee754_number_conversion struct_available fi u32
  = S754_zero (Z.testbit u32 31).
Proof.
  unfold exponent_field, fraction_field. intros He Hf.
  unfold ieee754_number_conversion, PyFloat.unpack_f32.
  cbv zeta. rewrite He, Hf, testbit_31_masked, sign_of_word.
  change (0 =? 0) with true. change (0 =? 255) with false.
  cbn [andb negb].
  destruct struct_available; destruct (Z.testbit u32 31); destruct fi;
    vm_compute; reflexivity.
Qed.

Lemma decode_special_word (struct_available : bool)
  (fi : PyFloat.float_impl) (u32 : Z) :
  exponent_field u32 = 0xFF ->
  ieee754_number_conversion struct_available fi u32
  = if fraction_field u32 =? 0 then S754_infinity (Z.testbit u32 31)
    else S754_nan.
Proof.
  unfold exponent_field, fraction_field. intros He.
  unfold ieee754_number_conversion, PyFloat.unpack_f32.
  cbv zeta. rewrite He, testbit_31_masked, sign_of_word.
  change (255 =? 0) with false. change (255 =? 255) with true.
  cbn [andb negb].
  destruct (Z.land (Z.land u32 4294967295) 8388607 =? 0);
    destruct struct_available; cbn [negb]; try reflexivity;
    destruct (Z.testbit u32 31); destruct fi; vm_compute; reflexivity.
Qed.

(** Both paths on a word that is neither a zero nor special. *)
Lemma decode_finite_word (struct_available : bool)
  (fi : PyFloat.float_impl) (u32 : Z) :
  exponent_field u32 <> 0xFF ->
  exponent_field u32 <> 0 \/ fraction_field u32 <> 0 ->
  ieee754_number_conversion struct_available fi u32
  = if exponent_field u32 =? 0
    then dyadic fi (Z.testbit u32 31) (fraction_field u32) (-149)
    else dyadic fi (Z.testbit u32 31) (2 ^ 23 + fraction_field u32)
           (exponent_field u32 - 150).
Proof.
  intros H255 Hnz. destruct struct_available.
  - now apply struct_finite.
  - destruct (Z.eqb_spec (exponent_field u32) 0) as [HE | HE].
    + apply fallback_subnormal; [assumption | tauto].
    + now apply fallback_normal.
Qed.

Lemma two_to_minus_23 : (2 ^ (-23) == / (8388608 # 1))%Q.
Proof. vm_compute. reflexivity. Qed.

Lemma two_to_minus_149 : (2 ^ (-149) == 2 ^ (-126) * / (8388608 # 1))%Q.
Proof. vm_compute. reflexivity. Qed.

(** The decoded float of a word that is not special stands for the
    number of the layout, with the sign of the word. *)
Lemma decoded_value (struct_available : bool) (fi : PyFloat.float_impl)
  (u32 : Z) :
  exponent_field u32 <> 0xFF ->
  exists q,
    PyFloat.to_Q (ieee754_number_conversion struct_available fi u32) = Some q
    /\ (q == layout_value u32)%Q
    /\ sign_of (ieee754_number_conversion struct_available fi u32)
       = Z.testbit u32 31.
Proof.
  intros H255. destruct (fields_range u32) as (He & Hf).
  unfold layout_value. cbv zeta.
  destruct (Z.eq_dec (exponent_field u32) 0) as [HE | HE];
    [destruct (Z.eq_dec (fraction_field u32) 0) as [HF | HF] |].
  - rewrite (decode_zero_word _ _ _ HE HF), HE, HF.
    exists 0%Q. repeat split.
    change (0 =? 0) with true. cbv iota.
    generalize (if Z.testbit u32 31 then (- (1))%Q else 1%Q). intros sg.
    unfold Qdiv. change (inject_Z 0) with 0%Q. ring.
  - rewrite decode_finite_word by tauto. rewrite HE.
    change (0 =? 0) with true. cbv iota.
    assert (Hr : single_range (fraction_field u32) (-149)).
    { unfold single_range.
      pose proof (Z.log2_nonneg (fraction_field u32)).
      pose proof (log2_below (fraction_field u32) 23 ltac:(lia)). lia. }
    destruct (to_Q_dyadic fi (Z.testbit u32 31) _ _ Hr) as (q & Hq & Hv).
    exists q. repeat split; [exact Hq |].
    rewrite Hv, two_to_minus_149.
    change (inject_Z (2 ^ 23)) with (8388608 # 1)%Q.
    generalize (if Z.testbit u32 31 then (- (1))%Q else 1%Q)
               (inject_Z (fraction_field u32)) (2 ^ (-126))%Q.
    intros sg f a. unfold Qdiv. ring.
  - rewrite decode_finite_word by tauto.
    destruct (Z.eqb_spec (exponent_field u32) 0) as [| _]; [contradiction |].
    assert (Hl : Z.log2 (2 ^ 23 + fraction_field u32) = 23)
      by (apply Z.log2_unique; lia).
    assert (Hr : single_range (2 ^ 23 + fraction_field u32)
                   (exponent_field u32 - 150)).
    { unfold single_range. rewrite Hl. lia. }
    destruct (to_Q_dyadic fi (Z.testbit u32 31) _ _ Hr) as (q & Hq & Hv).
    exists q. repeat split; [exact Hq |].
    rewrite Hv.
    replace (exponent_field u32 - 150)
      with (exponent_field u32 - 127 + -23)%Z by lia.
    rewrite (Qpower_plus 2 (exponent_field u32 - 127) (-23)) by discriminate.
    rewrite two_to_minus_23, inject_Z_plus.
    change (inject_Z (2 ^ 23)) with (8388608 # 1)%Q.
    generalize (if Z.testbit u32 31 then (- (1))%Q else 1%Q)
               (inject_Z (fraction_field u32))
               (2 ^ (exponent_field u32 - 127))%Q.
    intros sg f a. field.
Qed.
(** C7. The decoder implements the single-precision layout, on both
    paths of [ieee754_number_conversion] (with [struct] and without) and
    in both float formats of the platform. With the sign bit (bit 31),
    the 8-bit exponent field and the 23-bit fraction field of the word:
    a word whose exponent field is not all ones decodes to a finite
    float that stands exactly for the number of the layout,
    [(-1)^sign * (1 + fraction / 2^23) * 2^(exponent - 127)] for a
    normal word and [(-1)^sign * (fraction / 2^23) * 2^(-126)] for an
    exponent field of zero, and it carries the sign of the word (so
    there are two zeros); a word whose exponent field is all ones
    decodes to the infinity of its sign when the fraction is zero and
    to a NaN otherwise. The listed words decode to +0.0, -0.0, 1.0,
    the single-precision neighbour of pi ([13176795 / 2^22], which is
    above 3.14159265358980 and less than [2^-23] above 3.14159265358979,
    the two decimals that enclose pi), +infinity, -infinity, and a NaN
    that is not equal to itself. The bit-twiddling decoder of the test
    file is the fallback path. *)
Theorem single_precision_layout (struct_available : bool)
  (fi : PyFloat.float_impl) (u32 : Z) :
  let decode := ieee754_number_conversion struct_available fi in
  (exponent_field u32 <> 0xFF ->
   exists q,
     PyFloat.to_Q (decode u32) = Some q
     /\ (q == layout_value u32)%Q
     /\ sign_of (decode u32) = Z.testbit u32 31)
  /\ (exponent_field u32 = 0xFF ->
      decode u32 = if fraction_field u32 =? 0
                   then S754_infinity (Z.testbit u32 31)
                   else S754_nan)
  /\ decode 0x00000000 = PyFloat.zero
  /\ decode 0x80000000 = PyFloat.neg_zero
  /\ decode 0x3F800000 = PyFloat.of_int fi 1
  /\ (exists q,
         PyFloat.to_Q (decode 0x3F800000) = Some q /\ (q == 1)%Q)
  /\ (exists q,
         PyFloat.to_Q (decode 0x40490FDB) = Some q
         /\ (q == 13176795 # 4194304)%Q
         /\ (314159265358980 # 100000000000000 <= q)%Q
         /\ (q - (314159265358979 # 100000000000000) < 1 # 8388608)%Q)
  /\ decode 0x7F800000 = S754_infinity false
  /\ decode 0xFF800000 = S754_infinity true
  /\ decode 0x7FC00000 = PyFloat.nan
  /\ PyFloat.eqb (decode 0x7FC00000) (decode 0x7FC00000) = false
  /\ IEEE754.ieee754_to_float fi u32
     = ieee754_number_conversion false fi u32.
Proof.
  intros decode. subst decode.
  split; [apply decoded_value |].
  split; [apply decode_special_word |].
  split; [destruct struct_available, fi; vm_compute; reflexivity |].
  split; [destruct struct_available, fi; vm_compute; reflexivity |].
  split; [destruct struct_available, fi; vm_compute; reflexivity |].
  split.
  { destruct struct_available, fi; eexists;
      (split; [vm_compute; reflexivity | vm_compute; reflexivity]). }
  split.
  { destruct struct_available, fi; eexists;
      (split; [vm_compute; reflexivity |]);
      (split; [vm_compute; reflexivity |]);
      (split; [vm_compute; discriminate | vm_compute; reflexivity]). }
  split; [destruct struct_available, fi; vm_compute; reflexivity |].
  split; [destruct struct_available, fi; vm_compute; reflexivity |].
  split; [destruct struct_available, fi; vm_compute; reflexivity |].
  split; [destruct struct_available, fi; vm_compute; reflexivity |].
  reflexivity.
Qed.

Lemma single_precision_layout_witness :
  exists q,
    PyFloat.to_Q (ieee754_number_conversion false PyFloat.Binary32 0x40490FDB)
    = Some q
    /\ (q == layout_value 0x40490FDB)%Q.
Proof.
  destruct (single_precision_layout false PyFloat.Binary32 0x40490FDB)
    as (H & _).
  destruct H as (q & Hq & Hv & _).
  - vm_compute. discriminate.
  - exists q. split; [exact Hq | exact Hv].
Defined.
